(** * spiketoolkit: ground-truth study store, aggregation and metric thresholds

    A shallow embedding of
      - [spiketoolkit/comparison/groundtruthstudy.py]
      - [spiketoolkit/curation/threshold_metrics.py]
        ([threshold_num_spikes], [threshold_firing_rates],
         [threshold_presence_ratios], [threshold_isi_violations])
      - [spiketoolkit/sorters/mountainsort4/mountainsort4.py]
        ([_mountainsort4])

    Python values are modelled as follows.
      - [str]: [string]; a character is an [ascii].
      - [pathlib.Path]: a path value ([study_folder], an output folder) is
        the list of its segments, without [".."]; [p // s] is [p / s] for a
        literal segment [s] (['raw_files'], ['names.txt']).  A recording name
        is a text: a file named by a folder and a name is found as [pathlib]
        and the operating system find it, see [os.locate]: the name is split
        at ["/"], an absolute name starts from the root, [".."] climbs, and
        every folder on the way has to be there.  The separator is the one of
        POSIX, links are left out, and the working directory is the root of
        the file system (the empty path).
      - the file system: a finite map from paths to directory or file entries;
        a file holds its text, a character being its code point, below 256.
      - an exception: a value of [exn]; code that may raise lives in [result]
        (pure code) or in [M] (code that works on the file system).  A raised
        exception keeps the file system as it was at the raise, so partial
        effects stay visible.
      - [dict]: [gmap] where only lookups matter, an association list where the
        insertion order is observable ([gt_dict], whose order is written to
        [names.txt]).
      - [float]: the decimal literal that was parsed, see [pyfloat].
    Functions of this repository that live outside the files above
    ([spiketoolkit.sorters], [.groundtruthcomparison], [spiketoolkit.validation])
    are the methods of interface classes: a statement is about every
    implementation of them, under the assumptions on them that it names. *)

From Stdlib Require Import ZArith String Ascii List.
From stdpp Require Import base option list gmap strings fin_maps.

Open Scope string_scope.
Open Scope Z_scope.

#[global] Set Warnings "-clear-no-such-hyp".

(** ** Python strings *)

Module PyStr.

Definition LF : ascii := "010"%char.
Definition CR : ascii := "013"%char.

Definition is_LF (c : ascii) : bool := bool_decide (c = LF).
Definition is_CR (c : ascii) : bool := bool_decide (c = CR).

(** [s.split(sep)] for a one-character separator: never the empty list. *)
Fixpoint split (sep : ascii) (s : string) : list string :=
  match s with
  | EmptyString => [EmptyString]
  | String c s' =>
      if bool_decide (c = sep) then EmptyString :: split sep s'
      else match split sep s' with
           | h :: t => String c h :: t
           | [] => [String c EmptyString]
           end
  end.

(** [s[:-1]]: all but the last character; the empty string stays empty. *)
Fixpoint drop_last (s : string) : string :=
  match s with
  | EmptyString => EmptyString
  | String c EmptyString => EmptyString
  | String c s' => String c (drop_last s')
  end.

(** [''.join(l)] *)
Fixpoint join (l : list string) : string :=
  match l with
  | [] => EmptyString
  | s :: l' => s +:+ join l'
  end.

Fixpoint contains (c : ascii) (s : string) : bool :=
  match s with
  | EmptyString => false
  | String d s' => bool_decide (d = c) || contains c s'
  end.

Fixpoint startswith (p s : string) : bool :=
  match p, s with
  | EmptyString, _ => true
  | String a p', String b s' => bool_decide (a = b) && startswith p' s'
  | String _ _, EmptyString => false
  end.

(** [s.replace(old, new)] for a non-empty [old]: the occurrences of [old] are
    replaced from left to right, without overlap.  [skip] counts the
    characters of the occurrence under way that are still to be dropped. *)
Fixpoint replace_from (old new : string) (skip : nat) (s : string) : string :=
  match s with
  | EmptyString => EmptyString
  | String c s' =>
      match skip with
      | S k => replace_from old new k s'
      | O =>
          if startswith old s
          then new +:+ replace_from old new (Nat.pred (String.length old)) s'
          else String c (replace_from old new O s')
      end
  end.

Definition replace (old new s : string) : string := replace_from old new O s.

(** Universal newlines, as text-mode reading with [newline=None] does it:
    ["\r\n"] and a lone ["\r"] both become ["\n"]. *)
Fixpoint universal_newlines (s : string) : string :=
  match s with
  | EmptyString => EmptyString
  | String c s' =>
      if is_CR c then
        match s' with
        | String d s'' =>
            if is_LF d then universal_newlines s'
            else String LF (universal_newlines s')
        | EmptyString => String LF EmptyString
        end
      else String c (universal_newlines s')
  end.

(** [f.readline()] on a freshly opened text: up to and with the first
    newline, or everything when there is none. *)
Fixpoint readline (s : string) : string :=
  match s with
  | EmptyString => EmptyString
  | String c s' =>
      if is_LF c then String c EmptyString else String c (readline s')
  end.

End PyStr.

(** ** Python floats

    [float(s)] is kept as the decimal it denotes, [(-1)^neg * mantissa *
    10^exp10], not rounded to binary64. *)

Module PyFloat.

Inductive pyfloat : Type :=
  | FNan
  | FInf (negative : bool)
  | FDec (negative : bool) (mantissa : N) (exp10 : Z).

#[global] Instance pyfloat_eq_dec : EqDecision pyfloat.
Proof. solve_decision. Defined.

(** White space of the C locale, which [float] strips on both sides:
    the characters 9 to 13 and the space. *)
Definition is_space (c : ascii) : bool :=
  let n := nat_of_ascii c in
  ((9 <=? n) && (n <=? 13) || (n =? 32))%nat.

(** What [float] makes of a text before it parses it: a character from 127
    on becomes a space when it is white space of Unicode (below 256 these are
    133 and 160); it has no decimal value (no character from 127 to 255 has
    one), so any other one makes the text no float.  The characters below 127
    stay, also 28 to 31, which [str.strip] would remove. *)
Fixpoint to_ascii (s : string) : option string :=
  match s with
  | EmptyString => Some EmptyString
  | String c s' =>
      let n := nat_of_ascii c in
      if (n <? 127)%nat then String c <$> to_ascii s'
      else if ((n =? 133) || (n =? 160))%nat
      then String " "%char <$> to_ascii s'
      else None
  end.

Fixpoint lstrip (s : string) : string :=
  match s with
  | String c s' => if is_space c then lstrip s' else s
  | EmptyString => EmptyString
  end.

Fixpoint rstrip (s : string) : string :=
  match s with
  | String c s' =>
      match rstrip s' with
      | EmptyString => if is_space c then EmptyString else String c EmptyString
      | r => String c r
      end
  | EmptyString => EmptyString
  end.

Definition strip (s : string) : string := rstrip (lstrip s).

Definition digit_of (c : ascii) : option N :=
  let n := N_of_ascii c in
  if ((48 <=? n) && (n <=? 57))%N then Some (n - 48)%N else None.

Definition lower (c : ascii) : ascii :=
  let n := N_of_ascii c in
  if ((65 <=? n) && (n <=? 90))%N then ascii_of_N (n + 32) else c.

Fixpoint lowercase (s : string) : string :=
  match s with
  | String c s' => String (lower c) (lowercase s')
  | EmptyString => EmptyString
  end.

(** The rest of a [digitpart]: digits, each optionally preceded by one
    underscore.  Returns the value, the number of digits and what is left. *)
Fixpoint digits_more (acc : N) (n : nat) (s : string) : N * nat * string :=
  match s with
  | String c s' =>
      match digit_of c with
      | Some d => digits_more (acc * 10 + d)%N (S n) s'
      | None =>
          if bool_decide (c = "_"%char) then
            match s' with
            | String c2 s'' =>
                match digit_of c2 with
                | Some d => digits_more (acc * 10 + d)%N (S n) s''
                | None => (acc, n, s)
                end
            | EmptyString => (acc, n, s)
            end
          else (acc, n, s)
      end
  | EmptyString => (acc, n, s)
  end.

Definition digitpart (s : string) : option (N * nat * string) :=
  match s with
  | String c s' =>
      match digit_of c with
      | Some d => Some (digits_more d 1%nat s')
      | None => None
      end
  | EmptyString => None
  end.

(** [number ::= [digitpart] "." digitpart | digitpart ["."]]:
    the mantissa, the number of fraction digits and what is left. *)
Definition number (s : string) : option (N * nat * string) :=
  match digitpart s with
  | Some (ip, _, String "." r) =>
      match digitpart r with
      | Some (fp, nf, r') => Some (ip * 10 ^ N.of_nat nf + fp, nf, r')%N
      | None => Some (ip, O, r)
      end
  | Some (ip, _, r) => Some (ip, O, r)
  | None =>
      match s with
      | String "." r =>
          match digitpart r with
          | Some (fp, nf, r') => Some (fp, nf, r')
          | None => None
          end
      | _ => None
      end
  end.

Definition sign (s : string) : bool * string :=
  match s with
  | String "-" r => (true, r)
  | String "+" r => (false, r)
  | _ => (false, s)
  end.

(** [exponent ::= ("e" | "E") [sign] digitpart], to the end of the text. *)
Definition exponent (s : string) : option Z :=
  match s with
  | EmptyString => Some 0
  | String c r =>
      if bool_decide (lower c = "e"%char) then
        let '(neg, r') := sign r in
        match digitpart r' with
        | Some (e, _, EmptyString) =>
            Some (if neg then - Z.of_N e else Z.of_N e)
        | _ => None
        end
      else None
  end.

(** [float(s)]; [None] stands for [ValueError]. *)
Definition float_of_string (s : string) : option pyfloat :=
  s ← to_ascii s;
  let '(neg, body) := sign (strip s) in
  let word := lowercase body in
  if bool_decide (word = "inf" ∨ word = "infinity") then Some (FInf neg)
  else if bool_decide (word = "nan") then Some FNan
  else
    match number body with
    | Some (m, nf, r) =>
        match exponent r with
        | Some e => Some (FDec neg m (e - Z.of_nat nf))
        | None => None
        end
    | None => None
    end.

End PyFloat.
Export PyFloat(pyfloat, FNan, FInf, FDec).

(** ** Exceptions and the two monads *)

Inductive exn : Type :=
  | AssertionError (msg : string)
  | ValueError (msg : string)
  | KeyError
  | ZeroDivisionError
  | FileExistsError
  | FileNotFoundError
  | IsADirectoryError
  | NotADirectoryError
  | LibraryError (what : string).

Inductive result (A : Type) : Type :=
  | Ok (a : A)
  | Raise (e : exn).
Arguments Ok {A} a.
Arguments Raise {A} e.

#[global] Instance result_ret : MRet result := fun A a => Ok a.
#[global] Instance result_bind : MBind result := fun A B f r =>
  match r with
  | Ok a => f a
  | Raise e => Raise e
  end.

Definition of_option {A} (e : exn) (o : option A) : result A :=
  match o with
  | Some a => Ok a
  | None => Raise e
  end.

(** ** The file system *)

Inductive entry : Type :=
  | Dir
  | File (content : string).

Abbreviation Path := (list string).
Abbreviation FS := (gmap (list string) entry).

(** [p / s] of [pathlib], for a literal segment [s] such as ['raw_files']:
    a text without separator that is not empty, ["."] or [".."].  A file that
    is named by a recording name is found with [os.locate]. *)
Definition pjoin (p : Path) (s : string) : Path := (p ++ [s])%list.
Notation "p // s" := (pjoin p s) (at level 40, left associativity).

(** [q] is [p] or lies below it. *)
Definition under (p q : Path) : Prop := p `prefix_of` q.

(** Code with effects on the file system; the file system after a raise is
    the one the exception left behind. *)
Definition M (A : Type) : Type := FS -> result A * FS.

#[global] Instance M_ret : MRet M := fun A a fs => (Ok a, fs).
#[global] Instance M_bind : MBind M := fun A B f m fs =>
  match m fs with
  | (Ok a, fs') => f a fs'
  | (Raise e, fs') => (Raise e, fs')
  end.

Definition raise {A} (e : exn) : M A := fun fs => (Raise e, fs).
Definition lift {A} (r : result A) : M A := fun fs => (r, fs).

(** [assert c, msg] *)
Definition assert (c : bool) (msg : string) : M unit :=
  if c then mret () else raise (AssertionError msg).

(** [for x in l: body x] *)
Fixpoint for_each {A} (l : list A) (body : A -> M unit) : M unit :=
  match l with
  | [] => mret ()
  | x :: l' => body x ;; for_each l' body
  end.

(** A loop that updates a local variable [acc]. *)
Fixpoint for_fold {A B} (l : list A) (acc : B) (body : B -> A -> M B) : M B :=
  match l with
  | [] => mret acc
  | x :: l' => acc' ← body acc x; for_fold l' acc' body
  end.

Module os.

(** The primitives fail where the two files test for it or can provoke it
    themselves: a folder that is already there, a file that is read but
    missing.  What the operating system may refuse on its own (permissions,
    a full disk, a regular file in the place of a folder) is outside the
    model. *)

(** [os.path.exists(p)] *)
Definition path_exists (p : Path) : M bool :=
  fun fs => (Ok (bool_decide (is_Some (fs !! p))), fs).

(** The prefixes of [p], from the working directory (the empty path) to [p]
    itself: the folders [os.makedirs] walks through. *)
Definition chain (p : Path) : list Path :=
  (fun n => take n p) <$> seq 0 (Datatypes.S (length p)).

Definition mkdir_missing (fs : FS) (q : Path) : FS :=
  match fs !! q with
  | None => <[q := Dir]> fs
  | Some _ => fs
  end.

(** [os.makedirs(p)] ([exist_ok=False]): [p] must not exist yet; it is
    created with the ancestors that are missing. *)
Definition makedirs (p : Path) : M unit :=
  fun fs =>
    match fs !! p with
    | Some _ => (Raise FileExistsError, fs)
    | None => (Ok (), foldl mkdir_missing fs (chain p))
    end.

(** [with open(p, 'w') as f: f.write(text)], and the writers of the
    libraries: the file is created or truncated, then holds [text] (the line
    separator of the platform is the newline itself, as on POSIX). *)
Definition write_file (p : Path) (text : string) : M unit :=
  fun fs => (Ok (), <[p := File text]> fs).

(** The bytes of a file, as a binary reader gets them. *)
Definition read_bytes (p : Path) : M string :=
  fun fs =>
    match fs !! p with
    | Some (File text) => (Ok text, fs)
    | Some Dir => (Raise IsADirectoryError, fs)
    | None => (Raise FileNotFoundError, fs)
    end.

(** [with open(p, 'r') as f: f.read()]: text mode, universal newlines. *)
Definition read_text (p : Path) : M string :=
  text ← read_bytes p; mret (PyStr.universal_newlines text).

(** *** Files that are named by a text

    [folder / name] for a text [name] that is not a literal of the code, and
    the file that the operating system opens for it. *)

Definition SEP : ascii := "/"%char.
Definition NUL : ascii := "000"%char.

(** The parts of a path text, as [pathlib] keeps them: the text is split at
    the separator, the empty parts and the parts ["."] are dropped, the parts
    [".."] stay. *)
Definition parts (name : string) : list string :=
  filter (fun part => part ≠ "" ∧ part ≠ ".") (PyStr.split SEP name).

(** A text that starts with the separator is an absolute path: [folder / name]
    is then [name] alone. *)
Definition is_absolute (name : string) : bool := PyStr.startswith "/" name.

(** From the folder [cur] to its entry [part]; [".."] is the folder above,
    and the root is above itself. *)
Definition step (cur : Path) (part : string) : Path :=
  if bool_decide (part = "..") then take (Nat.pred (length cur)) cur
  else cur // part.

(** The walk of the operating system from the folder [cur] along [parts]:
    each part is looked up in a folder that has to be there. *)
Fixpoint walk (fs : FS) (cur : Path) (parts : list string) : result Path :=
  match parts with
  | [] => Ok cur
  | part :: rest =>
      match fs !! cur with
      | Some Dir => walk fs (step cur part) rest
      | Some (File _) => Raise NotADirectoryError
      | None => Raise FileNotFoundError
      end
  end.

(** Where the file [folder / name] is, when it is opened: [open] refuses a
    name with a null character, an absolute name is walked from the root, any
    other from [folder]. *)
Definition locate (fs : FS) (folder : Path) (name : string) : result Path :=
  if PyStr.contains NUL name then Raise (ValueError "embedded null byte")
  else walk fs (if is_absolute name then [] else folder) (parts name).

(** [with open(folder / name, 'w') as f: f.write(text)], and the writers of
    the libraries on such a path: a folder cannot be opened as a file. *)
Definition write_named (folder : Path) (name text : string) : M unit :=
  fun fs =>
    match locate fs folder name with
    | Ok p =>
        match fs !! p with
        | Some Dir => (Raise IsADirectoryError, fs)
        | _ => write_file p text fs
        end
    | Raise e => (Raise e, fs)
    end.

(** The bytes of [folder / name], as a binary reader gets them. *)
Definition read_named_bytes (folder : Path) (name : string) : M string :=
  fun fs =>
    match locate fs folder name with
    | Ok p => read_bytes p fs
    | Raise e => (Raise e, fs)
    end.

(** [with open(folder / name, 'r') as f: f.read()] *)
Definition read_named_text (folder : Path) (name : string) : M string :=
  text ← read_named_bytes folder name; mret (PyStr.universal_newlines text).

End os.

(** [a // b] on integers. *)
Definition floordiv (a b : Z) : result Z :=
  if bool_decide (b = 0) then Raise ZeroDivisionError else Ok (a / b).

(** ** Interfaces *)

(** [spikeextractors.RecordingExtractor], as far as the study store uses it. *)
Class RecordingExtractor (R : Type) := {
  get_num_channels : R -> Z;
  recording_get_sampling_frequency : R -> pyfloat;
}.

(** [spikeextractors.SortingExtractor]. *)
Class SortingExtractor (S : Type) := {
  get_unit_ids : S -> list Z;
  get_unit_spike_train : S -> Z -> list Z;
  get_sampling_frequency : S -> option pyfloat;
}.

(** What [json_filename] holds. *)
Record info : Type := {
  sample_rate : pyfloat;
  num_chan : Z;
  dtype : string;
  frames_first : bool;
}.

(** The external libraries ([spikeextractors], [json]): a writer is given by
    the bytes it leaves in the file it is asked to write, a reader by what it
    makes of the bytes of the file it is asked to read. *)
Class Library (R S : Type) := {
  (** [se.write_binary_dat_format(recording, ., time_axis=0,
      dtype='float32', chunksize=chunksize)] *)
  binary_dat_format : R -> Z -> string;
  (** [se.save_probe_file(recording, ., format='spyking_circus')] *)
  probe_file : R -> string;
  (** [se.NpzSortingExtractor.write_sorting(sorting, .)] *)
  npz_of_sorting : S -> string;
  (** [json.dump(info, f, indent=4)] *)
  json_dump : info -> string;
  (** [json.load(f)] and the four lookups on it *)
  json_load : string -> result info;
  (** [se.BinDatRecordingExtractor(., sample_rate, num_chan, dtype,
      frames_first=frames_first)] *)
  bin_dat_recording : string -> pyfloat -> Z -> string -> bool -> result R;
  (** [se.load_probe_file(rec, .)]: [rec] after the call *)
  probe_loaded : R -> string -> result R;
  (** [se.NpzSortingExtractor(.)] *)
  npz_sorting : string -> result S;
}.

(** [spiketoolkit.sorters], which is not in the two files. *)
Class Sorters (R S : Type) := {
  sorter_params_t : Type;
  engine_kargs_t : Type;
  (** [run_sorters(sorter_list, recording_dict, working_folder,
      sorter_params=, grouping_property=None, mode=, engine=, engine_kargs=,
      with_output=False)] *)
  run_sorters :
    list string -> gmap string R -> Path -> sorter_params_t -> string ->
    string -> engine_kargs_t -> M unit;
  (** the triples [(rec_name, sorter_name, output_folder)] it yields *)
  loop_over_folders : Path -> M (list (string * string * Path));
  collect_sorting_outputs : Path -> M (gmap (string * string) S);
}.

(** [compare_sorter_to_ground_truth] of [.groundtruthcomparison]. *)
Class Comparer (S C : Type) := {
  compare_sorter_to_ground_truth : S -> S -> result C;
}.

(** A [pandas] cell. *)
Inductive cell : Type :=
  | NaN
  | PyNone
  | Int (z : Z)
  | Float (x : pyfloat).

(** The rest of [.groundtruthcomparison]: the methods of a comparison that
    the performance tables call, and [_perf_keys]. *)
Class Performance (C : Type) := {
  karg_thresh_t : Type;
  _perf_keys : list string;
  (** [comp.get_performance(method=, output='pandas')]: a Series *)
  get_performance : C -> string -> result (gmap string cell);
  count_well_detected_units : C -> karg_thresh_t -> result Z;
  count_redundant_units : C -> result Z;
  count_false_positive_units : C -> result Z;
  count_bad_units : C -> result Z;
}.

(** ** [comparison/groundtruthstudy.py] *)

Section groundtruthstudy.
Context {R S C : Type}.
Context `{!RecordingExtractor R, !SortingExtractor S, !Library R S}.
Context `{!Sorters R S, !Comparer S C}.

(** [gt_dict]: recording name to [(recording, sorting_gt)], in insertion
    order.  One turn of the loop of [setup_comparison_study]; the file names
    are the texts that are joined to the folders [raw_files] and
    [ground_truth]. *)
Definition write_study_entry (study_folder : Path)
    (item : string * (R * S)) : M unit :=
  let '(rec_name, (recording, sorting_gt)) := item in
  let raw_files := study_folder // "raw_files" in
  let raw_filename := rec_name +:+ ".raw" in
  let prb_filename := rec_name +:+ ".prb" in
  let json_filename := rec_name +:+ ".json" in
  let num_chan := get_num_channels recording in
  chunksize ← lift (floordiv (2 ^ 24) num_chan);
  let sr := recording_get_sampling_frequency recording in
  os.write_named raw_files raw_filename (binary_dat_format recording chunksize);;
  os.write_named raw_files prb_filename (probe_file recording);;
  os.write_named raw_files json_filename
    (json_dump {| sample_rate := sr; num_chan := num_chan;
                  dtype := "float32"; frames_first := true |});;
  os.write_named (study_folder // "ground_truth") (rec_name +:+ ".npz")
    (npz_of_sorting sorting_gt).

(** The text the index loop writes: each name followed by a newline. *)
Definition names_text (names : list string) : string :=
  PyStr.join ((fun rec_name => rec_name +:+ String PyStr.LF "") <$> names).

Definition setup_comparison_study (study_folder : Path)
    (gt_dict : list (string * (R * S))) : M unit :=
  there ← os.path_exists study_folder;
  assert (negb there) "study_folder already exists";;
  os.makedirs study_folder;;
  os.makedirs (study_folder // "raw_files");;
  os.makedirs (study_folder // "ground_truth");;
  for_each gt_dict (write_study_entry study_folder);;
  os.write_file (study_folder // "names.txt") (names_text gt_dict.*1).

Definition get_rec_names (study_folder : Path) : M (list string) :=
  text ← os.read_text (study_folder // "names.txt");
  mret (PyStr.split PyStr.LF (PyStr.drop_last text)).

Definition get_recordings (study_folder : Path) : M (gmap string R) :=
  rec_names ← get_rec_names study_folder;
  for_fold rec_names ∅ (fun recording_dict rec_name =>
    let raw_files := study_folder // "raw_files" in
    let raw_filename := rec_name +:+ ".raw" in
    let prb_filename := rec_name +:+ ".prb" in
    let json_filename := rec_name +:+ ".json" in
    text ← os.read_named_text raw_files json_filename;
    info ← lift (json_load text);
    raw ← os.read_named_bytes raw_files raw_filename;
    rec ← lift (bin_dat_recording raw (sample_rate info) (num_chan info)
                  (dtype info) (frames_first info));
    prb ← os.read_named_bytes raw_files prb_filename;
    rec ← lift (probe_loaded rec prb);
    mret (<[rec_name := rec]> recording_dict)).

Definition get_ground_truths (study_folder : Path) : M (gmap string S) :=
  rec_names ← get_rec_names study_folder;
  for_fold rec_names ∅ (fun ground_truths rec_name =>
    npz ← os.read_named_bytes (study_folder // "ground_truth")
            (rec_name +:+ ".npz");
    sorting ← lift (npz_sorting npz);
    mret (<[rec_name := sorting]> ground_truths)).

Definition run_study_sorters (study_folder : Path) (sorter_list : list string)
    (sorter_params : sorter_params_t) (mode engine : string)
    (engine_kargs : engine_kargs_t) : M unit :=
  let sorter_outputs := study_folder // "sorter_outputs" in
  recording_dict ← get_recordings study_folder;
  run_sorters sorter_list recording_dict sorter_outputs sorter_params mode
    engine engine_kargs.

(** One turn of the loop of [collect_run_times]. *)
Definition collect_run_time (run_times : list (string * string * pyfloat))
    (item : string * string * Path) : M (list (string * string * pyfloat)) :=
  let '(rec_name, sorter_name, output_folder) := item in
  there ← os.path_exists (output_folder // "run_log.txt");
  if there : bool then
    logfile ← os.read_text (output_folder // "run_log.txt");
    run_time ← lift (of_option (ValueError "could not convert string to float")
                  (PyFloat.float_of_string
                     (PyStr.replace "run_time:" "" (PyStr.readline logfile))));
    mret (run_times ++ [(rec_name, sorter_name, run_time)])%list
  else mret run_times.

Definition collect_run_times (study_folder : Path)
    : M (list (string * string * pyfloat)) :=
  let sorter_outputs := study_folder // "sorter_outputs" in
  folders ← loop_over_folders sorter_outputs;
  for_fold folders [] collect_run_time.

(** [dict[key]] *)
Definition getitem `{Countable K} {V} (d : gmap K V) (k : K) : M V :=
  lift (of_option KeyError (d !! k)).

(** One turn of the loop of [aggregate_sorting_comparison]. *)
Definition compare_item (ground_truths : gmap string S)
    (comparisons : gmap (string * string) C)
    (item : (string * string) * S) : M (gmap (string * string) C) :=
  let '((rec_name, sorter_name), sorting) := item in
  gt_sorting ← getitem ground_truths rec_name;
  sc ← lift (compare_sorter_to_ground_truth gt_sorting sorting);
  mret (<[(rec_name, sorter_name) := sc]> comparisons).

(** [exhaustive_gt] and [karg_thresh] are parameters of the function, as in
    the source. *)
Definition aggregate_sorting_comparison {KT : Type} (study_folder : Path)
    (exhaustive_gt : bool) (karg_thresh : KT)
    : M (gmap (string * string) C) :=
  let sorter_outputs := study_folder // "sorter_outputs" in
  ground_truths ← get_ground_truths study_folder;
  results ← collect_sorting_outputs sorter_outputs;
  for_fold (map_to_list results) ∅ (compare_item ground_truths).

End groundtruthstudy.

(** ** [pandas] frames

    A frame indexed by [(rec_name, sorter_name)]: its column labels and its
    rows, each the index label with the cells of the row; a column that a row
    does not hold is [NaN] there. *)

Record DataFrame : Type := {
  df_columns : list string;
  df_rows : list ((string * string) * gmap string cell);
}.

#[global] Instance DataFrame_inhabited : Inhabited DataFrame :=
  populate {| df_columns := []; df_rows := [] |}.

Module pd.

Definition index (df : DataFrame) : list (string * string) := (df_rows df).*1.

(** [pd.DataFrame(rt, columns=['rec_name', 'sorter_name', 'run_time'])
      .set_index(['rec_name', 'sorter_name'])] *)
Definition run_times_frame (rt : list (string * string * pyfloat)) : DataFrame :=
  {| df_columns := ["run_time"];
     df_rows := (fun '(rec_name, sorter_name, run_time) =>
                   ((rec_name, sorter_name), {["run_time" := Float run_time]}))
                <$> rt |}.

(** [pd.DataFrame(index=idx, columns=cols)] *)
Definition new_frame (idx : list (string * string)) (cols : list string)
    : DataFrame :=
  {| df_columns := cols; df_rows := (fun k => (k, ∅)) <$> idx |}.

Definition add_column (col : string) (cols : list string) : list string :=
  if bool_decide (col ∈ cols) then cols else (cols ++ [col])%list.

(** [df[col] = v] for a scalar [v] *)
Definition set_column (col : string) (v : cell) (df : DataFrame) : DataFrame :=
  {| df_columns := add_column col (df_columns df);
     df_rows := (fun '(k, row) => (k, <[col := v]> row)) <$> df_rows df |}.

(** Assignment through [.loc] at the index label [key]: the rows with that
    label are updated; when there is none the frame is enlarged by one. *)
Definition loc_update (key : string * string)
    (f : gmap string cell -> gmap string cell) (df : DataFrame)
    : list ((string * string) * gmap string cell) :=
  if bool_decide (key ∈ index df)
  then (fun '(k, row) => if bool_decide (k = key) then (k, f row) else (k, row))
         <$> df_rows df
  else (df_rows df ++ [(key, f ∅)])%list.

(** [df.loc[key, col] = v] *)
Definition loc_set (key : string * string) (col : string) (v : cell)
    (df : DataFrame) : DataFrame :=
  {| df_columns := add_column col (df_columns df);
     df_rows := loc_update key (fun row => <[col := v]> row) df |}.

(** [df.loc[key, :] = series]: the series is aligned on the columns. *)
Definition loc_set_row (key : string * string) (series : gmap string cell)
    (df : DataFrame) : DataFrame :=
  {| df_columns := df_columns df;
     df_rows :=
       loc_update key
         (fun _ => list_to_map
                     ((fun c => (c, default NaN (series !! c))) <$> df_columns df))
         df |}.

End pd.

(** Frames are objects: a variable and a dict entry may name the same one.
    They live in a store; the address of an object is its position there. *)
Abbreviation Heap := (list DataFrame).

Definition alloc (df : DataFrame) (h : Heap) : nat * Heap :=
  (length h, (h ++ [df])%list).

Definition mutate (a : nat) (f : DataFrame -> DataFrame) (h : Heap) : Heap :=
  alter f a h.

Section performances.
Context {R S C : Type}.
Context `{!RecordingExtractor R, !SortingExtractor S, !Library R S}.
Context `{!Sorters R S, !Comparer S C, !Performance C}.

Definition Zlen {A} (l : list A) : Z := Z.of_nat (length l).

(** One turn of the loop over [comparisons.items()]. *)
Definition fill_tables (ground_truths : gmap string S)
    (results : gmap (string * string) S)
    (exhaustive_gt : bool) (karg_thresh : karg_thresh_t)
    (perf_pooled_with_sum perf_pooled_with_average count_units : nat)
    (h : Heap) (item : (string * string) * C) : M Heap :=
  let '((rec_name, sorter_name), comp) := item in
  gt_sorting ← getitem ground_truths rec_name;
  sorting ← getitem results (rec_name, sorter_name);
  perf ← lift (get_performance comp "pooled_with_sum");
  let h := mutate perf_pooled_with_sum
             (pd.loc_set_row (rec_name, sorter_name) perf) h in
  perf ← lift (get_performance comp "pooled_with_average");
  let h := mutate perf_pooled_with_average
             (pd.loc_set_row (rec_name, sorter_name) perf) h in
  let h := mutate count_units
             (pd.loc_set (rec_name, sorter_name) "num_gt"
                (Int (Zlen (get_unit_ids gt_sorting)))) h in
  let h := mutate count_units
             (pd.loc_set (rec_name, sorter_name) "num_sorter"
                (Int (Zlen (get_unit_ids sorting)))) h in
  n ← lift (count_well_detected_units comp karg_thresh);
  let h := mutate count_units
             (pd.loc_set (rec_name, sorter_name) "num_well_detected" (Int n)) h in
  n ← lift (count_redundant_units comp);
  let h := mutate count_units
             (pd.loc_set (rec_name, sorter_name) "num_redundant" (Int n)) h in
  if exhaustive_gt then
    n ← lift (count_false_positive_units comp);
    let h := mutate count_units
               (pd.loc_set (rec_name, sorter_name) "num_false_positive" (Int n)) h in
    n ← lift (count_bad_units comp);
    let h := mutate count_units
               (pd.loc_set (rec_name, sorter_name) "num_bad" (Int n)) h in
    mret h
  else mret h.

(** The result is the dict as its caller reads it: each key with the frame
    its address holds on return. *)
Definition aggregate_performances_table (study_folder : Path)
    (exhaustive_gt : bool) (karg_thresh : karg_thresh_t)
    : M (gmap string DataFrame) :=
  let sorter_outputs := study_folder // "sorter_outputs" in
  comparisons ← aggregate_sorting_comparison study_folder exhaustive_gt karg_thresh;
  ground_truths ← get_ground_truths study_folder;
  results ← collect_sorting_outputs sorter_outputs;
  let out_dataframes : gmap string nat := ∅ in
  rt ← collect_run_times study_folder;
  let '(run_times, h) := alloc (pd.run_times_frame rt) [] in
  let out_dataframes := <["run_times" := run_times]> out_dataframes in
  let '(perf_pooled_with_sum, h) :=
    alloc (pd.new_frame (pd.index (h !!! run_times)) _perf_keys) h in
  let out_dataframes :=
    <["perf_pooled_with_sum" := perf_pooled_with_sum]> out_dataframes in
  let '(perf_pooled_with_average, h) :=
    alloc (pd.new_frame (pd.index (h !!! run_times)) _perf_keys) h in
  let out_dataframes :=
    <["perf_pooled_with_average" := perf_pooled_with_average]> out_dataframes in
  let '(count_units, h) :=
    alloc (pd.new_frame (pd.index (h !!! run_times))
             ["num_gt"; "num_sorter"; "num_well_detected"; "num_redundant"]) h in
  let out_dataframes := <["count_units" := count_units]> out_dataframes in
  let h :=
    if exhaustive_gt
    then mutate count_units (pd.set_column "num_bad" PyNone)
           (mutate count_units (pd.set_column "num_false_positive" PyNone) h)
    else h in
  h ← for_fold (map_to_list comparisons) h
        (fill_tables ground_truths results exhaustive_gt karg_thresh
           perf_pooled_with_sum perf_pooled_with_average count_units);
  mret ((fun a => h !!! a) <$> out_dataframes).

End performances.

(** ** [curation/threshold_metrics.py] *)

(** [ms_dict], the metric scope parameters after [update_param_dicts]. *)
Record ms_dict_t (ET EN : Type) : Type := {
  unit_ids : option (list Z);
  epoch_tuples : ET;
  epoch_names : EN;
}.
Arguments unit_ids {ET EN} _.
Arguments epoch_tuples {ET EN} _.
Arguments epoch_names {ET EN} _.

(** [spiketoolkit.validation], which is not in the two files.  The four
    metric classes build objects of one type [metric_t]; [threshold_metric] is
    the method of such an object, [isi_threshold_metric] the one of an
    [ISIViolation], which takes two more arguments. *)
Class Validation (S : Type) := {
  metric_scope_params_t : Type;
  epoch_tuples_t : Type;
  epoch_names_t : Type;
  metric_data_t : Type;
  metric_t : Type;
  threshold_t : Type;
  threshold_sorting_t : Type;
  (** [update_param_dicts(metric_scope_params=.)]: the dicts it returns *)
  update_param_dicts :
    metric_scope_params_t ->
    result (list (ms_dict_t epoch_tuples_t epoch_names_t));
  (** [MetricData(sorting=, unit_ids=, epoch_tuples=, epoch_names=)] *)
  MetricData :
    S -> list Z -> epoch_tuples_t -> epoch_names_t -> result metric_data_t;
  NumSpikes : metric_data_t -> result metric_t;
  FiringRate : metric_data_t -> result metric_t;
  PresenceRatio : metric_data_t -> result metric_t;
  ISIViolation : metric_data_t -> result metric_t;
  threshold_metric :
    metric_t -> threshold_t -> string -> option Z -> bool ->
    result threshold_sorting_t;
  isi_threshold_metric :
    metric_t -> threshold_t -> string -> option Z -> pyfloat -> pyfloat ->
    bool -> result threshold_sorting_t;
}.

Definition sampling_frequency_msg : string :=
  "Please pass in a sampling frequency (your SortingExtractor does not have one specified)".

(** [x, = l]: the one element of [l]. *)
Definition unpack_one {A} (l : list A) : result A :=
  match l with
  | [a] => Ok a
  | [] => Raise (ValueError "not enough values to unpack (expected 1, got 0)")
  | _ => Raise (ValueError "too many values to unpack (expected 1)")
  end.

Section threshold_metrics.
Context {S : Type} `{!SortingExtractor S, !Validation S}.

(** The opening [if]/[elif] of each function: the value of the local
    variable [sampling_frequency] after it. *)
Definition check_sampling_frequency (sorting : S)
    (sampling_frequency : option pyfloat) : result (option pyfloat) :=
  if bool_decide (sampling_frequency = None
                  ∧ get_sampling_frequency sorting = None)
  then Raise (ValueError sampling_frequency_msg)
  else if bool_decide (sampling_frequency = None)
  then Ok (get_sampling_frequency sorting)
  else Ok sampling_frequency.

(** From [update_param_dicts] to the [MetricData], the same in the four. *)
Definition metric_data_of (sorting : S)
    (metric_scope_params : metric_scope_params_t) : result metric_data_t :=
  dicts ← update_param_dicts metric_scope_params;
  ms_dict ← unpack_one dicts;
  let ids :=
    match unit_ids ms_dict with
    | None => get_unit_ids sorting
    | Some ids => ids
    end in
  MetricData sorting ids (epoch_tuples ms_dict) (epoch_names ms_dict).

Definition threshold_num_spikes (sorting : S) (threshold : threshold_t)
    (threshold_sign : string) (epoch : option Z)
    (sampling_frequency : option pyfloat)
    (metric_scope_params : metric_scope_params_t) (save_as_property : bool)
    : result threshold_sorting_t :=
  sampling_frequency ← check_sampling_frequency sorting sampling_frequency;
  md ← metric_data_of sorting metric_scope_params;
  ns ← NumSpikes md;
  threshold_metric ns threshold threshold_sign epoch save_as_property.

Definition threshold_firing_rates (sorting : S) (threshold : threshold_t)
    (threshold_sign : string) (epoch : option Z)
    (sampling_frequency : option pyfloat)
    (metric_scope_params : metric_scope_params_t) (save_as_property : bool)
    : result threshold_sorting_t :=
  sampling_frequency ← check_sampling_frequency sorting sampling_frequency;
  md ← metric_data_of sorting metric_scope_params;
  fr ← FiringRate md;
  threshold_metric fr threshold threshold_sign epoch save_as_property.

Definition threshold_presence_ratios (sorting : S) (threshold : threshold_t)
    (threshold_sign : string) (epoch : option Z)
    (sampling_frequency : option pyfloat)
    (metric_scope_params : metric_scope_params_t) (save_as_property : bool)
    : result threshold_sorting_t :=
  sampling_frequency ← check_sampling_frequency sorting sampling_frequency;
  md ← metric_data_of sorting metric_scope_params;
  pr ← PresenceRatio md;
  threshold_metric pr threshold threshold_sign epoch save_as_property.

Definition threshold_isi_violations (sorting : S) (threshold : threshold_t)
    (threshold_sign : string) (epoch : option Z)
    (isi_threshold min_isi : pyfloat)
    (sampling_frequency : option pyfloat)
    (metric_scope_params : metric_scope_params_t) (save_as_property : bool)
    : result threshold_sorting_t :=
  sampling_frequency ← check_sampling_frequency sorting sampling_frequency;
  md ← metric_data_of sorting metric_scope_params;
  iv ← ISIViolation md;
  isi_threshold_metric iv threshold threshold_sign epoch isi_threshold min_isi
    save_as_property.

End threshold_metrics.

(** ** The matcher *)

Module Matcher.
Section matcher.
Context {S : Type} `{!SortingExtractor S}.

(** The tolerance, in samples. *)
Variable delta_frames : Z.

(** Modelled from the spec: the "spike-time tolerance" of the overlap score,
    two sample indices no further apart than [delta_frames].
    [.groundtruthcomparison] is missing. *)
Definition near (t t' : Z) : bool := Z.abs (t - t') <=? delta_frames.

(** Modelled from the spec: the "spike-time-tolerance overlap score" of two
    spike trains ("ordered sequence of integer sample indices per unit"),
    here the number of spikes of the first train that have a spike of the
    second within the tolerance.  [.groundtruthcomparison] is missing. *)
Definition overlap (train1 train2 : list Z) : nat :=
  length (filter (fun t => existsb (near t) train2 = true) train1).

(** Modelled from the spec: the overlap score of a ground-truth unit and a
    sorter unit, the one of their spike trains.  [.groundtruthcomparison] is
    missing. *)
Definition score (gt_sorting sorting : S) (u v : Z) : nat :=
  overlap (get_unit_spike_train gt_sorting u) (get_unit_spike_train sorting v).

(** Modelled from the spec: the "best-matching sorter unit (or none)" of a
    ground-truth unit: a unit of greatest score among [candidates], none when
    no score is positive.  [.groundtruthcomparison] is missing. *)
Fixpoint best_match (sc : Z -> nat) (candidates : list Z) : option Z :=
  match candidates with
  | [] => None
  | v :: vs =>
      match best_match sc vs with
      | Some w => if (sc v <? sc w)%nat then Some w else Some v
      | None => if (0 <? sc v)%nat then Some v else None
      end
  end.

(** Modelled from the spec: the comparison result, "a mapping from
    ground-truth unit to best-matching sorter unit (or none)", as the list of
    its pairs in the order of the ground-truth units.
    [.groundtruthcomparison] is missing. *)
Definition matching (gt_sorting sorting : S) : list (Z * option Z) :=
  (fun u => (u, best_match (score gt_sorting sorting u) (get_unit_ids sorting)))
    <$> get_unit_ids gt_sorting.

(** Modelled from the spec: [compare_sorter_to_ground_truth], which returns
    the comparison result.  [.groundtruthcomparison] is missing. *)
Definition comparer : Comparer S (list (Z * option Z)) :=
  {| compare_sorter_to_ground_truth gt_sorting sorting :=
       Ok (matching gt_sorting sorting) |}.

End matcher.
End Matcher.

(** ** A small implementation of the interfaces

    Stand-ins for the libraries and for the missing modules, to run the
    functions on concrete studies. *)

Module Toy.

(** A recording: its number of channels and its sampling frequency. *)
Record recording : Type := { channels : Z; rate : pyfloat }.

#[export] Instance recording_extractor : RecordingExtractor recording :=
  {| get_num_channels := channels;
     recording_get_sampling_frequency := rate |}.

(** A sorting: one character per frame, the unit that fires there ([" "]
    for none); it is its own [npz] text.  The empty sorting has no sampling
    frequency. *)
Definition frames_of (c : ascii) (s : string) : list Z :=
  (fun i => Z.of_nat i) <$>
    filter (fun i => String.get i s = Some c) (seq 0 (String.length s)).

Definition units_of (s : string) : list Z :=
  remove_dups
    ((fun c => Z.of_N (N_of_ascii c)) <$>
       filter (fun c => c ≠ " "%char) (list_ascii_of_string s)).

#[export] Instance sorting_extractor : SortingExtractor string :=
  {| get_unit_ids := units_of;
     get_unit_spike_train s u := frames_of (ascii_of_N (Z.to_N u)) s;
     get_sampling_frequency s :=
       if bool_decide (s = "") then None else Some (FDec false 30000 0) |}.

#[export] Instance library : Library recording string :=
  {| binary_dat_format r chunksize := "raw";
     probe_file r := "prb";
     npz_of_sorting s := s;
     json_dump i := if bool_decide (num_chan i = 4) then "4" else "1";
     json_load text :=
       Ok {| sample_rate := FDec false 30000 0;
             num_chan := if bool_decide (text = "4") then 4 else 1;
             dtype := "float32"; frames_first := true |};
     bin_dat_recording raw sr n dt ff := Ok {| channels := n; rate := sr |};
     probe_loaded r prb := Ok r;
     npz_sorting npz := Ok npz |}.

(** What is left of [q] below [p]. *)
Definition below (p q : Path) : option Path :=
  if bool_decide (take (length p) q = p) then Some (drop (length p) q) else None.

(** The output folders: the folders two levels below the working folder. *)
Definition output_folder_of (working_folder : Path) (pe : Path * entry)
    : option (string * string * Path) :=
  match pe.2 with
  | Dir =>
      match below working_folder pe.1 with
      | Some [rec_name; sorter_name] => Some (rec_name, sorter_name, pe.1)
      | _ => None
      end
  | File _ => None
  end.

Definition output_folders (working_folder : Path) (fs : FS)
    : list (string * string * Path) :=
  omap (output_folder_of working_folder) (map_to_list fs).

(** [os.makedirs(p, exist_ok=True)] below a folder that is there. *)
Definition ensure_dir (p : Path) : M unit :=
  fun fs => (Ok (), os.mkdir_missing fs p).

(** A sorter run leaves [sorting.npz] and [run_log.txt] in its output
    folder. *)
Definition run_one (working_folder : Path) (rec_name sorter_name : string)
    : M unit :=
  let output_folder := working_folder // rec_name // sorter_name in
  ensure_dir working_folder;;
  ensure_dir (working_folder // rec_name);;
  ensure_dir output_folder;;
  os.write_file (output_folder // "sorting.npz") "aab b";;
  os.write_file (output_folder // "run_log.txt")
    ("run_time: 1.5" +:+ String PyStr.LF "").

Definition collect_one (results : gmap (string * string) string)
    (item : string * string * Path) : M (gmap (string * string) string) :=
  let '(rec_name, sorter_name, output_folder) := item in
  npz ← os.read_bytes (output_folder // "sorting.npz");
  mret (<[(rec_name, sorter_name) := npz]> results).

#[export] Instance sorters : Sorters recording string :=
  {| sorter_params_t := unit;
     engine_kargs_t := unit;
     run_sorters sorter_list recording_dict working_folder _ _ _ _ :=
       for_each (map_to_list recording_dict) (fun '(rec_name, _) =>
         for_each sorter_list (run_one working_folder rec_name));
     loop_over_folders working_folder :=
       fun fs => (Ok (output_folders working_folder fs), fs);
     collect_sorting_outputs working_folder :=
       fun fs => for_fold (output_folders working_folder fs) ∅ collect_one fs |}.

(** The matcher, with a tolerance of one sample. *)
#[export] Instance comparer : Comparer string (list (Z * option Z)) :=
  Matcher.comparer 1.

Definition matched (m : list (Z * option Z)) : Z :=
  Z.of_nat (length (filter (fun uo => is_Some uo.2) m)).

#[export] Instance performance : Performance (list (Z * option Z)) :=
  {| karg_thresh_t := unit;
     _perf_keys := ["accuracy"; "recall"; "precision"];
     get_performance m method := Ok {["accuracy" := Int (matched m)]};
     count_well_detected_units m _ := Ok (matched m);
     count_redundant_units m := Ok 0;
     count_false_positive_units m := Ok 0;
     count_bad_units m := Ok 0 |}.

(** The metric classes: a thresholded sorting is the list of the units that
    are kept. *)
#[export] Instance validation : Validation string :=
  {| metric_scope_params_t := option (list Z);
     epoch_tuples_t := unit;
     epoch_names_t := unit;
     metric_data_t := string * list Z;
     metric_t := string * list Z;
     threshold_t := Z;
     threshold_sorting_t := list Z;
     update_param_dicts p :=
       Ok [{| unit_ids := p; epoch_tuples := (); epoch_names := () |}];
     MetricData sorting ids _ _ := Ok (sorting, ids);
     NumSpikes md := Ok md;
     FiringRate md := Ok md;
     PresenceRatio md := Ok md;
     ISIViolation md := Ok md;
     threshold_metric m threshold sign epoch save :=
       Ok (filter (fun u => threshold <= Zlen (get_unit_spike_train m.1 u)) m.2);
     isi_threshold_metric m threshold sign epoch isi_threshold min_isi save :=
       Ok (filter (fun u => threshold <= Zlen (get_unit_spike_train m.1 u)) m.2) |}.

(** The same, with an [update_param_dicts] that returns two dicts. *)
Definition validation_two_dicts : Validation string :=
  {| metric_scope_params_t := option (list Z);
     epoch_tuples_t := unit;
     epoch_names_t := unit;
     metric_data_t := string * list Z;
     metric_t := string * list Z;
     threshold_t := Z;
     threshold_sorting_t := list Z;
     update_param_dicts p :=
       Ok [{| unit_ids := p; epoch_tuples := (); epoch_names := () |};
           {| unit_ids := p; epoch_tuples := (); epoch_names := () |}];
     MetricData sorting ids _ _ := Ok (sorting, ids);
     NumSpikes md := Ok md;
     FiringRate md := Ok md;
     PresenceRatio md := Ok md;
     ISIViolation md := Ok md;
     threshold_metric m threshold sign epoch save := Ok m.2;
     isi_threshold_metric m threshold sign epoch isi_threshold min_isi save :=
       Ok m.2 |}.

Definition rec4 : recording := {| channels := 4; rate := FDec false 30000 0 |}.
Definition rec0 : recording := {| channels := 0; rate := FDec false 30000 0 |}.

(** A study of two recordings in the folder [study], in an empty working
    directory. *)
Definition study : Path := ["study"].
Definition cwd : FS := {[ [] := Dir ]}.
Definition gt_two : list (string * (recording * string)) :=
  [("a", (rec4, "aab b")); ("b", (rec4, "cc c"))].

(** A recording without channels, a name with a carriage return, and a
    name with a separator. *)
Definition gt_no_channels : list (string * (recording * string)) :=
  [("z", (rec0, "aab b"))].
Definition name_cr : string := "a" +:+ String PyStr.CR "b".
Definition gt_cr : list (string * (recording * string)) :=
  [(name_cr, (rec4, "aab b"))].
Definition gt_nested : list (string * (recording * string)) :=
  [("x/y", (rec4, "aab b"))].

Definition study_fs : FS := (setup_comparison_study study gt_two cwd).2.
Definition sorted_fs : FS :=
  (run_study_sorters study ["s"] () "keep" "loop" () study_fs).2.

(** The same study with one more output folder, of a run that has not
    finished; with an empty log; and with the output of a recording that is
    not of the study. *)
Definition outputs : Path := study // "sorter_outputs".
Definition out_a : Path := outputs // "a" // "s".
Definition partial_fs : FS := <[outputs // "a" // "t" := Dir]> sorted_fs.
Definition empty_log_fs : FS := <[out_a // "run_log.txt" := File ""]> sorted_fs.
Definition foreign_fs : FS := (run_one outputs "x" "s" sorted_fs).2.

(** What the study holds once sorted: its ground truths and the outputs
    that are collected from it. *)
Definition gts_two : gmap string string :=
  <["a" := "aab b"]> (<["b" := "cc c"]> ∅).
Definition results_two : gmap (string * string) string :=
  <[("a", "s") := "aab b"]> (<[("b", "s") := "aab b"]> ∅).

(** The sorted study with the log of one run removed, and with a log that
    names ['run_time:'] twice. *)
Definition nolog_fs : FS := delete (out_a // "run_log.txt") sorted_fs.
Definition twice_fs : FS :=
  <[out_a // "run_log.txt" := File "run_time:run_time: 3"]> sorted_fs.

(** The study of no recording. *)
Definition gt_none : list (string * (recording * string)) := [].
Definition empty_study_fs : FS := (setup_comparison_study study gt_none cwd).2.

End Toy.

(** ** Notions the statements use *)

(** [m] leaves every path in [P] as it found it, whether it returns or
    raises. *)
Definition preserves {A} (P : Path -> Prop) (m : M A) : Prop :=
  forall fs p, P p -> (m fs).2 !! p = fs !! p.

(** [m] leaves the whole file system as it found it. *)
Definition read_only {A} (m : M A) : Prop := forall fs, (m fs).2 = fs.

(** The folder [p] does not exist: neither it nor anything below it. *)
Definition absent (fs : FS) (p : Path) : Prop :=
  forall q, under p q -> fs !! q = None.

(** A recording name that is one part of a path: it holds no separator
    and no null character. *)
Definition plain_name (rec_name : string) : Prop :=
  PyStr.contains os.SEP rec_name = false
  /\ PyStr.contains os.NUL rec_name = false.

(** The four files of a recording of the study whose name is plain. *)
Definition raw_path (study_folder : Path) (rec_name : string) : Path :=
  study_folder // "raw_files" // (rec_name +:+ ".raw").
Definition prb_path (study_folder : Path) (rec_name : string) : Path :=
  study_folder // "raw_files" // (rec_name +:+ ".prb").
Definition json_path (study_folder : Path) (rec_name : string) : Path :=
  study_folder // "raw_files" // (rec_name +:+ ".json").
Definition npz_path (study_folder : Path) (rec_name : string) : Path :=
  study_folder // "ground_truth" // (rec_name +:+ ".npz").

Definition entry_paths (study_folder : Path) (rec_name : string) : list Path :=
  [raw_path study_folder rec_name; prb_path study_folder rec_name;
   json_path study_folder rec_name; npz_path study_folder rec_name].

(** The file system once the three folders of a study are made. *)
Definition made_dirs (study_folder : Path) (fs : FS) : FS :=
  foldl os.mkdir_missing
    (foldl os.mkdir_missing
       (foldl os.mkdir_missing fs (os.chain study_folder))
       (os.chain (study_folder // "raw_files")))
    (os.chain (study_folder // "ground_truth")).

(** The folders [raw_files] and [ground_truth] are there, and no file of
    a recording is a folder. *)
Definition study_ready (study_folder : Path) (fs : FS) : Prop :=
  fs !! (study_folder // "raw_files") = Some Dir
  /\ fs !! (study_folder // "ground_truth") = Some Dir
  /\ forall rec_name p, p ∈ entry_paths study_folder rec_name ->
       fs !! p ≠ Some Dir.

(** No recording is without channels. *)
Definition with_channels {R S} `{!RecordingExtractor R}
    (gt_dict : list (string * (R * S))) : Prop :=
  Forall (fun item => get_num_channels item.2.1 ≠ 0) gt_dict.

(** No name holds a newline or a carriage return. *)
Definition one_line (rec_name : string) : Prop :=
  PyStr.contains PyStr.LF rec_name = false
  /\ PyStr.contains PyStr.CR rec_name = false.

(** What the loop of [collect_run_times] reads for an output folder: the
    float on the first line of its [run_log.txt]. *)
Definition run_time_of (fs : FS) (item : string * string * Path)
    : result pyfloat :=
  match fs !! (item.2 // "run_log.txt") with
  | Some (File text) =>
      of_option (ValueError "could not convert string to float")
        (PyFloat.float_of_string
           (PyStr.replace "run_time:" ""
              (PyStr.readline (PyStr.universal_newlines text))))
  | Some Dir => Raise IsADirectoryError
  | None => Raise FileNotFoundError
  end.

Definition has_run_log (fs : FS) (item : string * string * Path) : Prop :=
  is_Some (fs !! (item.2 // "run_log.txt")).

#[global] Instance has_run_log_dec fs item : Decision (has_run_log fs item).
Proof. unfold has_run_log. apply _. Defined.

(** The triple [collect_run_times] makes of an output folder. *)
Definition is_run_time (fs : FS) (item : string * string * Path)
    (triple : string * string * pyfloat) : Prop :=
  triple.1.1 = item.1.1 /\ triple.1.2 = item.1.2
  /\ run_time_of fs item = Ok triple.2.

(** What the loop of [aggregate_sorting_comparison] computes for one
    collected output. *)
Definition compared {S C : Type} `{!Comparer S C} (ground_truths : gmap string S)
    (key : string * string) (sorting : S) : result C :=
  gt_sorting ← of_option KeyError (ground_truths !! key.1);
  compare_sorter_to_ground_truth gt_sorting sorting.

(** [m] maps each ground-truth unit to a sorter unit of greatest positive
    score, or to none when no sorter unit has a positive score. *)
Definition is_matching {S : Type} `{!SortingExtractor S} (delta_frames : Z)
    (gt_sorting sorting : S) (m : list (Z * option Z)) : Prop :=
  m.*1 = get_unit_ids gt_sorting
  /\ Forall (fun uo =>
       match uo.2 with
       | Some v =>
           v ∈ get_unit_ids sorting
           /\ (0 < Matcher.score delta_frames gt_sorting sorting uo.1 v)%nat
           /\ forall w, w ∈ get_unit_ids sorting ->
                (Matcher.score delta_frames gt_sorting sorting uo.1 w
                 <= Matcher.score delta_frames gt_sorting sorting uo.1 v)%nat
       | None =>
           forall w, w ∈ get_unit_ids sorting ->
             Matcher.score delta_frames gt_sorting sorting uo.1 w = 0%nat
       end) m.

(** The logs that are there can all be read: a check that computes. *)
Definition logs_parse (fs : FS) (folders : list (string * string * Path))
    : bool :=
  forallb (fun item =>
             if decide (has_run_log fs item)
             then match run_time_of fs item with
                  | Ok _ => true
                  | Raise _ => false
                  end
             else true) folders.

(** [m] changes nothing outside the folder [p]. *)
Definition writes_below {A} (p : Path) (m : M A) : Prop :=
  preserves (fun q => ~ under p q) m.

(** The functions of [spiketoolkit.sorters] change nothing outside the
    folder they are given. *)
Definition sorters_stay_below {R S : Type} `{!Sorters R S} : Prop :=
  (forall sorter_list recording_dict working_folder sorter_params mode engine
          engine_kargs,
     writes_below working_folder
       (run_sorters sorter_list recording_dict working_folder sorter_params
          mode engine engine_kargs))
  /\ (forall working_folder,
        writes_below working_folder (loop_over_folders working_folder))
  /\ (forall working_folder,
        writes_below working_folder (collect_sorting_outputs working_folder)).

(** What a study holds once it is created: [raw_files/], [ground_truth/]
    and what is below them, and [names.txt]. *)
Definition protected (study_folder : Path) (p : Path) : Prop :=
  under (study_folder // "raw_files") p
  \/ under (study_folder // "ground_truth") p
  \/ p = study_folder // "names.txt".

(** [r] is a raised [ValueError]. *)
Definition raises_ValueError {A} (r : result A) : Prop :=
  exists msg, r = Raise (ValueError msg).

(** The calls of [spiketoolkit.validation] that a threshold function makes
    all return: [update_param_dicts] with exactly one dict, then
    [MetricData], the metric class [metric], and its [threshold_call], with
    the thresholded sorting [ts]. *)
Definition thresholded {S : Type} `{!SortingExtractor S, !Validation S}
    (sorting : S) (metric_scope_params : metric_scope_params_t)
    (metric : metric_data_t -> result metric_t)
    (threshold_call : metric_t -> result threshold_sorting_t)
    (ts : threshold_sorting_t) : Prop :=
  exists ms_dict md m,
    update_param_dicts metric_scope_params = Ok [ms_dict]
    /\ MetricData sorting
         match unit_ids ms_dict with
         | None => get_unit_ids sorting
         | Some ids => ids
         end (epoch_tuples ms_dict) (epoch_names ms_dict) = Ok md
    /\ metric md = Ok m
    /\ threshold_call m = Ok ts.

(** The methods that the tables call on a comparison return. *)
Definition reports {C : Type} `{!Performance C} (exhaustive_gt : bool)
    (karg_thresh : karg_thresh_t) (sc : C) : Prop :=
  (exists perf, get_performance sc "pooled_with_sum" = Ok perf)
  /\ (exists perf, get_performance sc "pooled_with_average" = Ok perf)
  /\ (exists n, count_well_detected_units sc karg_thresh = Ok n)
  /\ (exists n, count_redundant_units sc = Ok n)
  /\ (exhaustive_gt = true ->
      (exists n, count_false_positive_units sc = Ok n)
      /\ (exists n, count_bad_units sc = Ok n)).

(** The columns of [count_units]. *)
Definition count_units_columns (exhaustive_gt : bool) : list string :=
  (["num_gt"; "num_sorter"; "num_well_detected"; "num_redundant"]
   ++ if exhaustive_gt then ["num_false_positive"; "num_bad"] else [])%list.

(** The store during the loop of [aggregate_performances_table]: the four
    frames at their addresses, the run times untouched, the columns of the
    three others as created, and their index the one of the run times with
    the keys [done] treated so far. *)
Definition tables_inv (run_times : DataFrame)
    (perf_keys count_columns : list string)
    (done : list (string * string)) (h : Heap) : Prop :=
  exists d1 d2 d3,
    h = [run_times; d1; d2; d3]
    /\ df_columns d1 = perf_keys
    /\ df_columns d2 = perf_keys
    /\ df_columns d3 = count_columns
    /\ (forall k, k ∈ pd.index d1 <-> k ∈ pd.index run_times \/ k ∈ done)
    /\ (forall k, k ∈ pd.index d2 <-> k ∈ pd.index run_times \/ k ∈ done)
    /\ (forall k, k ∈ pd.index d3 <-> k ∈ pd.index run_times \/ k ∈ done).

(** [s] less its prefix [p], where it has it: what "removing the prefix"
    says, to compare with [s.replace(p, '')]. *)
Fixpoint drop_chars (n : nat) (s : string) : string :=
  match n, s with
  | Datatypes.S n', String _ s' => drop_chars n' s'
  | _, _ => s
  end.

Definition remove_prefix (p s : string) : string :=
  if PyStr.startswith p s then drop_chars (String.length p) s else s.

(** The indexes of the frames [name1] and [name2] of a returned dict. *)
Definition indexes_of (r : result (gmap string DataFrame)) (name1 name2 : string)
    : option (list (string * string)) * option (list (string * string)) :=
  match r with
  | Ok out => (pd.index <$> out !! name1, pd.index <$> out !! name2)
  | Raise _ => (None, None)
  end.

(** ** [sorters/mountainsort4/mountainsort4.py]: [_mountainsort4] *)

(** A recording of [spikeextractors] with its channel properties, in the
    camel-case interface that this file calls.  A value is the state of the
    object: a method that changes the object gives the state after the
    call. *)
Class ChannelRecording (Rec : Type) := {
  getChannelIds : Rec -> list Z;
  getChannelPropertyNames : Rec -> list string;
  (** [recording.setChannelProperty(chan, name, value)]: [recording] after
      the call *)
  setChannelProperty : Rec -> Z -> string -> list Z -> Rec;
  (** [recording.getChannelProperty(chan, name)]; the file does not call it,
      the statements read a property with it *)
  getChannelProperty : Rec -> Z -> string -> option (list Z);
}.

(** [ml_ms4alg] and [spiketoolkit.preprocessing]. *)
Class MountainSort (Rec Srt : Type) := {
  (** the numbers that are passed on as they are given *)
  number : Type;
  (** whether [import ml_ms4alg] finds the module *)
  have_ml_ms4alg : bool;
  (** [st.preprocessing.bandpass_filter(recording=, freq_min=, freq_max=)] *)
  bandpass_filter : Rec -> number -> number -> result Rec;
  (** [st.preprocessing.whiten(recording=)] *)
  preprocessing_whiten : Rec -> result Rec;
  (** [ml_ms4alg.mountainsort4(recording=, detect_sign=, adjacency_radius=,
      clip_size=, detect_threshold=, detect_interval=)] *)
  ms4alg_mountainsort4 :
    Rec -> number -> number -> number -> number -> number -> result Srt;
  (** [ml_ms4alg.mountainsort4_curation(recording=, sorting=,
      noise_overlap_threshold=)] *)
  ms4alg_mountainsort4_curation : Rec -> Srt -> number -> result Srt;
}.

(** What a call of [_mountainsort4] ends in: [ModuleNotFoundError] is the
    exception it raises itself, [Raised] one that a library raised. *)
Inductive ms4_result (A : Type) : Type :=
  | Sorted (a : A)
  | ModuleNotFoundError (msg : string)
  | Raised (e : exn).
Arguments Sorted {A} a.
Arguments ModuleNotFoundError {A} msg.
Arguments Raised {A} e.

Definition ms4_of_result {A} (r : result A) : ms4_result A :=
  match r with
  | Ok a => Sorted a
  | Raise e => Raised e
  end.

Definition ml_ms4alg_msg : string :=
  String PyStr.LF "To use Mountainsort, install ml_ms4alg: "
  +:+ String PyStr.LF (String PyStr.LF (String PyStr.LF "pip install ml_ms4alg"))
  +:+ String PyStr.LF (String PyStr.LF "More information on Mountainsort at: ")
  +:+ String PyStr.LF "https://github.com/flatironinstitute/mountainsort".

(** [enumerate(l)] *)
Definition enumerate {A} (l : list A) : list (Z * A) :=
  imap (fun i x => (Z.of_nat i, x)) l.

Section mountainsort4.
Context {Rec Srt : Type} `{!ChannelRecording Rec, !MountainSort Rec Srt}.

(** One turn of the loop that gives the channels their default location,
    and the loop. *)
Definition set_location (recording : Rec) (item : Z * Z) : Rec :=
  let '(i, chan) := item in
  setChannelProperty recording chan "location" [0; i].

Definition default_locations (recording : Rec) : Rec :=
  foldl set_location recording (enumerate (getChannelIds recording)).

(** The two preprocessing steps. *)
Definition preprocessed (recording : Rec) (freq_min : option number)
    (freq_max : number) (whiten : bool) : result Rec :=
  recording ← match freq_min with
              | Some freq_min => bandpass_filter recording freq_min freq_max
              | None => Ok recording
              end;
  if whiten then preprocessing_whiten recording else Ok recording.

Definition _mountainsort4 (recording : Rec)
    (detect_sign adjacency_radius : number) (freq_min : option number)
    (freq_max : number) (whiten : bool)
    (clip_size detect_threshold detect_interval : number)
    (noise_overlap_threshold : option number) : ms4_result Srt :=
  if negb have_ml_ms4alg then ModuleNotFoundError ml_ms4alg_msg
  else
    ms4_of_result
      (recording ← preprocessed recording freq_min freq_max whiten;
       let recording :=
         if bool_decide ("location" ∈ getChannelPropertyNames recording)
         then recording else default_locations recording in
       sorting ← ms4alg_mountainsort4 recording detect_sign adjacency_radius
                   clip_size detect_threshold detect_interval;
       match noise_overlap_threshold with
       | Some noise_overlap_threshold =>
           ms4alg_mountainsort4_curation recording sorting
             noise_overlap_threshold
       | None => Ok sorting
       end).

End mountainsort4.

(** Setting a channel property changes that property of that channel, no
    other, and not the channels. *)
Definition properties_are_kept (Rec : Type) `{!ChannelRecording Rec} : Prop :=
  (forall recording chan name value,
     getChannelProperty (setChannelProperty recording chan name value)
       chan name
     = Some value)
  /\ (forall recording chan name value chan' name',
        (chan', name') ≠ (chan, name) ->
        getChannelProperty (setChannelProperty recording chan name value)
          chan' name'
        = getChannelProperty recording chan' name')
  /\ (forall recording chan name value,
        getChannelIds (setChannelProperty recording chan name value)
        = getChannelIds recording).

(** A recording for [_mountainsort4]: its channels and their properties;
    the sorter answers with the locations it was given. *)
Module ToyMs4.

Record recording : Type := {
  channel_ids : list Z;
  properties : gmap (Z * string) (list Z);
}.

#[export] Instance channel_recording : ChannelRecording recording :=
  {| getChannelIds := channel_ids;
     getChannelPropertyNames r := remove_dups (map_to_list (properties r)).*1.*2;
     setChannelProperty r chan name value :=
       {| channel_ids := channel_ids r;
          properties := <[(chan, name) := value]> (properties r) |};
     getChannelProperty r chan name := properties r !! (chan, name) |}.

#[export] Instance mountain_sort
    : MountainSort recording (list (option (list Z))) :=
  {| number := Z;
     have_ml_ms4alg := true;
     bandpass_filter r freq_min freq_max := Ok r;
     preprocessing_whiten r := Ok r;
     ms4alg_mountainsort4 r _ _ _ _ _ :=
       Ok ((fun chan => properties r !! (chan, "location")) <$> channel_ids r);
     ms4alg_mountainsort4_curation r sorting _ := Ok sorting |}.

Definition two_channels : recording :=
  {| channel_ids := [5; 7]; properties := ∅ |}.

End ToyMs4.
(** ** Notions of the further statements *)

(** ['\n'.join(names)]: the names, a newline between two of them and none
    at the end. *)
Fixpoint lines_text (names : list string) : string :=
  match names with
  | [] => ""
  | [rec_name] => rec_name
  | rec_name :: rest => rec_name +:+ String PyStr.LF (lines_text rest)
  end.

(** What a reader gets of the file at [p]. *)
Definition read_file (fs : FS) (p : Path) : result string :=
  match fs !! p with
  | Some (File text) => Ok text
  | Some Dir => Raise IsADirectoryError
  | None => Raise FileNotFoundError
  end.

(** What a reader gets of the file [folder / name]. *)
Definition read_named (fs : FS) (folder : Path) (name : string)
    : result string :=
  p ← os.locate fs folder name; read_file fs p.


(** What the loop of [get_recordings] computes for one name of the index,
    its files read in the order of the source. *)
Definition stored_recording {R : Type} (S : Type) `{!Library R S}
    (study_folder : Path) (fs : FS) (rec_name : string) : result R :=
  json ← read_named fs (study_folder // "raw_files") (rec_name +:+ ".json");
  info ← json_load (PyStr.universal_newlines json);
  raw ← read_named fs (study_folder // "raw_files") (rec_name +:+ ".raw");
  rec ← bin_dat_recording raw (sample_rate info) (num_chan info) (dtype info)
          (frames_first info);
  prb ← read_named fs (study_folder // "raw_files") (rec_name +:+ ".prb");
  probe_loaded rec prb.

(** What the loop of [get_ground_truths] computes for one name. *)
Definition stored_ground_truth (R : Type) {S : Type} `{!Library R S}
    (study_folder : Path) (fs : FS) (rec_name : string) : result S :=
  npz ← read_named fs (study_folder // "ground_truth") (rec_name +:+ ".npz");
  npz_sorting npz.

(** The dict a loading loop builds from the names [rec_names]. *)
Definition loaded {V : Type} (load : string -> result V)
    (rec_names : list string) (d : gmap string V) : Prop :=
  forall rec_name,
    d !! rec_name
    = if decide (rec_name ∈ rec_names)
      then match load rec_name with
           | Ok v => Some v
           | Raise _ => None
           end
      else None.

(** The names of the index that [names.txt] holds. *)
Definition index_of (text : string) : list string :=
  PyStr.split PyStr.LF (PyStr.drop_last (PyStr.universal_newlines text)).

(** The names of the index of the study, when it has one, are plain. *)
Definition plain_index (study_folder : Path) (fs : FS) : Prop :=
  forall text,
    fs !! (study_folder // "names.txt") = Some (File text) ->
    Forall plain_name (index_of text).

(** Every row of [df] with the label [key] holds [v] in the column [col]. *)
Definition cell_is (df : DataFrame) (key : string * string) (col : string)
    (v : cell) : Prop :=
  forall row, (key, row) ∈ df_rows df -> row !! col = Some v.

(** [df'] has the rows of [df] at the label [key]. *)
Definition same_rows (key : string * string) (df df' : DataFrame) : Prop :=
  forall row, (key, row) ∈ df_rows df' <-> (key, row) ∈ df_rows df.

(** The rows of the three tables at [key] hold what the loop of
    [aggregate_performances_table] writes for the comparison [comp] of
    [sorting] with [gt_sorting]. *)
Definition filled {S C : Type} `{!SortingExtractor S, !Performance C}
    (exhaustive_gt : bool) (karg_thresh : karg_thresh_t)
    (gt_sorting sorting : S) (comp : C) (key : string * string)
    (perf_pooled_with_sum perf_pooled_with_average count_units : DataFrame)
    : Prop :=
  key ∈ pd.index perf_pooled_with_sum
  /\ key ∈ pd.index perf_pooled_with_average
  /\ key ∈ pd.index count_units
  /\ (exists perf,
        get_performance comp "pooled_with_sum" = Ok perf
        /\ forall col, col ∈ _perf_keys ->
             cell_is perf_pooled_with_sum key col (default NaN (perf !! col)))
  /\ (exists perf,
        get_performance comp "pooled_with_average" = Ok perf
        /\ forall col, col ∈ _perf_keys ->
             cell_is perf_pooled_with_average key col
               (default NaN (perf !! col)))
  /\ cell_is count_units key "num_gt" (Int (Zlen (get_unit_ids gt_sorting)))
  /\ cell_is count_units key "num_sorter" (Int (Zlen (get_unit_ids sorting)))
  /\ (exists n,
        count_well_detected_units comp karg_thresh = Ok n
        /\ cell_is count_units key "num_well_detected" (Int n))
  /\ (exists n,
        count_redundant_units comp = Ok n
        /\ cell_is count_units key "num_redundant" (Int n))
  /\ (exhaustive_gt = true ->
      (exists n,
         count_false_positive_units comp = Ok n
         /\ cell_is count_units key "num_false_positive" (Int n))
      /\ (exists n,
            count_bad_units comp = Ok n
            /\ cell_is count_units key "num_bad" (Int n))).

(** The row that [count_units] is created with. *)
Definition blank_count_row (exhaustive_gt : bool) : gmap string cell :=
  if exhaustive_gt
  then <["num_bad" := PyNone]> (<["num_false_positive" := PyNone]> ∅)
  else ∅.

(** The dict of a loading loop, or what its first failing name raises. *)
Fixpoint load_all {V : Type} (load : string -> result V)
    (rec_names : list string) (acc : gmap string V) : result (gmap string V) :=
  match rec_names with
  | [] => Ok acc
  | rec_name :: rest =>
      v ← load rec_name; load_all load rest (<[rec_name := v]> acc)
  end.

(** Two file systems hold the same study in [study_folder]. *)
Definition same_study (study_folder : Path) (fs1 fs2 : FS) : Prop :=
  forall p, protected study_folder p -> fs1 !! p = fs2 !! p.

(** * Properties *)

(** ** Strings *)

Section string_facts.
Import PyStr.

Lemma append_cons (c : ascii) (s t : string) :
  String c s +:+ t = String c (s +:+ t).
Proof. reflexivity. Qed.

Lemma append_nil_l (t : string) : "" +:+ t = t.
Proof. reflexivity. Qed.

Lemma append_nil_r (s : string) : s +:+ "" = s.
Proof.
  induction s as [|c s IH]; [done |]. by rewrite append_cons, IH.
Qed.

Lemma append_assoc (s t u : string) : (s +:+ t) +:+ u = s +:+ (t +:+ u).
Proof.
  induction s as [|c s IH]; [done |]. by rewrite !append_cons, IH.
Qed.

Lemma append_empty_inv (s t : string) : s +:+ t = "" -> s = "" /\ t = "".
Proof. destruct s; [done | discriminate]. Qed.

Lemma drop_last_snoc (s : string) (c : ascii) :
  drop_last (s +:+ String c "") = s.
Proof.
  induction s as [|d s IH]; [done |].
  rewrite append_cons. simpl. rewrite IH.
  destruct s; done.
Qed.

Lemma drop_last_append (s t : string) :
  t ≠ "" -> drop_last (s +:+ t) = s +:+ drop_last t.
Proof.
  intros Ht. induction s as [|d s IH]; [done |].
  rewrite !append_cons. simpl. rewrite IH.
  destruct (s +:+ t) eqn:E; [|done].
  apply append_empty_inv in E as [_ ?]. done.
Qed.

Lemma split_cons_sep (sep : ascii) (s : string) :
  split sep (String sep s) = "" :: split sep s.
Proof. simpl. by rewrite bool_decide_eq_true_2. Qed.

Lemma split_without (sep : ascii) (s : string) :
  contains sep s = false -> split sep s = [s].
Proof.
  induction s as [|c s IH]; simpl; [done |].
  intros [Hc Hs]%orb_false_elim. rewrite Hc, (IH Hs). done.
Qed.

Lemma split_append (sep : ascii) (s t : string) :
  contains sep s = false ->
  split sep (s +:+ String sep t) = s :: split sep t.
Proof.
  induction s as [|c s IH]; intros Hs.
  - apply split_cons_sep.
  - simpl in Hs. apply orb_false_elim in Hs as [Hc Hs].
    rewrite append_cons. simpl. rewrite Hc, (IH Hs). done.
Qed.

Lemma contains_append (c : ascii) (s t : string) :
  contains c (s +:+ t) = contains c s || contains c t.
Proof.
  induction s as [|d s IH]; [done |].
  rewrite append_cons. simpl. by rewrite IH, orb_assoc.
Qed.

Lemma universal_newlines_without (s : string) :
  contains CR s = false -> universal_newlines s = s.
Proof.
  induction s as [|c s IH]; simpl; [done |].
  intros [Hc Hs]%orb_false_elim. unfold is_CR. rewrite Hc, (IH Hs). done.
Qed.

Lemma names_text_cons (rec_name : string) (names : list string) :
  names_text (rec_name :: names)
  = rec_name +:+ String LF (names_text names).
Proof. unfold names_text. simpl. by rewrite append_assoc. Qed.

Lemma names_text_nonempty (names : list string) :
  names ≠ [] -> names_text names ≠ "".
Proof.
  destruct names as [|n names]; [done |]. intros _.
  rewrite names_text_cons. intros [_ ?]%append_empty_inv. done.
Qed.

Lemma drop_last_cons (c : ascii) (s : string) :
  s ≠ "" -> drop_last (String c s) = String c (drop_last s).
Proof. destruct s; done. Qed.

(** Splitting the index text, less its last character, gives the names back. *)
Lemma split_names_text (names : list string) :
  names ≠ [] ->
  Forall (fun rec_name => contains LF rec_name = false) names ->
  split LF (drop_last (names_text names)) = names.
Proof.
  intros Hne Hall. induction Hall as [|n names Hn Hall IH]; [done |].
  rewrite names_text_cons. destruct names as [|n' names'].
  - unfold names_text. simpl. rewrite drop_last_snoc. by apply split_without.
  - rewrite drop_last_append by done.
    rewrite drop_last_cons by (by apply names_text_nonempty).
    rewrite split_append by done. by rewrite IH.
Qed.

Lemma names_text_without_CR (names : list string) :
  Forall (fun rec_name => contains CR rec_name = false) names ->
  contains CR (names_text names) = false.
Proof.
  induction 1 as [|n names Hn _ IH]; [done |].
  rewrite names_text_cons, contains_append. simpl. by rewrite Hn, IH.
Qed.

End string_facts.

(** ** The monad *)

Section monad_facts.

Lemma bind_run {A B} (m : M A) (f : A -> M B) (fs : FS) :
  (m ≫= f) fs
  = match m fs with
    | (Ok a, fs') => f a fs'
    | (Raise e, fs') => (Raise e, fs')
    end.
Proof. reflexivity. Qed.

Lemma bind_ok {A B} (m : M A) (f : A -> M B) (fs fs' : FS) (a : A) :
  m fs = (Ok a, fs') -> (m ≫= f) fs = f a fs'.
Proof. intros E. by rewrite bind_run, E. Qed.

Lemma bind_raise {A B} (m : M A) (f : A -> M B) (fs fs' : FS) (e : exn) :
  m fs = (Raise e, fs') -> (m ≫= f) fs = (Raise e, fs').
Proof. intros E. by rewrite bind_run, E. Qed.

Lemma read_only_preserves {A} (P : Path -> Prop) (m : M A) :
  read_only m -> preserves P m.
Proof. intros H fs p _. by rewrite H. Qed.

Lemma preserves_weaken {A} (P Q : Path -> Prop) (m : M A) :
  (forall p, Q p -> P p) -> preserves P m -> preserves Q m.
Proof. intros HPQ H fs p Hp. apply H, HPQ, Hp. Qed.

Lemma preserves_bind {A B} (P : Path -> Prop) (m : M A) (f : A -> M B) :
  preserves P m -> (forall a, preserves P (f a)) -> preserves P (m ≫= f).
Proof.
  intros Hm Hf fs p Hp. rewrite bind_run.
  specialize (Hm fs p Hp). destruct (m fs) as [[a|e] fs1]; simpl in *.
  - by rewrite (Hf a fs1 p Hp).
  - done.
Qed.

Lemma read_only_bind {A B} (m : M A) (f : A -> M B) :
  read_only m -> (forall a, read_only (f a)) -> read_only (m ≫= f).
Proof.
  intros Hm Hf fs. rewrite bind_run.
  specialize (Hm fs). destruct (m fs) as [[a|e] fs1]; simpl in *; subst.
  - apply Hf.
  - done.
Qed.

Lemma read_only_ret {A} (a : A) : read_only (mret a : M A).
Proof. done. Qed.

Lemma read_only_lift {A} (r : result A) : read_only (lift r).
Proof. done. Qed.

Lemma read_only_raise {A} (e : exn) : read_only (raise e : M A).
Proof. done. Qed.

Lemma for_each_cons {A} (x : A) (l : list A) (body : A -> M unit) (fs : FS) :
  for_each (x :: l) body fs = (body x ≫= fun _ => for_each l body) fs.
Proof. reflexivity. Qed.

Lemma for_fold_cons {A B} (x : A) (l : list A) (acc : B)
    (body : B -> A -> M B) (fs : FS) :
  for_fold (x :: l) acc body fs
  = (body acc x ≫= fun acc' => for_fold l acc' body) fs.
Proof. reflexivity. Qed.

Lemma read_only_for_fold {A B} (l : list A) (acc : B) (body : B -> A -> M B) :
  (forall b a, read_only (body b a)) -> read_only (for_fold l acc body).
Proof.
  intros Hbody. revert acc.
  induction l as [|x l IH]; intros acc; simpl.
  - apply read_only_ret.
  - apply read_only_bind; [apply Hbody | intros b; apply IH].
Qed.

Lemma preserves_for_fold {A B} (P : Path -> Prop) (l : list A) (acc : B)
    (body : B -> A -> M B) :
  (forall b a, preserves P (body b a)) -> preserves P (for_fold l acc body).
Proof.
  intros Hbody. revert acc.
  induction l as [|x l IH]; intros acc; simpl.
  - by apply read_only_preserves.
  - apply preserves_bind; [apply Hbody | intros b; apply IH].
Qed.

Lemma preserves_for_each {A} (P : Path -> Prop) (l : list A)
    (body : A -> M unit) :
  (forall a, a ∈ l -> preserves P (body a)) -> preserves P (for_each l body).
Proof.
  induction l as [|x l IH]; intros Hbody; simpl.
  - by apply read_only_preserves.
  - apply preserves_bind.
    + apply Hbody. left.
    + intros _. apply IH. intros a Ha. apply Hbody. by right.
Qed.

Lemma read_only_path_exists (p : Path) : read_only (os.path_exists p).
Proof. done. Qed.

Lemma read_only_read_bytes (p : Path) : read_only (os.read_bytes p).
Proof. intros fs. unfold os.read_bytes. by destruct (fs !! p) as [[]|]. Qed.

Lemma read_only_read_text (p : Path) : read_only (os.read_text p).
Proof.
  apply read_only_bind; [apply read_only_read_bytes | intros; apply read_only_ret].
Qed.

Lemma read_only_read_named_bytes (folder : Path) (name : string) :
  read_only (os.read_named_bytes folder name).
Proof.
  intros fs. unfold os.read_named_bytes.
  destruct (os.locate fs folder name); [apply read_only_read_bytes | done].
Qed.

Lemma read_only_read_named_text (folder : Path) (name : string) :
  read_only (os.read_named_text folder name).
Proof.
  unfold os.read_named_text. apply read_only_bind;
    [apply read_only_read_named_bytes | intros; apply read_only_ret].
Qed.

Lemma read_only_getitem `{Countable K} {V} (d : gmap K V) (k : K) :
  read_only (getitem d k).
Proof. done. Qed.

Lemma preserves_write_file (P : Path -> Prop) (p : Path) (text : string) :
  ~ P p -> preserves P (os.write_file p text).
Proof.
  intros Hp fs q Hq. simpl. apply lookup_insert_ne. by intros ->.
Qed.

End monad_facts.

Create HintDb fs_ro.

#[export] Hint Resolve read_only_ret read_only_lift read_only_raise
  read_only_path_exists read_only_read_bytes read_only_read_text
  read_only_read_named_bytes read_only_read_named_text
  read_only_getitem : fs_ro.

(** Splits the goals [read_only (m ≫= f)] down to the primitives. *)
Ltac ro_steps :=
  repeat first
    [ progress auto with fs_ro
    | apply read_only_for_fold; intros
    | apply read_only_bind; [| intros]
    | match goal with
      | |- read_only (let '(_, _) := ?x in _) => destruct x
      | |- read_only (match ?x with _ => _ end) => destruct x
      | |- read_only (if ?b then _ else _) => destruct b
      end ].

(** ** Paths *)

Section path_facts.

Lemma length_append (s t : string) :
  String.length (s +:+ t) = (String.length s + String.length t)%nat.
Proof.
  induction s as [|c s IH]; [done |]. rewrite append_cons. simpl. by rewrite IH.
Qed.

(** Two texts with suffixes of one length are equal only part by part. *)
Lemma append_inj (s s' t t' : string) :
  String.length t = String.length t' ->
  s +:+ t = s' +:+ t' -> s = s' /\ t = t'.
Proof.
  intros Hlen. revert s'. induction s as [|c s IH]; intros [|c' s'] E.
  - done.
  - exfalso. apply (f_equal String.length) in E.
    rewrite append_nil_l, append_cons in E. simpl in E.
    rewrite length_append in E. lia.
  - exfalso. apply (f_equal String.length) in E.
    rewrite append_nil_l, append_cons in E. simpl in E.
    rewrite length_append in E. lia.
  - rewrite !append_cons in E. injection E as -> E.
    destruct (IH _ E) as [-> ->]. done.
Qed.

Lemma pjoin_inj (p q : Path) (a b : string) :
  p // a = q // b -> p = q /\ a = b.
Proof. unfold pjoin. intros E. by apply app_inj_tail in E. Qed.

Lemma length_pjoin (p : Path) (a : string) :
  length (p // a) = Datatypes.S (length p).
Proof. unfold pjoin. rewrite length_app. simpl. lia. Qed.

Lemma under_pjoin (p : Path) (a : string) : under p (p // a).
Proof. by apply prefix_app_r. Qed.

Lemma under_trans (p q r : Path) : under p q -> under q r -> under p r.
Proof. unfold under. by intros ? ?; etrans. Qed.

Lemma under_length (p q : Path) : under p q -> (length p <= length q)%nat.
Proof. apply prefix_length. Qed.

(** Two folders of one parent with different names have nothing in common. *)
Lemma under_siblings (p q : Path) (a b : string) :
  a ≠ b -> under (p // a) q -> ~ under (p // b) q.
Proof.
  unfold under, pjoin. intros Hab [k ->] [k' E].
  rewrite <- !app_assoc in E. apply app_inv_head in E.
  simpl in E. congruence.
Qed.

Lemma not_under_longer (p q : Path) :
  (length q < length p)%nat -> ~ under p q.
Proof. intros Hlt Hu%under_length. lia. Qed.

End path_facts.

(** ** The primitives of [os] *)

Section os_facts.

Lemma mkdir_missing_lookup (fs : FS) (l : list Path) (q : Path) :
  foldl os.mkdir_missing fs l !! q
  = match fs !! q with
    | Some e => Some e
    | None => if bool_decide (q ∈ l) then Some Dir else None
    end.
Proof.
  revert fs. induction l as [|d l IH]; intros fs; simpl.
  - by destruct (fs !! q).
  - rewrite IH. unfold os.mkdir_missing.
    destruct (decide (q = d)) as [->|Hne].
    + rewrite (bool_decide_eq_true_2 (d ∈ d :: l)) by left.
      destruct (fs !! d) as [e|] eqn:E; [by rewrite E |].
      by rewrite lookup_insert_eq.
    + assert (bool_decide (q ∈ d :: l) = bool_decide (q ∈ l)) as ->.
      { apply bool_decide_ext. rewrite elem_of_cons.
        split; [intros [?|?]; done | by right]. }
      destruct (fs !! d) as [e|] eqn:E; [done |].
      by rewrite lookup_insert_ne.
Qed.

Lemma elem_of_chain (q p : Path) : q ∈ os.chain p <-> under q p.
Proof.
  unfold os.chain, under. rewrite list_elem_of_fmap. split.
  - intros (n & -> & _). apply prefix_take.
  - intros [k ->]. exists (length q). split.
    + by rewrite take_app_length.
    + apply elem_of_seq. rewrite length_app. lia.
Qed.

(** After [os.makedirs(p)]: what was there is there, and the prefixes of
    [p] that were missing are folders. *)
Lemma makedirs_run (p : Path) (fs : FS) :
  fs !! p = None ->
  os.makedirs p fs = (Ok (), foldl os.mkdir_missing fs (os.chain p)).
Proof. intros E. unfold os.makedirs. by rewrite E. Qed.

Lemma makedirs_lookup (p q : Path) (fs : FS) :
  foldl os.mkdir_missing fs (os.chain p) !! q
  = match fs !! q with
    | Some e => Some e
    | None => if bool_decide (under q p) then Some Dir else None
    end.
Proof.
  rewrite mkdir_missing_lookup. destruct (fs !! q); [done |].
  apply (f_equal (fun b : bool => if b then Some Dir else None)).
  apply bool_decide_ext, elem_of_chain.
Qed.

Lemma preserves_makedirs (P : Path -> Prop) (p : Path) :
  (forall q, P q -> ~ under q p) -> preserves P (os.makedirs p).
Proof.
  intros HP fs q Hq. destruct (fs !! p) eqn:E.
  { unfold os.makedirs. by rewrite E. }
  rewrite makedirs_run by done. cbn [snd].
  rewrite makedirs_lookup. destruct (fs !! q); [done |].
  rewrite bool_decide_eq_false_2; [done |]. by apply HP.
Qed.

(** *** Files that are named by a text *)

Lemma startswith_contains (c : ascii) (s : string) :
  PyStr.startswith (String c "") s = true -> PyStr.contains c s = true.
Proof.
  destruct s as [|d s]; [done |]. cbn [PyStr.startswith PyStr.contains].
  rewrite andb_true_r. intros E%bool_decide_eq_true_1. subst d.
  by rewrite bool_decide_eq_true_2.
Qed.

Lemma parts_one (s : string) :
  PyStr.contains os.SEP s = false -> s ≠ "" -> s ≠ "." -> os.parts s = [s].
Proof.
  intros Hs H1 H2. unfold os.parts. rewrite split_without by done.
  by rewrite filter_cons_True, filter_nil.
Qed.

(** A plain name with an extension is one part of a path: the file is in
    the folder, which has to be there. *)
Lemma locate_file (fs : FS) (folder : Path) (n ext : string) :
  plain_name n ->
  PyStr.contains os.SEP ext = false -> PyStr.contains os.NUL ext = false ->
  (3 <= String.length ext)%nat ->
  os.locate fs folder (n +:+ ext)
  = match fs !! folder with
    | Some Dir => Ok (folder // (n +:+ ext))
    | Some (File _) => Raise NotADirectoryError
    | None => Raise FileNotFoundError
    end.
Proof.
  intros [Hsep Hnul] Esep Enul Hlen. unfold os.locate.
  rewrite contains_append, Hnul, Enul. cbn [orb].
  assert (PyStr.contains os.SEP (n +:+ ext) = false) as Hs
    by (by rewrite contains_append, Hsep, Esep).
  assert (os.is_absolute (n +:+ ext) = false) as ->.
  { unfold os.is_absolute.
    destruct (PyStr.startswith "/" (n +:+ ext)) eqn:E; [| done].
    apply startswith_contains in E. unfold os.SEP in Hs. congruence. }
  assert (forall t, (String.length t < 3)%nat -> n +:+ ext ≠ t) as Hne.
  { intros t Ht E%(f_equal String.length). rewrite length_append in E. lia. }
  rewrite parts_one; [| done | apply Hne; cbn; lia | apply Hne; cbn; lia].
  cbn [os.walk]. destruct (fs !! folder) as [[]|]; [| done | done].
  unfold os.step. rewrite bool_decide_eq_false_2; [done |].
  apply Hne. cbn. lia.
Qed.

Lemma write_named_file (fs : FS) (folder : Path) (n ext text : string) :
  plain_name n ->
  PyStr.contains os.SEP ext = false -> PyStr.contains os.NUL ext = false ->
  (3 <= String.length ext)%nat ->
  fs !! folder = Some Dir ->
  fs !! (folder // (n +:+ ext)) ≠ Some Dir ->
  os.write_named folder (n +:+ ext) text fs
  = (Ok (), <[folder // (n +:+ ext) := File text]> fs).
Proof.
  intros Hn Esep Enul Hlen Hdir Hfile. unfold os.write_named.
  rewrite locate_file, Hdir by done.
  by destruct (fs !! (folder // (n +:+ ext))) as [[]|].
Qed.

Lemma read_named_bytes_file (fs : FS) (folder : Path) (n ext : string) :
  plain_name n ->
  PyStr.contains os.SEP ext = false -> PyStr.contains os.NUL ext = false ->
  (3 <= String.length ext)%nat ->
  fs !! folder = Some Dir ->
  os.read_named_bytes folder (n +:+ ext) fs
  = os.read_bytes (folder // (n +:+ ext)) fs.
Proof.
  intros Hn Esep Enul Hlen Hdir. unfold os.read_named_bytes.
  by rewrite locate_file, Hdir.
Qed.

(** A write changes the file it finds, and no other path. *)
Lemma write_named_lookup (folder : Path) (name text : string) (fs : FS)
    (q : Path) :
  (forall p, os.locate fs folder name = Ok p -> q ≠ p) ->
  (os.write_named folder name text fs).2 !! q = fs !! q.
Proof.
  intros Hq. unfold os.write_named.
  destruct (os.locate fs folder name) as [p|e]; [| done].
  destruct (fs !! p) as [[]|]; [done | |];
    (cbn [os.write_file snd]; rewrite lookup_insert_ne; [done |];
     intros <-; by eapply Hq).
Qed.

End os_facts.

(** ** The study store *)

Section store_facts.
Context {R S : Type}.
Context `{!RecordingExtractor R, !SortingExtractor S, !Library R S}.

Lemma entry_path_eq (sf : Path) (d d' f f' : string) :
  sf // d // f = sf // d' // f' -> d = d' /\ f = f'.
Proof. intros [[_ ?]%pjoin_inj ?]%pjoin_inj. done. Qed.

Lemma json_suffix (rec_name : string) :
  rec_name +:+ ".json" = (rec_name +:+ ".") +:+ "json".
Proof. by rewrite append_assoc. Qed.

(** The files of two recordings are different files, and so are the four
    files of one. *)
Lemma entry_paths_disjoint (sf : Path) (n n' : string) (p : Path) :
  n ≠ n' -> p ∈ entry_paths sf n -> p ∉ entry_paths sf n'.
Proof.
  intros Hne Hp Hp'. unfold entry_paths in *.
  repeat (apply elem_of_cons in Hp as [->|Hp]);
    [| | | | by apply elem_of_nil in Hp];
    repeat (apply elem_of_cons in Hp' as [Hp'|Hp']);
    try (by apply elem_of_nil in Hp');
    unfold raw_path, prb_path, json_path, npz_path in Hp';
    apply entry_path_eq in Hp' as [Hd Hf]; try discriminate Hd;
    rewrite ?json_suffix in Hf;
    apply append_inj in Hf as [Hn Hs]; try done; try discriminate Hs.
  apply append_inj in Hn as [Hn _]; done.
Qed.

Lemma entry_paths_distinct (sf : Path) (n : string) :
  raw_path sf n ≠ prb_path sf n /\ raw_path sf n ≠ json_path sf n
  /\ raw_path sf n ≠ npz_path sf n /\ prb_path sf n ≠ json_path sf n
  /\ prb_path sf n ≠ npz_path sf n /\ json_path sf n ≠ npz_path sf n.
Proof.
  unfold raw_path, prb_path, json_path, npz_path.
  repeat split; intros E;
    apply entry_path_eq in E as [Hd Hf]; try discriminate Hd;
    rewrite ?json_suffix in Hf;
    apply append_inj in Hf as [_ Hs]; try done; discriminate Hs.
Qed.

Lemma elem_of_entry_paths (sf : Path) (n : string) (p : Path) :
  p ∈ entry_paths sf n
  <-> p = raw_path sf n \/ p = prb_path sf n \/ p = json_path sf n
      \/ p = npz_path sf n.
Proof.
  unfold entry_paths. rewrite !elem_of_cons, elem_of_nil. tauto.
Qed.

Lemma entry_path_not_prefix (sf : Path) (n : string) (p d : Path) :
  p ∈ entry_paths sf n -> (length d <= Datatypes.S (length sf))%nat -> p ≠ d.
Proof.
  intros Hin%elem_of_entry_paths Hlen ->.
  unfold raw_path, prb_path, json_path, npz_path in Hin.
  destruct Hin as [E|[E|[E|E]]]; apply (f_equal length) in E;
    rewrite !length_pjoin in E; lia.
Qed.

Lemma study_ready_insert (sf : Path) (fs : FS) (n : string) (p : Path)
    (text : string) :
  p ∈ entry_paths sf n -> study_ready sf fs ->
  study_ready sf (<[p := File text]> fs).
Proof.
  intros Hp (Hraw & Hgt & Hfiles). repeat split.
  - rewrite lookup_insert_ne; [done |].
    eapply entry_path_not_prefix; [done |]. by rewrite length_pjoin.
  - rewrite lookup_insert_ne; [done |].
    eapply entry_path_not_prefix; [done |]. by rewrite length_pjoin.
  - intros n' q Hq. destruct (decide (p = q)) as [->|Hne].
    + by rewrite lookup_insert_eq.
    + rewrite lookup_insert_ne by done. by eapply Hfiles.
Qed.

(** One file of a recording with a plain name is written into its folder
    of a study that is ready. *)
Lemma write_entry_file (sf : Path) (fs : FS) (n folder ext text : string) :
  plain_name n ->
  PyStr.contains os.SEP ext = false -> PyStr.contains os.NUL ext = false ->
  (3 <= String.length ext)%nat ->
  sf // folder // (n +:+ ext) ∈ entry_paths sf n ->
  fs !! (sf // folder) = Some Dir ->
  study_ready sf fs ->
  os.write_named (sf // folder) (n +:+ ext) text fs
    = (Ok (), <[sf // folder // (n +:+ ext) := File text]> fs)
  /\ study_ready sf (<[sf // folder // (n +:+ ext) := File text]> fs).
Proof.
  intros Hn Esep Enul Hlen Hin Hdir Hready. split.
  - apply write_named_file; try done.
    destruct Hready as (_ & _ & Hfiles). by eapply Hfiles.
  - by eapply study_ready_insert.
Qed.

Lemma write_study_entry_steps (sf : Path) (n : string) (r : R) (g : S)
    (fs : FS) :
  plain_name n -> study_ready sf fs -> get_num_channels r ≠ 0 ->
  let fs' :=
    <[npz_path sf n := File (npz_of_sorting g)]>
      (<[json_path sf n :=
           File (json_dump {| sample_rate := recording_get_sampling_frequency r;
                              num_chan := get_num_channels r;
                              dtype := "float32"; frames_first := true |})]>
         (<[prb_path sf n := File (probe_file r)]>
            (<[raw_path sf n :=
                 File (binary_dat_format r (2 ^ 24 / get_num_channels r))]> fs)))
  in
  write_study_entry sf (n, (r, g)) fs = (Ok (), fs') /\ study_ready sf fs'.
Proof.
  intros Hn Hready Hr. cbv zeta. unfold write_study_entry, floordiv.
  rewrite bool_decide_eq_false_2 by done.
  rewrite (bind_ok _ _ fs fs (2 ^ 24 `div` get_num_channels r)) by reflexivity.
  pose proof Hready as R0.
  lazymatch type of R0 with study_ready _ ?fs0 =>
    destruct (write_entry_file sf fs0 n "raw_files" ".raw"
                (binary_dat_format r (2 ^ 24 `div` get_num_channels r))
                Hn eq_refl eq_refl)
      as [E1 R1]; [cbn; lia | apply elem_of_entry_paths; tauto
                   | apply R0 | apply R0 |]
  end.
  rewrite (bind_ok _ _ _ _ _ E1).
  lazymatch type of R1 with study_ready _ ?fs1 =>
    destruct (write_entry_file sf fs1 n "raw_files" ".prb" (probe_file r)
                Hn eq_refl eq_refl)
      as [E2 R2]; [cbn; lia | apply elem_of_entry_paths; tauto
                   | apply R1 | apply R1 |]
  end.
  rewrite (bind_ok _ _ _ _ _ E2).
  lazymatch type of R2 with study_ready _ ?fs2 =>
    destruct (write_entry_file sf fs2 n "raw_files" ".json"
                (json_dump
                   {| sample_rate := recording_get_sampling_frequency r;
                      num_chan := get_num_channels r;
                      dtype := "float32"; frames_first := true |})
                Hn eq_refl eq_refl)
      as [E3 R3]; [cbn; lia | apply elem_of_entry_paths; tauto
                   | apply R2 | apply R2 |]
  end.
  rewrite (bind_ok _ _ _ _ _ E3).
  lazymatch type of R3 with study_ready _ ?fs3 =>
    destruct (write_entry_file sf fs3 n "ground_truth" ".npz"
                (npz_of_sorting g) Hn eq_refl eq_refl)
      as [E4 R4]; [cbn; lia | apply elem_of_entry_paths; tauto
                   | apply R3 | apply R3 |]
  end.
  split; [exact E4 | exact R4].
Qed.

Lemma write_study_entry_run (sf : Path) (n : string) (r : R) (g : S) (fs : FS) :
  plain_name n -> study_ready sf fs -> get_num_channels r ≠ 0 ->
  write_study_entry sf (n, (r, g)) fs
  = (Ok (),
     <[npz_path sf n := File (npz_of_sorting g)]>
       (<[json_path sf n :=
            File (json_dump {| sample_rate := recording_get_sampling_frequency r;
                               num_chan := get_num_channels r;
                               dtype := "float32"; frames_first := true |})]>
          (<[prb_path sf n := File (probe_file r)]>
             (<[raw_path sf n :=
                  File (binary_dat_format r (2 ^ 24 / get_num_channels r))]> fs)))).
Proof. intros Hn Hready Hr. by apply write_study_entry_steps. Qed.

Lemma write_study_entry_zero (sf : Path) (n : string) (r : R) (g : S) (fs : FS) :
  get_num_channels r = 0 ->
  write_study_entry sf (n, (r, g)) fs = (Raise ZeroDivisionError, fs).
Proof.
  intros Hr. unfold write_study_entry, floordiv.
  rewrite bool_decide_eq_true_2 by done. reflexivity.
Qed.

(** A write of a file with a plain name changes that file, if any. *)
Lemma preserves_write_plain (P : Path -> Prop) (folder : Path)
    (n ext text : string) :
  plain_name n ->
  PyStr.contains os.SEP ext = false -> PyStr.contains os.NUL ext = false ->
  (3 <= String.length ext)%nat ->
  ¬ P (folder // (n +:+ ext)) ->
  preserves P (os.write_named folder (n +:+ ext) text).
Proof.
  intros Hn Esep Enul Hlen HP fs q Hq. apply write_named_lookup.
  intros p. rewrite locate_file by done.
  destruct (fs !! folder) as [[]|]; [| done | done].
  intros [= <-] ->. done.
Qed.

Lemma preserves_write_study_entry (sf : Path) (item : string * (R * S)) :
  plain_name item.1 ->
  preserves (fun p => p ∉ entry_paths sf item.1) (write_study_entry sf item).
Proof.
  destruct item as [n [r g]]. cbn [fst]. intros Hn.
  unfold write_study_entry.
  apply preserves_bind; [by intros fs p _ |]. intros chunksize.
  repeat (apply preserves_bind; [| intros _]);
    (apply preserves_write_plain; [done | done | done | cbn; lia |]);
    intros Hp; apply Hp, elem_of_entry_paths;
    unfold raw_path, prb_path, json_path, npz_path; tauto.
Qed.

Lemma for_each_entries_steps (sf : Path) (gt_dict : list (string * (R * S)))
    (fs : FS) :
  Forall plain_name gt_dict.*1 -> study_ready sf fs ->
  with_channels gt_dict ->
  (for_each gt_dict (write_study_entry sf) fs).1 = Ok ()
  /\ study_ready sf (for_each gt_dict (write_study_entry sf) fs).2.
Proof.
  intros Hplain Hready Hall. revert fs Hplain Hready.
  induction Hall as [|[n [r g]] l Hr _ IH]; intros fs Hplain Hready; [done |].
  rewrite fmap_cons in Hplain. apply Forall_cons in Hplain as [Hn Hplain].
  destruct (write_study_entry_steps sf n r g fs Hn Hready Hr) as [E Hready'].
  rewrite for_each_cons, bind_run, E. by apply IH.
Qed.

Lemma for_each_entries_ok (sf : Path) (gt_dict : list (string * (R * S)))
    (fs : FS) :
  Forall plain_name gt_dict.*1 -> study_ready sf fs ->
  with_channels gt_dict ->
  (for_each gt_dict (write_study_entry sf) fs).1 = Ok ().
Proof. intros. by apply for_each_entries_steps. Qed.

(** After the loop, the files of every recording hold what was written for
    it. *)
Lemma for_each_entries_lookup (sf : Path) (gt_dict : list (string * (R * S)))
    (fs : FS) (n : string) (r : R) (g : S) :
  Forall plain_name gt_dict.*1 -> study_ready sf fs ->
  NoDup gt_dict.*1 ->
  with_channels gt_dict ->
  (n, (r, g)) ∈ gt_dict ->
  let fs' := (for_each gt_dict (write_study_entry sf) fs).2 in
  fs' !! raw_path sf n
    = Some (File (binary_dat_format r (2 ^ 24 / get_num_channels r)))
  /\ fs' !! prb_path sf n = Some (File (probe_file r))
  /\ fs' !! json_path sf n
    = Some (File (json_dump
                    {| sample_rate := recording_get_sampling_frequency r;
                       num_chan := get_num_channels r;
                       dtype := "float32"; frames_first := true |}))
  /\ fs' !! npz_path sf n = Some (File (npz_of_sorting g)).
Proof.
  intros Hplain Hready Hnd Hall Hin. revert fs Hready.
  induction gt_dict as [|[n' [r' g']] l IH]; intros fs Hready.
  { by apply elem_of_nil in Hin. }
  rewrite fmap_cons in Hplain. apply Forall_cons in Hplain as [Hn Hplain].
  apply NoDup_cons in Hnd as [Hn' Hnd].
  apply Forall_cons in Hall as [Hr' Hall].
  destruct (write_study_entry_steps sf n' r' g' fs Hn Hready Hr')
    as [E Hready'].
  rewrite for_each_cons, bind_run, E.
  apply elem_of_cons in Hin as [Heq|Hin].
  - injection Heq as <- <- <-.
    assert (preserves (fun p => p ∈ entry_paths sf n)
              (for_each l (write_study_entry sf))) as Hframe.
    { apply preserves_for_each. intros item Hitem.
      eapply preserves_weaken; [|apply preserves_write_study_entry].
      - intros p Hp. simpl. eapply entry_paths_disjoint; [|done].
        intros ->. apply Hn'. apply list_elem_of_fmap. by exists item.
      - eapply Forall_forall; [exact Hplain |].
        apply list_elem_of_fmap. by exists item. }
    destruct (entry_paths_distinct sf n) as (H1 & H2 & H3 & H4 & H5 & H6).
    cbv zeta.
    rewrite !Hframe by (apply elem_of_entry_paths; tauto).
    repeat split.
    + rewrite !lookup_insert_ne by done. apply lookup_insert_eq.
    + rewrite !lookup_insert_ne by done. apply lookup_insert_eq.
    + rewrite !lookup_insert_ne by done. apply lookup_insert_eq.
    + apply lookup_insert_eq.
  - by apply IH.
Qed.

(** The loop touches nothing but the files of its recordings. *)
Lemma preserves_for_each_entries (sf : Path) (gt_dict : list (string * (R * S))) :
  Forall plain_name gt_dict.*1 ->
  preserves (fun p => forall n, p ∉ entry_paths sf n)
    (for_each gt_dict (write_study_entry sf)).
Proof.
  intros Hplain. apply preserves_for_each. intros item Hitem.
  eapply preserves_weaken; [|apply preserves_write_study_entry].
  - intros p Hp. apply Hp.
  - eapply Forall_forall; [exact Hplain |].
    apply list_elem_of_fmap. by exists item.
Qed.

End store_facts.

Section setup_facts.
Context {R S : Type}.
Context `{!RecordingExtractor R, !SortingExtractor S, !Library R S}.

Lemma made_dirs_lookup (sf : Path) (fs : FS) (q : Path) :
  made_dirs sf fs !! q
  = match fs !! q with
    | Some e => Some e
    | None =>
        if bool_decide (under q sf ∨ under q (sf // "raw_files")
                        ∨ under q (sf // "ground_truth"))
        then Some Dir else None
    end.
Proof.
  unfold made_dirs. rewrite !makedirs_lookup.
  destruct (fs !! q); [done |].
  repeat case_bool_decide; try done; tauto.
Qed.

Lemma names_path_not_entry (sf : Path) (n : string) :
  sf // "names.txt" ∉ entry_paths sf n.
Proof.
  intros Hin%elem_of_entry_paths.
  assert (forall d f, sf // "names.txt" ≠ sf // d // f) as Hne.
  { intros d f E%(f_equal length). rewrite !length_pjoin in E. lia. }
  destruct Hin as [E|[E|[E|E]]]; by apply Hne in E.
Qed.

(** Once the three folders of a new study are made, the study is ready. *)
Lemma made_dirs_ready (sf : Path) (fs : FS) :
  absent fs sf -> study_ready sf (made_dirs sf fs).
Proof.
  intros Habs. repeat split.
  - rewrite made_dirs_lookup, Habs by apply under_pjoin.
    rewrite bool_decide_eq_true_2; [done |]. right; left; done.
  - rewrite made_dirs_lookup, Habs by apply under_pjoin.
    rewrite bool_decide_eq_true_2; [done |]. right; right; done.
  - intros n p Hp. rewrite made_dirs_lookup, Habs.
    + rewrite bool_decide_eq_false_2; [done |].
      intros [Hu|[Hu|Hu]]; apply prefix_length in Hu;
        apply elem_of_entry_paths in Hp;
        unfold raw_path, prb_path, json_path, npz_path in Hp;
        destruct Hp as [-> | [-> | [-> | ->]]];
        rewrite !length_pjoin in Hu; lia.
    + apply elem_of_entry_paths in Hp.
      unfold raw_path, prb_path, json_path, npz_path in Hp.
      destruct Hp as [-> | [-> | [-> | ->]]];
        (etransitivity; [apply under_pjoin |]); apply under_pjoin.
Qed.

(** What [setup_comparison_study] does when the folder is not there, the
    names are plain and every recording has channels. *)
Lemma setup_comparison_study_run (sf : Path)
    (gt_dict : list (string * (R * S))) (fs : FS) :
  absent fs sf -> Forall plain_name gt_dict.*1 -> with_channels gt_dict ->
  setup_comparison_study sf gt_dict fs
  = (Ok (),
     <[sf // "names.txt" := File (names_text gt_dict.*1)]>
       (for_each gt_dict (write_study_entry sf) (made_dirs sf fs)).2).
Proof.
  intros Habs Hplain Hch. unfold setup_comparison_study.
  assert (fs !! sf = None) as Hsf by (by apply Habs).
  rewrite (bind_ok _ _ fs fs false).
  2:{ unfold os.path_exists.
      rewrite bool_decide_eq_false_2; [done |]. rewrite Hsf. by intros [? ?]. }
  rewrite (bind_ok _ _ fs fs ()) by reflexivity.
  erewrite bind_ok by (by apply makedirs_run).
  erewrite bind_ok.
  2:{ apply makedirs_run.
      rewrite makedirs_lookup, Habs by apply under_pjoin.
      rewrite bool_decide_eq_false_2; [done |].
      apply not_under_longer. rewrite length_pjoin. lia. }
  erewrite bind_ok.
  2:{ apply makedirs_run.
      rewrite !makedirs_lookup, Habs by apply under_pjoin.
      rewrite bool_decide_eq_false_2.
      2:{ apply not_under_longer. rewrite length_pjoin. lia. }
      rewrite bool_decide_eq_false_2; [done |].
      intros [k E]. unfold pjoin in E.
      rewrite <- app_assoc in E. apply app_inv_head in E.
      simpl in E. discriminate E. }
  fold (made_dirs sf fs). rewrite bind_run.
  pose proof (for_each_entries_ok sf gt_dict (made_dirs sf fs) Hplain
                (made_dirs_ready sf fs Habs) Hch) as Hok.
  destruct (for_each gt_dict (write_study_entry sf) (made_dirs sf fs))
    as [r fs1]. simpl in Hok. subst r. reflexivity.
Qed.

(** The three folders and the index of the new study, in the final state. *)
Lemma setup_state_dirs (sf : Path) (gt_dict : list (string * (R * S)))
    (fs : FS) :
  absent fs sf -> Forall plain_name gt_dict.*1 ->
  let fs' := <[sf // "names.txt" := File (names_text gt_dict.*1)]>
               (for_each gt_dict (write_study_entry sf) (made_dirs sf fs)).2 in
  fs' !! sf = Some Dir
  /\ fs' !! (sf // "raw_files") = Some Dir
  /\ fs' !! (sf // "ground_truth") = Some Dir
  /\ fs' !! (sf // "names.txt") = Some (File (names_text gt_dict.*1)).
Proof.
  intros Habs Hplain fs'. subst fs'.
  assert (forall d, (length d <= Datatypes.S (length sf))%nat ->
            d ≠ sf // "names.txt" ->
            (under d sf ∨ under d (sf // "raw_files")
             ∨ under d (sf // "ground_truth")) ->
            under sf d ->
            (<[sf // "names.txt" := File (names_text gt_dict.*1)]>
               (for_each gt_dict (write_study_entry sf) (made_dirs sf fs)).2)
              !! d = Some Dir) as Hdir.
  { intros d Hlen Hne Hmade Hbelow.
    rewrite lookup_insert_ne by done.
    rewrite (preserves_for_each_entries sf gt_dict Hplain).
    - rewrite made_dirs_lookup, Habs by done.
      by rewrite bool_decide_eq_true_2.
    - intros n Hin. by eapply entry_path_not_prefix. }
  repeat split.
  - apply Hdir; [lia | | left; done | done].
    intros E%(f_equal length). rewrite length_pjoin in E. lia.
  - apply Hdir; [by rewrite length_pjoin | | right; left; done
                 | apply under_pjoin].
    intros [_ E]%pjoin_inj. discriminate E.
  - apply Hdir; [by rewrite length_pjoin | | right; right; done
                 | apply under_pjoin].
    intros [_ E]%pjoin_inj. discriminate E.
  - apply lookup_insert_eq.
Qed.

End setup_facts.

(** ** Creating a study and reading its index *)

Import (hints) Toy.

Section toy_facts.
Import Toy.

Lemma absent_cwd_study : absent cwd study.
Proof.
  intros q [k ->]. unfold cwd. by apply lookup_singleton_ne.
Qed.

Lemma toy_plain_index : plain_index study study_fs.
Proof.
  intros text E. vm_compute in E. injection E as <-.
  repeat constructor.
Qed.

End toy_facts.

(** C4, as amended.  When [study_folder] exists, [setup_comparison_study]
    fails with the assertion error and leaves the file system as it was.
    When it does not exist, every recording name of [gt_dict] is plain (it
    holds no ["/"] and no null character) and every recording has at least
    one channel, the call returns; afterwards [study_folder], [raw_files]
    and [ground_truth] are folders, every recording name in [gt_dict] has
    its [.raw], [.prb] and [.json] file in [raw_files] and its [.npz] file
    in [ground_truth], each holding what was written for that recording, and
    [names.txt] holds the index. *)
Theorem setup_comparison_study_layout {R S : Type}
    `{!RecordingExtractor R, !SortingExtractor S, !Library R S}
    (study_folder : Path) (gt_dict : list (string * (R * S))) (fs : FS) :
  (is_Some (fs !! study_folder) ->
   setup_comparison_study study_folder gt_dict fs
   = (Raise (AssertionError "study_folder already exists"), fs))
  /\ (absent fs study_folder -> NoDup gt_dict.*1 ->
      Forall plain_name gt_dict.*1 -> with_channels gt_dict ->
      exists fs',
        setup_comparison_study study_folder gt_dict fs = (Ok (), fs')
        /\ fs' !! study_folder = Some Dir
        /\ fs' !! (study_folder // "raw_files") = Some Dir
        /\ fs' !! (study_folder // "ground_truth") = Some Dir
        /\ (forall rec_name recording sorting_gt,
              (rec_name, (recording, sorting_gt)) ∈ gt_dict ->
              fs' !! (study_folder // "raw_files" // (rec_name +:+ ".raw"))
                = Some (File (binary_dat_format recording
                                (2 ^ 24 / get_num_channels recording)))
              /\ fs' !! (study_folder // "raw_files" // (rec_name +:+ ".prb"))
                = Some (File (probe_file recording))
              /\ fs' !! (study_folder // "raw_files" // (rec_name +:+ ".json"))
                = Some (File (json_dump
                     {| sample_rate := recording_get_sampling_frequency recording;
                        num_chan := get_num_channels recording;
                        dtype := "float32"; frames_first := true |}))
              /\ fs' !! (study_folder // "ground_truth" // (rec_name +:+ ".npz"))
                = Some (File (npz_of_sorting sorting_gt)))
        /\ fs' !! (study_folder // "names.txt")
           = Some (File (names_text gt_dict.*1))).
Proof.
  split.
  - intros Hthere. unfold setup_comparison_study.
    rewrite (bind_ok _ _ fs fs true).
    + reflexivity.
    + unfold os.path_exists. by rewrite bool_decide_eq_true_2.
  - intros Habs Hnd Hplain Hch. eexists. split.
    { by apply setup_comparison_study_run. }
    destruct (setup_state_dirs study_folder gt_dict fs Habs Hplain)
      as (Hsf & Hraw & Hgt & Hnames).
    repeat split; try done.
    all: intros; rewrite lookup_insert_ne
      by (intros E; eapply (names_path_not_entry study_folder rec_name);
          rewrite E; apply elem_of_entry_paths;
          unfold raw_path, prb_path, json_path, npz_path; tauto).
    all: by eapply (for_each_entries_lookup study_folder gt_dict);
           [| apply made_dirs_ready | ..].
Qed.

(** The layout of the two-recording study, and the refusal to set it up
    twice. *)
Lemma setup_comparison_study_layout_witness :
  (Toy.study_fs !! Toy.study = Some Dir
   /\ Toy.study_fs !! (Toy.study // "names.txt")
      = Some (File (names_text ["a"; "b"])))
  /\ setup_comparison_study Toy.study Toy.gt_two Toy.study_fs
     = (Raise (AssertionError "study_folder already exists"), Toy.study_fs).
Proof.
  split.
  - destruct (setup_comparison_study_layout Toy.study Toy.gt_two Toy.cwd)
      as [_ H].
    destruct H as (fs' & Hrun & Hsf & _ & _ & _ & Hnames).
    + apply absent_cwd_study.
    + vm_compute. repeat constructor; set_solver.
    + repeat constructor.
    + repeat constructor; vm_compute; discriminate.
    + unfold Toy.study_fs. rewrite Hrun. split; [exact Hsf | exact Hnames].
  - destruct (setup_comparison_study_layout Toy.study Toy.gt_two Toy.study_fs)
      as [H _].
    apply H. vm_compute. eauto.
Defined.

(** C4 as stated fails for a recording without channels: the folders are
    made, then the chunk size raises, and neither the files of the recording
    nor the index are written.  It also fails for the recording name
    ["x/y"]: its [.raw] file is looked for in the folder [raw_files/x],
    which is not there, and the index is not written either. *)
Lemma setup_comparison_study_no_channels :
  absent Toy.cwd Toy.study
  /\ (NoDup Toy.gt_no_channels.*1
      /\ (setup_comparison_study Toy.study Toy.gt_no_channels Toy.cwd).1
         = Raise ZeroDivisionError
      /\ (setup_comparison_study Toy.study Toy.gt_no_channels Toy.cwd).2
           !! (Toy.study // "raw_files" // "z.raw") = None
      /\ (setup_comparison_study Toy.study Toy.gt_no_channels Toy.cwd).2
           !! (Toy.study // "names.txt") = None)
  /\ (NoDup Toy.gt_nested.*1
      /\ with_channels Toy.gt_nested
      /\ (setup_comparison_study Toy.study Toy.gt_nested Toy.cwd).1
         = Raise FileNotFoundError
      /\ (setup_comparison_study Toy.study Toy.gt_nested Toy.cwd).2
           !! (Toy.study // "raw_files" // "x/y.raw") = None
      /\ (setup_comparison_study Toy.study Toy.gt_nested Toy.cwd).2
           !! (Toy.study // "raw_files" // "x" // "y.raw") = None
      /\ (setup_comparison_study Toy.study Toy.gt_nested Toy.cwd).2
           !! (Toy.study // "names.txt") = None).
Proof.
  split; [apply absent_cwd_study |].
  split.
  - split; [vm_compute; repeat constructor; set_solver |].
    vm_compute. done.
  - split; [vm_compute; repeat constructor; set_solver |].
    split; [repeat constructor; vm_compute; discriminate |].
    vm_compute. done.
Qed.

Lemma get_rec_names_run (study_folder : Path) (fs : FS) (text : string) :
  fs !! (study_folder // "names.txt") = Some (File text) ->
  get_rec_names study_folder fs
  = (Ok (PyStr.split PyStr.LF
           (PyStr.drop_last (PyStr.universal_newlines text))), fs).
Proof.
  intros E. unfold get_rec_names, os.read_text.
  rewrite !bind_run. unfold os.read_bytes. rewrite E. reflexivity.
Qed.

Lemma read_only_get_rec_names (study_folder : Path) :
  read_only (get_rec_names study_folder).
Proof. unfold get_rec_names. ro_steps. Qed.

(** C3, as amended.  For a non-empty [gt_dict] whose recording names hold
    neither a newline nor a carriage return, are plain (no ["/"] and no null
    character) and whose recordings all have at least one channel, and a
    [study_folder] that does not exist yet: [setup_comparison_study]
    returns, and [get_rec_names] then returns the keys of [gt_dict], in
    their order and without duplicates. *)
Theorem get_rec_names_after_setup {R S : Type}
    `{!RecordingExtractor R, !SortingExtractor S, !Library R S}
    (study_folder : Path) (gt_dict : list (string * (R * S))) (fs : FS) :
  gt_dict ≠ [] ->
  NoDup gt_dict.*1 ->
  Forall one_line gt_dict.*1 ->
  Forall plain_name gt_dict.*1 ->
  with_channels gt_dict ->
  absent fs study_folder ->
  exists fs' rec_names,
    setup_comparison_study study_folder gt_dict fs = (Ok (), fs')
    /\ get_rec_names study_folder fs' = (Ok rec_names, fs')
    /\ rec_names = gt_dict.*1
    /\ NoDup rec_names.
Proof.
  intros Hne Hnd Hline Hplain Hch Habs. eexists. exists gt_dict.*1.
  split; [by apply setup_comparison_study_run |].
  split; [| done].
  erewrite get_rec_names_run by apply lookup_insert_eq.
  rewrite universal_newlines_without.
  - rewrite split_names_text; [done | by destruct gt_dict |].
    eapply Forall_impl; [exact Hline |]. by intros n [? _].
  - apply names_text_without_CR.
    eapply Forall_impl; [exact Hline |]. by intros n [_ ?].
Qed.

Lemma get_rec_names_after_setup_witness :
  exists fs',
    setup_comparison_study Toy.study Toy.gt_two Toy.cwd = (Ok (), fs')
    /\ get_rec_names Toy.study fs' = (Ok ["a"; "b"], fs').
Proof.
  destruct (get_rec_names_after_setup Toy.study Toy.gt_two Toy.cwd)
    as (fs' & names & Hrun & Hnames & -> & _).
  - discriminate.
  - vm_compute. repeat constructor; set_solver.
  - repeat constructor; vm_compute; reflexivity.
  - repeat constructor.
  - repeat constructor; vm_compute; discriminate.
  - apply absent_cwd_study.
  - exists fs'. split; [exact Hrun | exact Hnames].
Defined.

(** C3 as stated fails for a name with a carriage return and no newline:
    the index is read back with universal newlines, so ["a\rb"] comes back
    as the two names ["a"] and ["b"].  It also fails for a recording without
    channels, and for the recording name ["x/y"], whose files are looked
    for in a folder that is not there: the set-up raises before the index
    is written. *)
Lemma get_rec_names_carriage_return :
  (Toy.gt_cr ≠ []
   /\ Forall (fun rec_name => PyStr.contains PyStr.LF rec_name = false)
        Toy.gt_cr.*1
   /\ absent Toy.cwd Toy.study
   /\ (setup_comparison_study Toy.study Toy.gt_cr Toy.cwd).1 = Ok ()
   /\ (get_rec_names Toy.study
         (setup_comparison_study Toy.study Toy.gt_cr Toy.cwd).2).1
      = Ok ["a"; "b"]
   /\ ["a"; "b"] ≠ Toy.gt_cr.*1)
  /\ (Toy.gt_no_channels ≠ []
      /\ Forall (fun rec_name => PyStr.contains PyStr.LF rec_name = false)
           Toy.gt_no_channels.*1
      /\ (setup_comparison_study Toy.study Toy.gt_no_channels Toy.cwd).1
         = Raise ZeroDivisionError
      /\ (get_rec_names Toy.study
            (setup_comparison_study Toy.study Toy.gt_no_channels Toy.cwd).2).1
         = Raise FileNotFoundError)
  /\ (Toy.gt_nested ≠ []
      /\ Forall (fun rec_name => PyStr.contains PyStr.LF rec_name = false)
           Toy.gt_nested.*1
      /\ (setup_comparison_study Toy.study Toy.gt_nested Toy.cwd).1
         = Raise FileNotFoundError
      /\ (get_rec_names Toy.study
            (setup_comparison_study Toy.study Toy.gt_nested Toy.cwd).2).1
         = Raise FileNotFoundError).
Proof.
  split; [| split].
  - split; [discriminate |].
    split; [repeat constructor |].
    split; [apply absent_cwd_study |].
    split; [vm_compute; reflexivity |].
    split; [vm_compute; reflexivity |].
    discriminate.
  - split; [discriminate |].
    split; [repeat constructor |].
    split; vm_compute; reflexivity.
  - split; [discriminate |].
    split; [repeat constructor |].
    split; vm_compute; reflexivity.
Qed.

(** C10.  [get_rec_names] returns the text of [names.txt], as text-mode
    reading gives it, less its last character and split on the newline; and
    for a study made by [setup_comparison_study] from an empty [gt_dict] that
    is the one-element list of the empty string. *)
Theorem get_rec_names_spec {R S : Type}
    `{!RecordingExtractor R, !SortingExtractor S, !Library R S}
    (study_folder : Path) (fs : FS) :
  (forall text,
     fs !! (study_folder // "names.txt") = Some (File text) ->
     get_rec_names study_folder fs
     = (Ok (PyStr.split PyStr.LF
              (PyStr.drop_last (PyStr.universal_newlines text))), fs))
  /\ (absent fs study_folder ->
      exists fs',
        setup_comparison_study study_folder ([] : list (string * (R * S))) fs
        = (Ok (), fs')
        /\ get_rec_names study_folder fs' = (Ok [""], fs')).
Proof.
  split.
  - intros text. apply get_rec_names_run.
  - intros Habs. eexists. split.
    + apply setup_comparison_study_run; [done | constructor | constructor].
    + erewrite get_rec_names_run by apply lookup_insert_eq. reflexivity.
Qed.

Lemma get_rec_names_spec_witness :
  get_rec_names Toy.study Toy.study_fs = (Ok ["a"; "b"], Toy.study_fs)
  /\ exists fs',
       setup_comparison_study Toy.study
         ([] : list (string * (Toy.recording * string))) Toy.cwd = (Ok (), fs')
       /\ get_rec_names Toy.study fs' = (Ok [""], fs').
Proof.
  split.
  - destruct (get_rec_names_spec (R := Toy.recording) (S := string)
                Toy.study Toy.study_fs) as [H _].
    rewrite (H (names_text ["a"; "b"])); [reflexivity |].
    vm_compute. reflexivity.
  - destruct (get_rec_names_spec (R := Toy.recording) (S := string)
                Toy.study Toy.cwd) as [_ H].
    apply H, absent_cwd_study.
Defined.

(** ** Run times *)

Section run_times_facts.
Context {R S : Type} `{!Sorters R S}.

Lemma collect_run_time_run (acc : list (string * string * pyfloat))
    (item : string * string * Path) (fs : FS) :
  collect_run_time acc item fs
  = if decide (has_run_log fs item)
    then match run_time_of fs item with
         | Ok t => (Ok (acc ++ [(item.1.1, item.1.2, t)])%list, fs)
         | Raise e => (Raise e, fs)
         end
    else (Ok acc, fs).
Proof.
  destruct item as [[rec_name sorter_name] output_folder].
  unfold collect_run_time, has_run_log, run_time_of. cbn [fst snd].
  rewrite bind_run. unfold os.path_exists.
  destruct (decide (is_Some (fs !! (output_folder // "run_log.txt"))))
    as [Hsome|Hnone].
  - rewrite bool_decide_eq_true_2 by done.
    unfold os.read_text. rewrite !bind_run. unfold os.read_bytes.
    destruct Hsome as [[|text] E]; rewrite E; [done |].
    change ((mret (PyStr.universal_newlines text) : M string) fs)
      with (Ok (PyStr.universal_newlines text), fs). cbv iota beta.
    rewrite bind_run. unfold lift.
    by destruct (PyFloat.float_of_string _).
  - by rewrite bool_decide_eq_false_2.
Qed.


(** The loop over folders whose logs, where present, can be read. *)
Lemma collect_loop (folders : list (string * string * Path))
    (acc : list (string * string * pyfloat)) (fs : FS) :
  (forall item, item ∈ folders -> has_run_log fs item ->
     exists t, run_time_of fs item = Ok t) ->
  exists new,
    for_fold folders acc collect_run_time fs = (Ok (acc ++ new)%list, fs)
    /\ Forall2 (is_run_time fs) (filter (has_run_log fs) folders) new.
Proof.
  revert acc. induction folders as [|item folders IH]; intros acc Hlogs.
  - exists []. split; [by rewrite app_nil_r | constructor].
  - rewrite for_fold_cons, bind_run, collect_run_time_run.
    rewrite filter_cons.
    destruct (decide (has_run_log fs item)) as [Hlog|Hlog].
    + destruct (Hlogs item) as [t Ht]; [left | done |]. rewrite Ht.
      destruct (IH (acc ++ [(item.1.1, item.1.2, t)])%list) as (new & Hrun & Hall).
      { intros i Hi. apply Hlogs. by right. }
      exists ((item.1.1, item.1.2, t) :: new). split.
      * rewrite Hrun. by rewrite <- app_assoc.
      * constructor; [done | exact Hall].
    + apply IH. intros i Hi. apply Hlogs. by right.
Qed.

Lemma collect_run_times_run (study_folder : Path) (fs fs' : FS)
    (folders : list (string * string * Path)) :
  loop_over_folders (study_folder // "sorter_outputs") fs = (Ok folders, fs') ->
  (forall item, item ∈ folders -> has_run_log fs' item ->
     exists run_time, run_time_of fs' item = Ok run_time) ->
  exists run_times,
    collect_run_times study_folder fs = (Ok run_times, fs')
    /\ Forall2 (is_run_time fs') (filter (has_run_log fs') folders) run_times.
Proof.
  intros Hloop Hlogs. unfold collect_run_times.
  destruct (collect_loop folders [] fs' Hlogs) as (new & Hrun & Hall).
  exists new. split; [| done].
  by rewrite (bind_ok _ _ _ _ _ Hloop).
Qed.

End run_times_facts.

(** C6, as amended.  When [loop_over_folders] yields [folders] for
    [sorter_outputs] and, for each of them that has a [run_log.txt], the
    first line of that file less every ['run_time:'] parses as a float, then
    [collect_run_times] returns exactly one triple
    [(rec_name, sorter_name, run_time)] for each yielded folder that has a
    [run_log.txt], in the order of the folders, with that float as
    [run_time]; the folders without a [run_log.txt] add nothing and raise
    nothing. *)
Theorem collect_run_times_spec {R S : Type} `{!Sorters R S}
    (study_folder : Path) (fs fs' : FS)
    (folders : list (string * string * Path)) :
  loop_over_folders (study_folder // "sorter_outputs") fs = (Ok folders, fs') ->
  (forall item, item ∈ folders -> has_run_log fs' item ->
     exists run_time, run_time_of fs' item = Ok run_time) ->
  exists run_times,
    collect_run_times study_folder fs = (Ok run_times, fs')
    /\ Forall2 (is_run_time fs') (filter (has_run_log fs') folders) run_times.
Proof.
  intros Hloop Hlogs. by apply collect_run_times_run.
Qed.

Lemma logs_parse_spec (fs : FS) (folders : list (string * string * Path)) :
  logs_parse fs folders = true ->
  forall item, item ∈ folders -> has_run_log fs item ->
    exists run_time, run_time_of fs item = Ok run_time.
Proof.
  unfold logs_parse. rewrite forallb_forall.
  intros Hall item Hin%list_elem_of_In Hlog. specialize (Hall item Hin).
  destruct (decide (has_run_log fs item)); [|done].
  destruct (run_time_of fs item) as [t|]; [by exists t | done].
Qed.

Lemma run_eq {A} (m : M A) (fs fs' : FS) (r : result A) :
  (m fs).1 = r -> (m fs).2 = fs' -> m fs = (r, fs').
Proof. destruct (m fs). simpl. by intros -> ->. Qed.

Lemma collect_run_times_spec_witness :
  exists run_times,
    collect_run_times Toy.study Toy.partial_fs = (Ok run_times, Toy.partial_fs)
    /\ Forall2 (is_run_time Toy.partial_fs)
         (filter (has_run_log Toy.partial_fs)
            (Toy.output_folders Toy.outputs Toy.partial_fs))
         run_times.
Proof.
  apply (collect_run_times_spec Toy.study Toy.partial_fs Toy.partial_fs
           (Toy.output_folders Toy.outputs Toy.partial_fs)).
  - reflexivity.
  - apply logs_parse_spec. vm_compute. reflexivity.
Defined.

(** C6 as stated fails when a [run_log.txt] is there but does not parse,
    here an empty one: the folder is among those yielded, it has its log,
    and the collection raises instead of returning its triple.  And what is
    removed from the first line is every ['run_time:'], not a prefix: a line
    that has it twice parses, which it would not with the prefix removed. *)
Lemma collect_run_times_empty_log :
  (loop_over_folders Toy.outputs Toy.empty_log_fs
   = (Ok (Toy.output_folders Toy.outputs Toy.empty_log_fs), Toy.empty_log_fs)
   /\ ("a", "s", Toy.out_a)
        ∈ Toy.output_folders Toy.outputs Toy.empty_log_fs
   /\ Toy.empty_log_fs !! (Toy.out_a // "run_log.txt") = Some (File "")
   /\ (collect_run_times Toy.study Toy.empty_log_fs).1
      = Raise (ValueError "could not convert string to float"))
  /\ (Toy.twice_fs !! (Toy.out_a // "run_log.txt")
      = Some (File "run_time:run_time: 3")
      /\ PyFloat.float_of_string
           (remove_prefix "run_time:" "run_time:run_time: 3") = None
      /\ (collect_run_times Toy.study Toy.twice_fs).1
         = Ok [("b", "s", FDec false 15 (-1)); ("a", "s", FDec false 3 0)]).
Proof.
  split.
  - split; [reflexivity |].
    split; [vm_compute; repeat constructor |].
    split; vm_compute; reflexivity.
  - split; [vm_compute; reflexivity |].
    split; vm_compute; reflexivity.
Qed.

(** ** Comparisons *)

Section comparison_facts.
Context {R S C : Type}.
Context `{!RecordingExtractor R, !SortingExtractor S, !Library R S}.
Context `{!Sorters R S, !Comparer S C}.

Lemma read_only_get_ground_truths (study_folder : Path) :
  read_only (get_ground_truths (S := S) study_folder).
Proof.
  unfold get_ground_truths.
  apply read_only_bind; [apply read_only_get_rec_names | intros names].
  ro_steps.
Qed.

Lemma read_only_get_recordings (study_folder : Path) :
  read_only (get_recordings (R := R) study_folder).
Proof.
  unfold get_recordings.
  apply read_only_bind; [apply read_only_get_rec_names | intros names].
  ro_steps.
Qed.

Lemma compare_item_run (gts : gmap string S) (acc : gmap (string * string) C)
    (k : string * string) (sorting : S) (fs : FS) :
  compare_item gts acc (k, sorting) fs
  = match compared gts k sorting with
    | Ok sc => (Ok (<[k := sc]> acc), fs)
    | Raise e => (Raise e, fs)
    end.
Proof.
  destruct k as [rec_name sorter_name].
  unfold compare_item, compared, getitem. cbn [fst].
  rewrite bind_run. unfold lift at 1.
  destruct (gts !! rec_name) as [gt|]; [|done]. cbn.
  by destruct (compare_sorter_to_ground_truth gt sorting).
Qed.

Lemma compare_loop (gts : gmap string S) (items : list ((string * string) * S))
    (acc : gmap (string * string) C) (fs : FS) :
  NoDup items.*1 ->
  (forall k sorting, (k, sorting) ∈ items ->
     exists sc, compared gts k sorting = Ok sc) ->
  exists comparisons,
    for_fold items acc (compare_item gts) fs = (Ok comparisons, fs)
    /\ forall k,
         comparisons !! k
         = match (list_to_map items : gmap (string * string) S) !! k with
           | Some sorting =>
               match compared gts k sorting with
               | Ok sc => Some sc
               | Raise _ => None
               end
           | None => acc !! k
           end.
Proof.
  revert acc. induction items as [|[k0 s0] items IH]; intros acc Hnd Hok.
  - exists acc. split; [done |]. intros k.
    change (list_to_map [] : gmap (string * string) S) with (∅ : gmap (string * string) S).
    by rewrite lookup_empty.
  - apply NoDup_cons in Hnd as [Hk0 Hnd].
    destruct (Hok k0 s0) as [sc0 Hsc0]; [left |].
    rewrite for_fold_cons, bind_run, compare_item_run, Hsc0.
    destruct (IH (<[k0 := sc0]> acc) Hnd) as (comps & Hrun & Hlook).
    { intros k s Hin. apply Hok. by right. }
    exists comps. split; [done |]. intros k. rewrite Hlook.
    cbn [list_to_map foldr fst snd]. destruct (decide (k = k0)) as [->|Hne].
    + rewrite (not_elem_of_list_to_map_1 _ _ Hk0).
      rewrite !lookup_insert_eq. by rewrite Hsc0.
    + by rewrite !lookup_insert_ne.
Qed.

(** [aggregate_sorting_comparison] when the ground truths load and every
    collected output can be compared. *)
Lemma aggregate_sorting_comparison_run {KT : Type} (study_folder : Path)
    (exhaustive_gt : bool) (karg_thresh : KT) (fs fs' : FS)
    (gts : gmap string S) (results : gmap (string * string) S) :
  (get_ground_truths study_folder fs).1 = Ok gts ->
  collect_sorting_outputs (study_folder // "sorter_outputs") fs
  = (Ok results, fs') ->
  map_Forall (fun k sorting => exists sc, compared gts k sorting = Ok sc)
    results ->
  exists comparisons,
    aggregate_sorting_comparison study_folder exhaustive_gt karg_thresh fs
    = (Ok comparisons, fs')
    /\ forall k,
         comparisons !! k
         = match results !! k with
           | Some sorting =>
               match compared gts k sorting with
               | Ok sc => Some sc
               | Raise _ => None
               end
           | None => None
           end.
Proof.
  intros Hgts Hres Hall. unfold aggregate_sorting_comparison.
  pose proof (read_only_get_ground_truths study_folder fs) as Hro.
  destruct (get_ground_truths study_folder fs) as [r fs1] eqn:E.
  simpl in Hgts, Hro. subst r fs1.
  rewrite (bind_ok _ _ _ _ _ E), (bind_ok _ _ _ _ _ Hres).
  destruct (compare_loop gts (map_to_list results) ∅ fs')
    as (comps & Hrun & Hlook).
  - apply NoDup_fst_map_to_list.
  - intros k s Hin%elem_of_map_to_list. by apply (Hall k s).
  - exists comps. split; [exact Hrun |].
    intros k. rewrite Hlook, list_to_map_to_list.
    destruct (results !! k); [done | apply lookup_empty].
Qed.

End comparison_facts.

Section matcher_facts.
Context {S : Type} `{!SortingExtractor S}.

Lemma best_match_spec (sc : Z -> nat) (candidates : list Z) :
  match Matcher.best_match sc candidates with
  | Some v =>
      v ∈ candidates /\ (0 < sc v)%nat
      /\ forall w, w ∈ candidates -> (sc w <= sc v)%nat
  | None => forall w, w ∈ candidates -> sc w = 0%nat
  end.
Proof.
  induction candidates as [|v vs IH]; simpl.
  - intros w Hw. by apply elem_of_nil in Hw.
  - destruct (Matcher.best_match sc vs) as [b|].
    + destruct IH as (Hb & Hpos & Hmax).
      destruct (Nat.ltb_spec (sc v) (sc b)).
      * split; [by right |]. split; [done |].
        intros w [->|Hw]%elem_of_cons; [lia | by apply Hmax].
      * split; [left |]. split; [lia |].
        intros w [->|Hw]%elem_of_cons; [lia |].
        specialize (Hmax w Hw). lia.
    + destruct (Nat.ltb_spec 0 (sc v)).
      * split; [left |]. split; [done |].
        intros w [->|Hw]%elem_of_cons; [lia |]. rewrite (IH w Hw). lia.
      * intros w [->|Hw]%elem_of_cons; [lia | by apply IH].
Qed.

Lemma matching_is_matching (delta_frames : Z) (gt_sorting sorting : S) :
  is_matching delta_frames gt_sorting sorting
    (Matcher.matching delta_frames gt_sorting sorting).
Proof.
  unfold is_matching, Matcher.matching. split.
  - rewrite <- list_fmap_compose. apply list_fmap_id.
  - apply Forall_fmap, Forall_forall. intros u _. cbn [fst snd compose].
    apply best_match_spec.
Qed.

End matcher_facts.

(** C1, as amended.  When the ground-truth sortings of the study can be read
    back and every collected sorter output carries the name of a recording
    of the study, [aggregate_sorting_comparison] returns a dict whose keys
    are exactly the [(rec_name, sorter_name)] pairs of the collected outputs;
    its value at [(rec_name, sorter_name)] is the comparison of the stored
    ground truth of [rec_name] with that output: a mapping from each
    ground-truth unit to the sorter unit of greatest overlap score, or to
    none when no score is positive. *)
Theorem aggregate_sorting_comparison_spec {R S KT : Type}
    `{!RecordingExtractor R, !SortingExtractor S, !Library R S, !Sorters R S}
    (delta_frames : Z) (study_folder : Path)
    (exhaustive_gt : bool) (karg_thresh : KT) (fs fs' : FS)
    (ground_truths : gmap string S) (results : gmap (string * string) S) :
  (get_ground_truths study_folder fs).1 = Ok ground_truths ->
  collect_sorting_outputs (study_folder // "sorter_outputs") fs
  = (Ok results, fs') ->
  map_Forall (fun key _ => is_Some (ground_truths !! key.1)) results ->
  exists comparisons,
    aggregate_sorting_comparison (Comparer0 := Matcher.comparer delta_frames)
      study_folder exhaustive_gt karg_thresh fs
    = (Ok comparisons, fs')
    /\ dom comparisons = dom results
    /\ forall rec_name sorter_name sorting,
         results !! (rec_name, sorter_name) = Some sorting ->
         exists gt_sorting sc,
           ground_truths !! rec_name = Some gt_sorting
           /\ comparisons !! (rec_name, sorter_name) = Some sc
           /\ compare_sorter_to_ground_truth
                (Comparer := Matcher.comparer delta_frames) gt_sorting sorting
              = Ok sc
           /\ is_matching delta_frames gt_sorting sorting sc.
Proof.
  intros Hgts Hres Hcover.
  assert (forall k sorting, results !! k = Some sorting ->
            exists gt, ground_truths !! k.1 = Some gt
              /\ compared (Comparer0 := Matcher.comparer delta_frames)
                   ground_truths k sorting
                 = Ok (Matcher.matching delta_frames gt sorting)) as Hcmp.
  { intros k sorting Hk. destruct (Hcover k sorting Hk) as [gt Hgt].
    exists gt. split; [done |]. unfold compared. by rewrite Hgt. }
  destruct (aggregate_sorting_comparison_run
              (Comparer0 := Matcher.comparer delta_frames) study_folder
              exhaustive_gt karg_thresh fs fs' ground_truths results Hgts Hres)
    as (comps & Hrun & Hlook).
  { intros k sorting Hk. destruct (Hcmp k sorting Hk) as (gt & _ & E). eauto. }
  exists comps. split; [exact Hrun |]. split.
  - apply set_eq. intros k. rewrite !elem_of_dom, Hlook.
    destruct (results !! k) as [sorting|] eqn:Hk.
    + destruct (Hcmp k sorting Hk) as (gt & _ & ->).
      split; intros _; eauto.
    + split; intros [? ?]; done.
  - intros rec_name sorter_name sorting Hk.
    destruct (Hcmp _ _ Hk) as (gt & Hgt & E).
    exists gt, (Matcher.matching delta_frames gt sorting).
    split; [exact Hgt |]. split; [by rewrite Hlook, Hk, E |].
    split; [reflexivity | apply matching_is_matching].
Qed.

Lemma toy_collect_sorting_outputs_read_only (working_folder : Path) :
  read_only (collect_sorting_outputs (Sorters := Toy.sorters) working_folder).
Proof.
  intros fs. cbn [collect_sorting_outputs Toy.sorters].
  apply read_only_for_fold. intros acc [[? ?] ?]. unfold Toy.collect_one.
  ro_steps.
Qed.

Lemma toy_loop_over_folders_read_only (working_folder : Path) :
  read_only (loop_over_folders (Sorters := Toy.sorters) working_folder).
Proof. done. Qed.

Lemma aggregate_sorting_comparison_spec_witness :
  exists comparisons,
    aggregate_sorting_comparison Toy.study false () Toy.sorted_fs
    = (Ok comparisons, Toy.sorted_fs)
    /\ dom comparisons = dom Toy.results_two
    /\ exists sc,
         comparisons !! ("a", "s") = Some sc
         /\ is_matching 1 "aab b" "aab b" sc.
Proof.
  destruct (aggregate_sorting_comparison_spec 1 Toy.study false ()
              Toy.sorted_fs Toy.sorted_fs Toy.gts_two Toy.results_two)
    as (comparisons & Hrun & Hdom & Hval).
  - vm_compute. reflexivity.
  - apply run_eq; [vm_compute; reflexivity |].
    apply toy_collect_sorting_outputs_read_only.
  - apply map_Forall_to_list. vm_compute. repeat constructor; eauto.
  - exists comparisons. split; [exact Hrun |]. split; [exact Hdom |].
    destruct (Hval "a" "s" "aab b") as (gt & sc & Hgt & Hsc & _ & Hm).
    + vm_compute. reflexivity.
    + exists sc. split; [exact Hsc |].
      assert (gt = "aab b") as Egt by (vm_compute in Hgt; congruence).
      rewrite Egt in Hm. exact Hm.
Defined.

(** C1 as stated fails on two study folders.  For the study made from an
    empty [gt_dict], [get_rec_names] yields [['']], and the ground truth of
    that name cannot be read.  For a study with a sorter output under the
    name of a recording that is not of the study, the lookup of its ground
    truth raises. *)
Lemma aggregate_sorting_comparison_raises :
  ((setup_comparison_study Toy.study Toy.gt_none Toy.cwd).1 = Ok ()
   /\ (aggregate_sorting_comparison Toy.study false () Toy.empty_study_fs).1
      = Raise FileNotFoundError)
  /\ (exists results,
        (collect_sorting_outputs Toy.outputs Toy.foreign_fs).1 = Ok results
        /\ results !! ("x", "s") = Some "aab b"
        /\ (aggregate_sorting_comparison Toy.study false () Toy.foreign_fs).1
           = Raise KeyError).
Proof.
  split.
  - split; vm_compute; reflexivity.
  - exists (<[("x", "s") := "aab b"]> Toy.results_two).
    split; [vm_compute; reflexivity |].
    split; vm_compute; reflexivity.
Qed.

(** C7.  [aggregate_sorting_comparison] does not depend on [exhaustive_gt]
    nor on [karg_thresh]: two calls that differ in them only give the same
    result, and leave the same file system. *)
Theorem aggregate_sorting_comparison_ignores_flags {R S C KT1 KT2 : Type}
    `{!RecordingExtractor R, !SortingExtractor S, !Library R S}
    `{!Sorters R S, !Comparer S C}
    (study_folder : Path) (exhaustive_gt1 exhaustive_gt2 : bool)
    (karg_thresh1 : KT1) (karg_thresh2 : KT2) (fs : FS) :
  aggregate_sorting_comparison study_folder exhaustive_gt1 karg_thresh1 fs
  = aggregate_sorting_comparison study_folder exhaustive_gt2 karg_thresh2 fs.
Proof. reflexivity. Qed.

(** ** The study is not modified *)

Section frame_facts.
Context {R S C : Type}.
Context `{!RecordingExtractor R, !SortingExtractor S, !Library R S}.
Context `{!Sorters R S, !Comparer S C, !Performance C}.

Lemma protected_outside (study_folder p : Path) :
  protected study_folder p -> ~ under (study_folder // "sorter_outputs") p.
Proof.
  intros [H|[H| ->]].
  - eapply under_siblings; [|exact H]. discriminate.
  - eapply under_siblings; [|exact H]. discriminate.
  - intros [k E]. unfold pjoin in E. rewrite <- app_assoc in E.
    apply app_inv_head in E. simpl in E. discriminate E.
Qed.



Lemma writes_below_run_study_sorters (study_folder : Path)
    (sorter_list : list string) (sorter_params : sorter_params_t)
    (mode engine : string) (engine_kargs : engine_kargs_t) :
  sorters_stay_below ->
  writes_below (study_folder // "sorter_outputs")
    (run_study_sorters study_folder sorter_list sorter_params mode engine
       engine_kargs).
Proof.
  intros (Hrun & _ & _). unfold writes_below, run_study_sorters.
  apply preserves_bind.
  - apply read_only_preserves, read_only_get_recordings.
  - intros recording_dict. apply Hrun.
Qed.




End frame_facts.


Lemma preserves_ensure_dir (P : Path -> Prop) (p : Path) :
  ~ P p -> preserves P (Toy.ensure_dir p).
Proof.
  intros Hp fs q Hq. unfold Toy.ensure_dir, os.mkdir_missing. cbn [snd].
  destruct (fs !! p); [done |]. apply lookup_insert_ne. by intros ->.
Qed.

Lemma toy_sorters_stay_below : sorters_stay_below (Sorters0 := Toy.sorters).
Proof.
  split; [| split].
  - intros sorter_list recording_dict wf [] mode engine [].
    unfold writes_below. cbn [run_sorters Toy.sorters].
    apply preserves_for_each. intros [rec_name r] _.
    apply preserves_for_each. intros sorter_name _. unfold Toy.run_one.
    assert (forall q, under wf q -> ~ ~ under wf q) as Hnn by tauto.
    repeat (apply preserves_bind; [| intros _]).
    + apply preserves_ensure_dir, Hnn. done.
    + apply preserves_ensure_dir, Hnn, under_pjoin.
    + apply preserves_ensure_dir, Hnn.
      eapply under_trans; apply under_pjoin.
    + apply preserves_write_file, Hnn.
      do 2 (eapply under_trans; [apply under_pjoin |]). apply under_pjoin.
    + apply preserves_write_file, Hnn.
      do 2 (eapply under_trans; [apply under_pjoin |]). apply under_pjoin.
  - intros wf. by apply read_only_preserves.
  - intros wf. apply read_only_preserves,
      toy_collect_sorting_outputs_read_only.
Qed.


(** ** Thresholds *)

Section threshold_facts.
Context {S : Type} `{!SortingExtractor S, !Validation S}.

Lemma check_sampling_frequency_raise (sorting : S) (sf : option pyfloat) :
  sf = None /\ get_sampling_frequency sorting = None ->
  check_sampling_frequency sorting sf
  = Raise (ValueError sampling_frequency_msg).
Proof.
  intros H. unfold check_sampling_frequency.
  by rewrite bool_decide_eq_true_2.
Qed.

Lemma check_sampling_frequency_ok (sorting : S) (sf : option pyfloat) :
  ~ (sf = None /\ get_sampling_frequency sorting = None) ->
  exists sf', check_sampling_frequency sorting sf = Ok sf'.
Proof.
  intros H. unfold check_sampling_frequency.
  rewrite bool_decide_eq_false_2 by done. case_bool_decide; eauto.
Qed.

Lemma raises_ValueError_bind {A B} (r : result A) (f : A -> result B) :
  raises_ValueError r -> raises_ValueError (r ≫= f).
Proof. intros [msg ->]. by exists msg. Qed.

(** [x, = l] raises unless [l] has one element. *)
Lemma unpack_one_raises {A} (l : list A) :
  length l ≠ 1%nat -> raises_ValueError (unpack_one l).
Proof.
  destruct l as [|a [|b l]]; [intros _ | done | intros _];
    eexists; reflexivity.
Qed.

Lemma unpack_one_ok {A} (l : list A) (a : A) :
  unpack_one l = Ok a <-> l = [a].
Proof.
  destruct l as [|b [|c l]]; split; try done; by intros [= ->].
Qed.

Lemma metric_data_of_unpacking (sorting : S)
    (metric_scope_params : metric_scope_params_t)
    (dicts : list (ms_dict_t epoch_tuples_t epoch_names_t)) :
  update_param_dicts metric_scope_params = Ok dicts ->
  length dicts ≠ 1%nat ->
  raises_ValueError (metric_data_of sorting metric_scope_params).
Proof.
  intros E Hlen. unfold metric_data_of. rewrite E.
  change (raises_ValueError
            (unpack_one dicts ≫= fun ms_dict =>
               MetricData sorting
                 match unit_ids ms_dict with
                 | None => get_unit_ids sorting
                 | Some ids => ids
                 end (epoch_tuples ms_dict) (epoch_names ms_dict))).
  by apply raises_ValueError_bind, unpack_one_raises.
Qed.

(** The rest of a threshold function returns exactly when all its calls
    do. *)
Lemma thresholded_spec (sorting : S)
    (metric_scope_params : metric_scope_params_t)
    (metric : metric_data_t -> result metric_t)
    (threshold_call : metric_t -> result threshold_sorting_t)
    (ts : threshold_sorting_t) :
  (md ← metric_data_of sorting metric_scope_params;
   m ← metric md;
   threshold_call m) = Ok ts
  <-> thresholded sorting metric_scope_params metric threshold_call ts.
Proof.
  unfold thresholded, metric_data_of. split.
  - destruct (update_param_dicts metric_scope_params) as [dicts|e] eqn:E;
      [| done].
    destruct dicts as [|ms_dict [|ms_dict' dicts]]; [done | | done].
    cbn [unpack_one mbind result_bind].
    destruct (MetricData _ _ _ _) as [md|e] eqn:Emd; [| done].
    cbn [mbind result_bind].
    destruct (metric md) as [m|e] eqn:Em; [| done].
    cbn [mbind result_bind]. intros Ets. by exists ms_dict, md, m.
  - intros (ms_dict & md & m & -> & Emd & Em & Ets).
    cbn [unpack_one mbind result_bind]. rewrite Emd.
    cbn [mbind result_bind]. rewrite Em. exact Ets.
Qed.

End threshold_facts.

(** Reduces a threshold function past its sampling-frequency check. *)
Ltac past_check sorting sf H :=
  let sf' := fresh "sf'" in
  let E := fresh "E" in
  destruct (check_sampling_frequency_ok sorting sf H) as [sf' E];
  rewrite E.

(** C8, as amended.  Each of [threshold_num_spikes],
    [threshold_firing_rates], [threshold_presence_ratios] and
    [threshold_isi_violations] raises the [ValueError] of its check when
    [sampling_frequency] is [None] and the sorting has no sampling frequency
    either.  Otherwise it is the rest of its body: the unpacking of what
    [update_param_dicts] returns, [MetricData], the metric class and
    [threshold_metric] with the given threshold, sign and epoch.  So it
    raises a [ValueError] if and only if both frequencies are [None] or that
    rest raises one, as the unpacking does when [update_param_dicts] does
    not return exactly one dict; and it returns a thresholded sorting if and
    only if not both frequencies are [None] and every call of
    [spiketoolkit.validation] returns, [update_param_dicts] with one dict
    and [threshold_metric] with that thresholded sorting. *)
Theorem threshold_functions_spec {S : Type}
    `{!SortingExtractor S, !Validation S}
    (sorting : S) (threshold : threshold_t) (threshold_sign : string)
    (epoch : option Z) (isi_threshold min_isi : pyfloat)
    (sampling_frequency : option pyfloat)
    (metric_scope_params : metric_scope_params_t) (save_as_property : bool) :
  let both_none :=
    sampling_frequency = None /\ get_sampling_frequency sorting = None in
  let num_spikes :=
    threshold_num_spikes sorting threshold threshold_sign epoch
      sampling_frequency metric_scope_params save_as_property in
  let firing_rates :=
    threshold_firing_rates sorting threshold threshold_sign epoch
      sampling_frequency metric_scope_params save_as_property in
  let presence_ratios :=
    threshold_presence_ratios sorting threshold threshold_sign epoch
      sampling_frequency metric_scope_params save_as_property in
  let isi_violations :=
    threshold_isi_violations sorting threshold threshold_sign epoch
      isi_threshold min_isi sampling_frequency metric_scope_params
      save_as_property in
  let call := fun m : metric_t =>
    threshold_metric m threshold threshold_sign epoch save_as_property in
  let isi_call := fun m : metric_t =>
    isi_threshold_metric m threshold threshold_sign epoch isi_threshold
      min_isi save_as_property in
  let rest := fun (metric : metric_data_t -> result metric_t)
                  (threshold_call : metric_t -> result threshold_sorting_t) =>
    md ← metric_data_of sorting metric_scope_params;
    m ← metric md;
    threshold_call m in
  (both_none ->
   num_spikes = Raise (ValueError sampling_frequency_msg)
   /\ firing_rates = Raise (ValueError sampling_frequency_msg)
   /\ presence_ratios = Raise (ValueError sampling_frequency_msg)
   /\ isi_violations = Raise (ValueError sampling_frequency_msg))
  /\ (~ both_none ->
      num_spikes = rest NumSpikes call
      /\ firing_rates = rest FiringRate call
      /\ presence_ratios = rest PresenceRatio call
      /\ isi_violations = rest ISIViolation isi_call)
  /\ ((raises_ValueError num_spikes
       <-> both_none \/ raises_ValueError (rest NumSpikes call))
      /\ (raises_ValueError firing_rates
          <-> both_none \/ raises_ValueError (rest FiringRate call))
      /\ (raises_ValueError presence_ratios
          <-> both_none \/ raises_ValueError (rest PresenceRatio call))
      /\ (raises_ValueError isi_violations
          <-> both_none \/ raises_ValueError (rest ISIViolation isi_call)))
  /\ (forall dicts,
        update_param_dicts metric_scope_params = Ok dicts ->
        length dicts ≠ 1%nat ->
        raises_ValueError num_spikes /\ raises_ValueError firing_rates
        /\ raises_ValueError presence_ratios
        /\ raises_ValueError isi_violations)
  /\ (forall ts,
        (num_spikes = Ok ts
         <-> ~ both_none
             /\ thresholded sorting metric_scope_params NumSpikes call ts)
        /\ (firing_rates = Ok ts
            <-> ~ both_none
                /\ thresholded sorting metric_scope_params FiringRate call ts)
        /\ (presence_ratios = Ok ts
            <-> ~ both_none
                /\ thresholded sorting metric_scope_params PresenceRatio call
                     ts)
        /\ (isi_violations = Ok ts
            <-> ~ both_none
                /\ thresholded sorting metric_scope_params ISIViolation
                     isi_call ts)).
Proof.
  intros both_none num_spikes firing_rates presence_ratios isi_violations
    call isi_call rest.
  assert (forall metric threshold_call,
            let f :=
              _ ← check_sampling_frequency sorting sampling_frequency;
              rest metric threshold_call in
            (both_none -> f = Raise (ValueError sampling_frequency_msg))
            /\ (~ both_none -> f = rest metric threshold_call)
            /\ (raises_ValueError f
                <-> both_none \/ raises_ValueError (rest metric threshold_call))
            /\ (forall dicts,
                  update_param_dicts metric_scope_params = Ok dicts ->
                  length dicts ≠ 1%nat -> raises_ValueError f)
            /\ (forall ts,
                  f = Ok ts
                  <-> ~ both_none
                      /\ thresholded sorting metric_scope_params metric
                           threshold_call ts)) as Hone.
  { intros metric threshold_call f. subst f.
    assert (forall dicts,
              update_param_dicts metric_scope_params = Ok dicts ->
              length dicts ≠ 1%nat ->
              raises_ValueError (rest metric threshold_call)) as Hunpack.
    { intros dicts E Hlen. subst rest. cbv beta.
      by eapply raises_ValueError_bind, metric_data_of_unpacking. }
    destruct (decide both_none) as [Hboth|Hnot].
    - rewrite (check_sampling_frequency_raise _ _ Hboth).
      split; [done |]. split; [done |].
      split; [split; [by left | by eexists] |].
      split; [by eexists |].
      intros ts. split; [done | by intros [? _]].
    - past_check sorting sampling_frequency Hnot.
      change (Ok sf' ≫= (fun _ => rest metric threshold_call))
        with (rest metric threshold_call).
      split; [done |]. split; [done |].
      split; [split; [by right | by intros [? | ?]] |].
      split; [exact Hunpack |].
      intros ts. split.
      + intros Hts. split; [done |]. by apply thresholded_spec.
      + intros [_ Hts]. by apply thresholded_spec. }
  destruct (Hone NumSpikes call) as (A1 & B1 & C1 & D1 & E1).
  destruct (Hone FiringRate call) as (A2 & B2 & C2 & D2 & E2).
  destruct (Hone PresenceRatio call) as (A3 & B3 & C3 & D3 & E3).
  destruct (Hone ISIViolation isi_call) as (A4 & B4 & C4 & D4 & E4).
  split; [intros H; auto |]. split; [intros H; auto |].
  split; [auto |]. split; [intros dicts E Hlen; eauto 10 |].
  intros ts. auto.
Qed.

Lemma threshold_functions_spec_witness :
  threshold_num_spikes "aab b" 2 "less" (Some 0) None None true
  = Ok [97; 98]
  /\ raises_ValueError
       (threshold_firing_rates "" 2 "less" (Some 0) None None true).
Proof.
  destruct (threshold_functions_spec (Validation0 := Toy.validation)
              "aab b" 2 "less" (Some 0) FNan FNan None None true)
    as (_ & _ & _ & _ & Hret).
  destruct (threshold_functions_spec (Validation0 := Toy.validation)
              "" 2 "less" (Some 0) FNan FNan None None true)
    as (_ & _ & (_ & Hiff & _) & _).
  split.
  - apply (Hret [97; 98]). split.
    + intros [_ H]. vm_compute in H. discriminate H.
    + eexists _, _, _. repeat split; vm_compute; reflexivity.
  - apply Hiff. left. split; reflexivity.
Defined.

(** C8 as stated fails when [update_param_dicts] returns two dicts: with a
    sampling frequency given, the unpacking in [threshold_num_spikes] raises
    a [ValueError], and nothing is returned. *)
Lemma threshold_functions_unpacking :
  let sf := Some (FDec false 30000 0) in
  ~ (sf = None /\ get_sampling_frequency "aab b" = None)
  /\ threshold_num_spikes (Validation0 := Toy.validation_two_dicts)
       "aab b" 2 "less" (Some 0) sf None true
     = Raise (ValueError "too many values to unpack (expected 1)").
Proof.
  split; [by intros [? _] | vm_compute; reflexivity].
Qed.

(** C9.  [threshold_num_spikes] gives the same result for any two
    sampling frequencies that are not [None]. *)
Theorem threshold_num_spikes_ignores_sampling_frequency {S : Type}
    `{!SortingExtractor S, !Validation S}
    (sorting : S) (threshold : threshold_t) (threshold_sign : string)
    (epoch : option Z) (sf1 sf2 : pyfloat)
    (metric_scope_params : metric_scope_params_t) (save_as_property : bool) :
  threshold_num_spikes sorting threshold threshold_sign epoch (Some sf1)
    metric_scope_params save_as_property
  = threshold_num_spikes sorting threshold threshold_sign epoch (Some sf2)
      metric_scope_params save_as_property.
Proof.
  unfold threshold_num_spikes, check_sampling_frequency.
  rewrite !bool_decide_eq_false_2 by (by intros [? ?] || done).
  reflexivity.
Qed.

(** ** Frames *)

Section frame_algebra.

Lemma index_loc_update (key : string * string)
    (f : gmap string cell -> gmap string cell) (df : DataFrame)
    (k : string * string) :
  k ∈ (pd.loc_update key f df).*1 <-> k ∈ pd.index df \/ k = key.
Proof.
  unfold pd.loc_update, pd.index. case_bool_decide as Hin.
  - assert (((fun '(k0, row) =>
                if bool_decide (k0 = key) then (k0, f row) else (k0, row))
               <$> df_rows df).*1 = (df_rows df).*1) as ->.
    { rewrite <- list_fmap_compose. apply list_fmap_ext.
      intros i [k0 row] _. simpl. by case_bool_decide. }
    split; [by left | intros [?| ->]; done].
  - rewrite fmap_app, elem_of_app. simpl. rewrite list_elem_of_singleton. done.
Qed.

Lemma index_loc_set (key : string * string) (col : string) (v : cell)
    (df : DataFrame) (k : string * string) :
  k ∈ pd.index (pd.loc_set key col v df) <-> k ∈ pd.index df \/ k = key.
Proof. apply index_loc_update. Qed.

Lemma index_loc_set_row (key : string * string) (series : gmap string cell)
    (df : DataFrame) (k : string * string) :
  k ∈ pd.index (pd.loc_set_row key series df) <-> k ∈ pd.index df \/ k = key.
Proof. apply index_loc_update. Qed.

Lemma add_column_elem (col : string) (cols : list string) :
  col ∈ cols -> pd.add_column col cols = cols.
Proof. intros H. unfold pd.add_column. by rewrite bool_decide_eq_true_2. Qed.

Lemma columns_loc_set (key : string * string) (col : string) (v : cell)
    (df : DataFrame) :
  col ∈ df_columns df -> df_columns (pd.loc_set key col v df) = df_columns df.
Proof. intros H. simpl. by apply add_column_elem. Qed.

Lemma columns_loc_set_eq (key : string * string) (col : string) (v : cell)
    (df : DataFrame) (cols : list string) :
  col ∈ cols -> df_columns df = cols ->
  df_columns (pd.loc_set key col v df) = cols.
Proof. intros H <-. by apply columns_loc_set. Qed.

Lemma index_set_column (col : string) (v : cell) (df : DataFrame) :
  pd.index (pd.set_column col v df) = pd.index df.
Proof.
  unfold pd.index, pd.set_column. simpl.
  rewrite <- list_fmap_compose. apply list_fmap_ext. by intros i [k row] _.
Qed.

Lemma index_new_frame (idx : list (string * string)) (cols : list string) :
  pd.index (pd.new_frame idx cols) = idx.
Proof.
  unfold pd.index, pd.new_frame. simpl.
  rewrite <- list_fmap_compose. apply list_fmap_id.
Qed.

Lemma index_run_times_frame (rt : list (string * string * pyfloat)) :
  pd.index (pd.run_times_frame rt) = rt.*1.
Proof.
  unfold pd.index, pd.run_times_frame. simpl.
  rewrite <- list_fmap_compose. apply list_fmap_ext. by intros i [[r s] t] _.
Qed.

Lemma count_units_columns_set (exhaustive_gt : bool) (idx : list (string * string)) :
  df_columns
    (if exhaustive_gt
     then pd.set_column "num_bad" PyNone
            (pd.set_column "num_false_positive" PyNone
               (pd.new_frame idx
                  ["num_gt"; "num_sorter"; "num_well_detected"; "num_redundant"]))
     else pd.new_frame idx
            ["num_gt"; "num_sorter"; "num_well_detected"; "num_redundant"])
  = count_units_columns exhaustive_gt.
Proof. by destruct exhaustive_gt. Qed.

End frame_algebra.

(** ** The performance tables *)

Section tables_facts.
Context {R S C : Type}.
Context `{!RecordingExtractor R, !SortingExtractor S, !Library R S}.
Context `{!Sorters R S, !Comparer S C, !Performance C}.

Lemma getitem_run `{Countable K} {V} (d : gmap K V) (k : K) (v : V) (fs : FS) :
  d !! k = Some v -> getitem d k fs = (Ok v, fs).
Proof. intros E. unfold getitem, lift. by rewrite E. Qed.

Lemma lift_run {A} (r : result A) (a : A) (fs : FS) :
  r = Ok a -> lift r fs = (Ok a, fs).
Proof. by intros ->. Qed.

Lemma count_columns_base (exhaustive_gt : bool) (col : string) :
  col ∈ ["num_gt"; "num_sorter"; "num_well_detected"; "num_redundant"] ->
  col ∈ count_units_columns exhaustive_gt.
Proof. intros H. unfold count_units_columns. apply elem_of_app. by left. Qed.

Lemma fill_tables_run (gts : gmap string S) (results : gmap (string * string) S)
    (exhaustive_gt : bool) (karg_thresh : karg_thresh_t)
    (run_times : DataFrame) (done : list (string * string)) (h : Heap)
    (k : string * string) (sc : C) (gt sorting : S) (fs : FS) :
  tables_inv run_times _perf_keys (count_units_columns exhaustive_gt) done h ->
  gts !! k.1 = Some gt ->
  results !! k = Some sorting ->
  reports exhaustive_gt karg_thresh sc ->
  exists h',
    fill_tables gts results exhaustive_gt karg_thresh 1 2 3 h (k, sc) fs
    = (Ok h', fs)
    /\ tables_inv run_times _perf_keys (count_units_columns exhaustive_gt)
         (k :: done) h'.
Proof.
  intros (d1 & d2 & d3 & -> & Hc1 & Hc2 & Hc3 & Hi1 & Hi2 & Hi3) Hgt Hres
    ([p1 Hp1] & [p2 Hp2] & [n1 Hn1] & [n2 Hn2] & Hex).
  destruct k as [rec_name sorter_name]. cbn [fst] in Hgt.
  unfold fill_tables.
  erewrite bind_ok by (apply getitem_run; eassumption).
  erewrite bind_ok by (apply getitem_run; eassumption).
  erewrite bind_ok by (apply lift_run; eassumption). cbv zeta.
  erewrite bind_ok by (apply lift_run; eassumption). cbv zeta.
  erewrite bind_ok by (apply lift_run; eassumption). cbv zeta.
  erewrite bind_ok by (apply lift_run; eassumption). cbv zeta.
  assert (forall K0 d d', (forall k, k ∈ pd.index d <-> k ∈ pd.index run_times \/ k ∈ K0) ->
            (forall k, k ∈ pd.index d' <-> k ∈ pd.index d
                                          \/ k = (rec_name, sorter_name)) ->
            forall k, k ∈ pd.index d'
                      <-> k ∈ pd.index run_times
                          \/ k ∈ (rec_name, sorter_name) :: K0) as Hstep.
  { intros K0 d d' Hd Hd' k0. rewrite Hd', Hd, elem_of_cons. tauto. }
  assert (forall d d' d'' : DataFrame,
            (forall k, k ∈ pd.index d'' <-> k ∈ pd.index d'
                                           \/ k = (rec_name, sorter_name)) ->
            (forall k, k ∈ pd.index d' <-> k ∈ pd.index d
                                          \/ k = (rec_name, sorter_name)) ->
            forall k, k ∈ pd.index d'' <-> k ∈ pd.index d
                                           \/ k = (rec_name, sorter_name))
    as Htwice.
  { intros d d' d'' H'' H' k0. rewrite H'', H'. tauto. }
  destruct exhaustive_gt.
  - destruct (Hex eq_refl) as [[n3 Hn3] [n4 Hn4]].
    erewrite bind_ok by (apply lift_run; eassumption). cbv zeta.
    erewrite bind_ok by (apply lift_run; eassumption). cbv zeta.
    eexists. split; [reflexivity |].
    cbn [mutate alter list_alter].
    eexists _, _, _. split; [reflexivity |].
    split; [exact Hc1 |]. split; [exact Hc2 |].
    split.
    { repeat (apply columns_loc_set_eq; [by repeat constructor |]).
      exact Hc3. }
    split; [| split].
    + eapply Hstep; [exact Hi1 | intros; apply index_loc_set_row].
    + eapply Hstep; [exact Hi2 | intros; apply index_loc_set_row].
    + eapply Hstep; [exact Hi3 |].
      do 5 (eapply Htwice; [intros; apply index_loc_set |]).
      intros; apply index_loc_set.
  - eexists. split; [reflexivity |].
    cbn [mutate alter list_alter].
    eexists _, _, _. split; [reflexivity |].
    split; [exact Hc1 |]. split; [exact Hc2 |].
    split.
    { repeat (apply columns_loc_set_eq; [by repeat constructor |]).
      exact Hc3. }
    split; [| split].
    + eapply Hstep; [exact Hi1 | intros; apply index_loc_set_row].
    + eapply Hstep; [exact Hi2 | intros; apply index_loc_set_row].
    + eapply Hstep; [exact Hi3 |].
      do 3 (eapply Htwice; [intros; apply index_loc_set |]).
      intros; apply index_loc_set.
Qed.

Lemma fill_loop (gts : gmap string S) (results : gmap (string * string) S)
    (exhaustive_gt : bool) (karg_thresh : karg_thresh_t)
    (run_times : DataFrame) (items : list ((string * string) * C))
    (done : list (string * string)) (h : Heap) (fs : FS) :
  tables_inv run_times _perf_keys (count_units_columns exhaustive_gt) done h ->
  (forall k sc, (k, sc) ∈ items ->
     (exists gt, gts !! k.1 = Some gt)
     /\ (exists sorting, results !! k = Some sorting)
     /\ reports exhaustive_gt karg_thresh sc) ->
  exists h' done',
    for_fold items h (fill_tables gts results exhaustive_gt karg_thresh 1 2 3) fs
    = (Ok h', fs)
    /\ tables_inv run_times _perf_keys (count_units_columns exhaustive_gt)
         done' h'
    /\ forall k, k ∈ done' <-> k ∈ items.*1 \/ k ∈ done.
Proof.
  revert done h. induction items as [|[k sc] items IH]; intros done h Hinv Hitems.
  - exists h, done. split; [done |]. split; [done |].
    intros k. rewrite fmap_nil, elem_of_nil. tauto.
  - destruct (Hitems k sc) as ([gt Hgt] & [sorting Hres] & Hrep); [left |].
    destruct (fill_tables_run gts results exhaustive_gt karg_thresh run_times
                done h k sc gt sorting fs Hinv Hgt Hres Hrep)
      as (h1 & Hrun1 & Hinv1).
    destruct (IH (k :: done) h1 Hinv1) as (h' & done' & Hrun & Hinv' & Hdone).
    { intros k' sc' Hin. apply Hitems. by right. }
    exists h', done'. split.
    + by rewrite for_fold_cons, (bind_ok _ _ _ _ _ Hrun1).
    + split; [exact Hinv' |]. intros k'.
      rewrite Hdone, fmap_cons, !elem_of_cons. cbn [fst]. tauto.
Qed.

End tables_facts.

(** C2, as amended.  When the ground truths of the study can be read back,
    the functions of [spiketoolkit.sorters] leave the study as it is, the
    run logs that are there can be read, and every collected output has a
    ground truth, can be compared, and the methods of its comparison return:
    [aggregate_performances_table] returns a dict with exactly the keys
    ['run_times'], ['perf_pooled_with_sum'], ['perf_pooled_with_average']
    and ['count_units'].  ['run_times'] is indexed by the pairs that have a
    run time, the three others by those pairs and the pairs of the collected
    outputs.  ['count_units'] has the columns [num_gt], [num_sorter],
    [num_well_detected] and [num_redundant], and also [num_false_positive]
    and [num_bad] if and only if [exhaustive_gt] holds. *)
Theorem aggregate_performances_table_spec {R S C : Type}
    `{!RecordingExtractor R, !SortingExtractor S, !Library R S}
    `{!Sorters R S, !Comparer S C, !Performance C}
    (study_folder : Path) (exhaustive_gt : bool)
    (karg_thresh : karg_thresh_t) (fs : FS)
    (ground_truths : gmap string S) (results : gmap (string * string) S)
    (folders : list (string * string * Path)) :
  (get_ground_truths study_folder fs).1 = Ok ground_truths ->
  collect_sorting_outputs (study_folder // "sorter_outputs") fs
  = (Ok results, fs) ->
  loop_over_folders (study_folder // "sorter_outputs") fs = (Ok folders, fs) ->
  (forall item, item ∈ folders -> has_run_log fs item ->
     exists run_time, run_time_of fs item = Ok run_time) ->
  map_Forall (fun key sorting =>
                exists sc, compared ground_truths key sorting = Ok sc
                           /\ reports exhaustive_gt karg_thresh sc) results ->
  exists out_dataframes run_times,
    aggregate_performances_table study_folder exhaustive_gt karg_thresh fs
    = (Ok out_dataframes, fs)
    /\ collect_run_times study_folder fs = (Ok run_times, fs)
    /\ dom out_dataframes
       = {["run_times"; "perf_pooled_with_sum"; "perf_pooled_with_average";
           "count_units"]}
    /\ (forall name df, out_dataframes !! name = Some df ->
        forall key,
          key ∈ pd.index df
          <-> key ∈ run_times.*1
              \/ (name ≠ "run_times" /\ key ∈ dom results))
    /\ exists count_units,
         out_dataframes !! "count_units" = Some count_units
         /\ df_columns count_units = count_units_columns exhaustive_gt
         /\ (("num_false_positive" ∈ df_columns count_units
              /\ "num_bad" ∈ df_columns count_units)
             <-> exhaustive_gt = true).
Proof.
  intros Hgts Hcollect Hloop Hlogs Hall.
  destruct (aggregate_sorting_comparison_run study_folder exhaustive_gt
              karg_thresh fs fs ground_truths results Hgts Hcollect)
    as (comparisons & Hagg & Hcomp).
  { intros k sorting Hk. destruct (Hall k sorting Hk) as (sc & E & _). eauto. }
  destruct (collect_run_times_run study_folder fs fs folders Hloop Hlogs)
    as (rt & Hrt & _).
  assert (get_ground_truths study_folder fs = (Ok ground_truths, fs)) as Hgts'.
  { apply run_eq; [exact Hgts | apply read_only_get_ground_truths]. }
  set (F0 := pd.run_times_frame rt).
  set (h0 := [F0;
              pd.new_frame (pd.index F0) _perf_keys;
              pd.new_frame (pd.index F0) _perf_keys;
              if exhaustive_gt
              then pd.set_column "num_bad" PyNone
                     (pd.set_column "num_false_positive" PyNone
                        (pd.new_frame (pd.index F0)
                           ["num_gt"; "num_sorter"; "num_well_detected";
                            "num_redundant"]))
              else pd.new_frame (pd.index F0)
                     ["num_gt"; "num_sorter"; "num_well_detected";
                      "num_redundant"]]).
  assert (tables_inv F0 _perf_keys (count_units_columns exhaustive_gt) [] h0)
    as Hinv0.
  { eexists _, _, _. split; [reflexivity |].
    split; [reflexivity |]. split; [reflexivity |].
    split; [apply count_units_columns_set |].
    assert (forall k, k ∈ pd.index F0 <-> k ∈ pd.index F0 \/ k ∈ []) as Hnil.
    { intros k. rewrite elem_of_nil. tauto. }
    split; [| split]; intros k; rewrite <- Hnil.
    - by rewrite index_new_frame.
    - by rewrite index_new_frame.
    - destruct exhaustive_gt;
        by rewrite ?index_set_column, index_new_frame. }
  destruct (fill_loop ground_truths results exhaustive_gt karg_thresh F0
              (map_to_list comparisons) [] h0 fs Hinv0)
    as (h' & done' & Hfill & Hinv' & Hdone).
  { intros k sc Hin%elem_of_map_to_list. rewrite Hcomp in Hin.
    destruct (results !! k) as [sorting|] eqn:Hk; [|done].
    destruct (Hall k sorting Hk) as (sc' & E & Hrep).
    rewrite E in Hin. injection Hin as <-.
    split; [| split; [by exists sorting | exact Hrep]].
    unfold compared in E. destruct (ground_truths !! k.1) as [gt|]; [|done].
    by exists gt. }
  assert (forall k, k ∈ done' <-> k ∈ dom results) as Hkeys.
  { intros k. rewrite Hdone, elem_of_nil.
    rewrite elem_of_dom. split.
    - intros [Hin|[]]. apply list_elem_of_fmap in Hin as ([k' sc] & -> & Hin).
      apply elem_of_map_to_list in Hin. rewrite Hcomp in Hin. cbn [fst].
      by destruct (results !! k').
    - intros [sorting Hk]. left.
      destruct (Hall k sorting Hk) as (sc & E & _).
      apply list_elem_of_fmap. exists (k, sc). split; [done |].
      apply elem_of_map_to_list. by rewrite Hcomp, Hk, E. }
  destruct Hinv' as (d1 & d2 & d3 & -> & Hc1 & Hc2 & Hc3 & Hi1 & Hi2 & Hi3).
  exists (<["count_units" := d3]>
            (<["perf_pooled_with_average" := d2]>
               (<["perf_pooled_with_sum" := d1]>
                  (<["run_times" := F0]> ∅)))), rt.
  split.
  { unfold aggregate_performances_table.
    rewrite (bind_ok _ _ _ _ _ Hagg), (bind_ok _ _ _ _ _ Hgts'),
      (bind_ok _ _ _ _ _ Hcollect), (bind_ok _ _ _ _ _ Hrt).
    cbn [alloc length app]. cbv zeta.
    change ([pd.run_times_frame rt] !!! 0%nat) with F0.
    change ([pd.run_times_frame rt; pd.new_frame (pd.index F0) _perf_keys]
              !!! 0%nat) with F0.
    change ([pd.run_times_frame rt; pd.new_frame (pd.index F0) _perf_keys;
             pd.new_frame (pd.index F0) _perf_keys] !!! 0%nat) with F0.
    assert (forall h1 : Heap, h1 = h0 ->
              for_fold (map_to_list comparisons) h1
                (fill_tables ground_truths results exhaustive_gt karg_thresh
                   1 2 3) fs = (Ok [F0; d1; d2; d3], fs)) as Hfill'.
    { by intros h1 ->. }
    rewrite (bind_ok _ _ fs fs [F0; d1; d2; d3]).
    - unfold mret, M_ret. by rewrite !fmap_insert, fmap_empty.
    - apply Hfill'. subst h0. by destruct exhaustive_gt. }
  split; [exact Hrt |]. split.
  { rewrite !dom_insert_L, dom_empty_L. set_solver. }
  split.
  - intros name df Hname key.
    assert (pd.index F0 = rt.*1) as Hidx by apply index_run_times_frame.
    apply lookup_insert_Some in Hname as [[<- <-]|[Hne1 Hname]].
    { rewrite Hi3, Hkeys, Hidx.
      split; [intros [?|?]; [by left | by right] | intros [?|[_ ?]]; tauto]. }
    apply lookup_insert_Some in Hname as [[<- <-]|[Hne2 Hname]].
    { rewrite Hi2, Hkeys, Hidx.
      split; [intros [?|?]; [by left | by right] | intros [?|[_ ?]]; tauto]. }
    apply lookup_insert_Some in Hname as [[<- <-]|[Hne3 Hname]].
    { rewrite Hi1, Hkeys, Hidx.
      split; [intros [?|?]; [by left | by right] | intros [?|[_ ?]]; tauto]. }
    apply lookup_insert_Some in Hname as [[<- <-]|[Hne4 Hname]].
    { rewrite Hidx. split; [by left | intros [?|[? _]]; done]. }
    by rewrite lookup_empty in Hname.
  - exists d3. split; [apply lookup_insert_eq |]. split; [exact Hc3 |].
    rewrite Hc3. destruct exhaustive_gt.
    + split; [done |]. intros _. split; by repeat constructor.
    + split; [| done]. intros [Hin _]. exfalso.
      unfold count_units_columns in Hin. simpl in Hin.
      repeat (apply elem_of_cons in Hin as [Hin|Hin]; [discriminate Hin |]).
      by apply elem_of_nil in Hin.
Qed.

Lemma toy_reports (exhaustive_gt : bool) (sc : list (Z * option Z)) :
  reports (Performance0 := Toy.performance) exhaustive_gt () sc.
Proof. repeat split; eexists; reflexivity. Qed.

Lemma aggregate_performances_table_spec_witness :
  exists out_dataframes,
    aggregate_performances_table Toy.study true () Toy.sorted_fs
    = (Ok out_dataframes, Toy.sorted_fs)
    /\ dom out_dataframes
       = {["run_times"; "perf_pooled_with_sum"; "perf_pooled_with_average";
           "count_units"]}
    /\ exists count_units,
         out_dataframes !! "count_units" = Some count_units
         /\ df_columns count_units
            = ["num_gt"; "num_sorter"; "num_well_detected"; "num_redundant";
               "num_false_positive"; "num_bad"].
Proof.
  destruct (aggregate_performances_table_spec (Sorters0 := Toy.sorters)
              (Comparer0 := Toy.comparer) (Performance0 := Toy.performance)
              Toy.study true () Toy.sorted_fs Toy.gts_two Toy.results_two
              (Toy.output_folders Toy.outputs Toy.sorted_fs))
    as (out & rt & Hrun & _ & Hdom & _ & cu & Hcu & Hcols & _).
  - vm_compute. reflexivity.
  - apply run_eq; [vm_compute; reflexivity |].
    apply toy_collect_sorting_outputs_read_only.
  - reflexivity.
  - apply logs_parse_spec. vm_compute. reflexivity.
  - apply map_Forall_insert_2; [| apply map_Forall_insert_2;
                                   [| apply map_Forall_empty]];
      (eexists; split; [reflexivity | apply toy_reports]).
  - exists out. split; [exact Hrun |]. split; [exact Hdom |].
    exists cu. split; [exact Hcu | exact Hcols].
Defined.

(** C2 as stated fails on the same two study folders as C1: for the study
    made from an empty [gt_dict] the ground truth of the name [''] cannot be
    read, and for a study with the output of a recording that is not of the
    study the lookup of its ground truth raises.  And the frames need not
    have one index: an output that is collected but has no run log is a row
    of [count_units] and not of [run_times]. *)
Lemma aggregate_performances_table_raises :
  ((setup_comparison_study Toy.study Toy.gt_none Toy.cwd).1 = Ok ()
   /\ (aggregate_performances_table Toy.study false () Toy.empty_study_fs).1
      = Raise FileNotFoundError)
  /\ (exists results,
        (collect_sorting_outputs Toy.outputs Toy.foreign_fs).1 = Ok results
        /\ results !! ("x", "s") = Some "aab b"
        /\ (aggregate_performances_table Toy.study false () Toy.foreign_fs).1
           = Raise KeyError)
  /\ indexes_of (aggregate_performances_table Toy.study false () Toy.nolog_fs).1
       "run_times" "count_units"
     = (Some [("b", "s")], Some [("b", "s"); ("a", "s")]).
Proof.
  split; [| split].
  - split; vm_compute; reflexivity.
  - exists (<[("x", "s") := "aab b"]> Toy.results_two).
    split; [vm_compute; reflexivity |].
    split; vm_compute; reflexivity.
  - vm_compute. reflexivity.
Qed.

(** * Further properties *)

(** ** The index of a study, whatever it holds *)

Section index_facts.
Import PyStr.

Lemma split_not_nil (sep : ascii) (s : string) : split sep s ≠ [].
Proof.
  induction s as [|c s IH]; simpl; [done |].
  case_bool_decide; [done |]. by destruct (split sep s).
Qed.

Lemma contains_split (c sep : ascii) (s : string) :
  contains c s = false ->
  Forall (fun t => contains c t = false) (split sep s).
Proof.
  induction s as [|d s IH]; simpl; [by repeat constructor |].
  intros [Hd Hs]%orb_false_elim. specialize (IH Hs).
  destruct (bool_decide (d = sep)).
  - by constructor.
  - destruct (split sep s) as [|h t].
    + repeat constructor. simpl. by rewrite Hd.
    + apply Forall_cons in IH as [Hh Ht]. constructor; [| done].
      simpl. by rewrite Hd, Hh.
Qed.

Lemma split_without_sep (sep : ascii) (s : string) :
  Forall (fun t => contains sep t = false) (split sep s).
Proof.
  induction s as [|d s IH]; simpl; [by repeat constructor |].
  case_bool_decide as Hd.
  - by constructor.
  - destruct (split sep s) as [|h t].
    + repeat constructor. simpl. by rewrite bool_decide_eq_false_2.
    + apply Forall_cons in IH as [Hh Ht]. constructor; [| done].
      simpl. by rewrite bool_decide_eq_false_2, Hh.
Qed.

Lemma contains_drop_last (c : ascii) (s : string) :
  contains c s = false -> contains c (drop_last s) = false.
Proof.
  induction s as [|d s IH]; [done |].
  simpl. intros [Hd Hs]%orb_false_elim.
  destruct s as [|e s']; [done |].
  change (contains c (String d (drop_last (String e s'))) = false).
  simpl contains at 1. rewrite Hd. by apply IH.
Qed.

Lemma universal_newlines_cons (c : ascii) (s : string) :
  universal_newlines (String c s)
  = if is_CR c then
      match s with
      | String d _ =>
          if is_LF d then universal_newlines s
          else String LF (universal_newlines s)
      | EmptyString => String LF EmptyString
      end
    else String c (universal_newlines s).
Proof. reflexivity. Qed.

Lemma universal_newlines_no_CR (s : string) :
  contains CR (universal_newlines s) = false.
Proof.
  induction s as [|c s IH]; [done |].
  rewrite universal_newlines_cons. unfold is_CR, is_LF.
  destruct (bool_decide (c = CR)) eqn:Hc.
  - destruct s as [|d s']; [done |].
    destruct (bool_decide (d = LF)); [exact IH |].
    cbn [contains]. by rewrite IH.
  - cbn [contains]. by rewrite Hc, IH.
Qed.

Lemma lines_text_cons (n n' : string) (rest : list string) :
  lines_text (n :: n' :: rest) = n +:+ String LF (lines_text (n' :: rest)).
Proof. reflexivity. Qed.

Lemma lines_text_snoc_nonempty (init : list string) (l : string) :
  l ≠ "" -> lines_text (init ++ [l])%list ≠ "".
Proof.
  intros Hl. destruct init as [|n init]; [done |].
  destruct init as [|n' init]; simpl; intros [_ ?]%append_empty_inv; done.
Qed.

Lemma contains_lines_text (c : ascii) (names : list string) :
  c ≠ LF ->
  Forall (fun n => contains c n = false) names ->
  contains c (lines_text names) = false.
Proof.
  intros Hc. induction 1 as [|n names Hn Hall IH]; [done |].
  destruct names as [|n' names]; [done |].
  rewrite lines_text_cons, contains_append. cbn [contains].
  rewrite Hn, IH. rewrite bool_decide_eq_false_2; [done | congruence].
Qed.

Lemma split_lines_text (init : list string) (l : string) :
  l ≠ "" ->
  Forall (fun n => contains LF n = false) (init ++ [l])%list ->
  split LF (drop_last (lines_text (init ++ [l])%list)) = (init ++ [drop_last l])%list.
Proof.
  intros Hl. induction init as [|n init IH]; intros Hall.
  - simpl. apply split_without, contains_drop_last.
    by apply Forall_cons in Hall as [? _].
  - apply Forall_cons in Hall as [Hn Hall].
    assert (exists n' rest, (init ++ [l])%list = n' :: rest) as (n' & rest & E).
    { destruct init; simpl; eauto. }
    change ((n :: init) ++ [l])%list with (n :: (init ++ [l])%list).
    rewrite E at 1. rewrite lines_text_cons, <- E.
    rewrite drop_last_append by done.
    rewrite drop_last_cons by (by apply lines_text_snoc_nonempty).
    rewrite split_append by done. by rewrite IH.
Qed.

End index_facts.

(** X1.  Whatever [names.txt] holds, [get_rec_names] returns, leaves the
    file system as it is, and gives at least one name; no name it gives
    holds a newline or a carriage return. *)
Theorem get_rec_names_shape (study_folder : Path) (fs : FS) (text : string) :
  fs !! (study_folder // "names.txt") = Some (File text) ->
  exists rec_names,
    get_rec_names study_folder fs = (Ok rec_names, fs)
    /\ rec_names ≠ []
    /\ Forall one_line rec_names.
Proof.
  intros Hfile. eexists. split; [by apply get_rec_names_run |].
  split; [apply split_not_nil |].
  apply Forall_and. split.
  - apply split_without_sep.
  - apply contains_split, contains_drop_last, universal_newlines_no_CR.
Qed.

Lemma get_rec_names_shape_witness :
  exists rec_names,
    get_rec_names Toy.study Toy.study_fs = (Ok rec_names, Toy.study_fs)
    /\ rec_names ≠ []
    /\ Forall one_line rec_names.
Proof.
  apply (get_rec_names_shape Toy.study Toy.study_fs (names_text ["a"; "b"])).
  vm_compute. reflexivity.
Defined.

(** X2.  A [names.txt] that does not end in a newline loses the last
    character of its last name: when it holds the names with a newline
    between them only, and the last name is not empty, [get_rec_names]
    returns the names with the last one cut by one character. *)
Theorem get_rec_names_without_final_newline (study_folder : Path) (fs : FS)
    (init : list string) (last_name : string) :
  last_name ≠ "" ->
  Forall one_line (init ++ [last_name])%list ->
  fs !! (study_folder // "names.txt")
  = Some (File (lines_text (init ++ [last_name])%list)) ->
  get_rec_names study_folder fs
  = (Ok (init ++ [PyStr.drop_last last_name])%list, fs).
Proof.
  intros Hl Hall Hfile. rewrite (get_rec_names_run _ _ _ Hfile).
  apply Forall_and in Hall as [HLF HCR].
  rewrite universal_newlines_without.
  - by rewrite split_lines_text.
  - apply contains_lines_text; [discriminate | done].
Qed.

Lemma get_rec_names_without_final_newline_witness :
  get_rec_names Toy.study
    (<[Toy.study // "names.txt" := File (lines_text ["a"; "bc"])]> Toy.cwd)
  = (Ok ["a"; "b"],
     <[Toy.study // "names.txt" := File (lines_text ["a"; "bc"])]> Toy.cwd).
Proof.
  apply (get_rec_names_without_final_newline Toy.study _ ["a"] "bc").
  - discriminate.
  - repeat constructor.
  - apply lookup_insert_eq.
Defined.

(** ** A folder that is not a study, and a study of no recording *)

Section missing_facts.
Context {R S C : Type}.
Context `{!RecordingExtractor R, !SortingExtractor S, !Library R S}.
Context `{!Sorters R S, !Comparer S C, !Performance C}.

Lemma read_bytes_missing (p : Path) (fs : FS) :
  fs !! p = None -> os.read_bytes p fs = (Raise FileNotFoundError, fs).
Proof. intros E. unfold os.read_bytes. by rewrite E. Qed.

Lemma read_text_missing (p : Path) (fs : FS) :
  fs !! p = None -> os.read_text p fs = (Raise FileNotFoundError, fs).
Proof.
  intros E. unfold os.read_text. by apply bind_raise, read_bytes_missing.
Qed.

Lemma get_rec_names_missing (sf : Path) (fs : FS) :
  fs !! (sf // "names.txt") = None ->
  get_rec_names sf fs = (Raise FileNotFoundError, fs).
Proof. intros E. by apply bind_raise, read_text_missing. Qed.

Lemma get_recordings_raise (sf : Path) (fs : FS) (e : exn) :
  get_rec_names sf fs = (Raise e, fs) ->
  get_recordings (R := R) sf fs = (Raise e, fs).
Proof. intros E. by apply bind_raise. Qed.

Lemma get_ground_truths_raise (sf : Path) (fs : FS) (e : exn) :
  get_rec_names sf fs = (Raise e, fs) ->
  get_ground_truths (S := S) sf fs = (Raise e, fs).
Proof. intros E. by apply bind_raise. Qed.

(** The four functions that start by reading the study raise what that
    reading raises, and call nothing of [spiketoolkit.sorters]. *)
Lemma study_readers_raise {KT : Type} (sf : Path) (fs : FS) (e : exn)
    (sorter_list : list string) (sorter_params : sorter_params_t)
    (mode engine : string) (engine_kargs : engine_kargs_t)
    (exhaustive_gt : bool) (karg_thresh : KT) (karg_thresh' : karg_thresh_t) :
  get_recordings (R := R) sf fs = (Raise e, fs) ->
  get_ground_truths (S := S) sf fs = (Raise e, fs) ->
  run_study_sorters sf sorter_list sorter_params mode engine engine_kargs fs
  = (Raise e, fs)
  /\ aggregate_sorting_comparison sf exhaustive_gt karg_thresh fs
     = (Raise e, fs)
  /\ aggregate_performances_table sf exhaustive_gt karg_thresh' fs
     = (Raise e, fs).
Proof.
  intros Hrec Hgt. split; [by apply bind_raise |].
  split; [by apply bind_raise |].
  unfold aggregate_performances_table. by apply bind_raise, bind_raise.
Qed.

End missing_facts.

(** X3.  In a folder without [names.txt], every function that reads the
    study raises [FileNotFoundError], leaves the file system as it is, and
    calls no sorter. *)
Theorem study_functions_need_the_index {R S C KT : Type}
    `{!RecordingExtractor R, !SortingExtractor S, !Library R S}
    `{!Sorters R S, !Comparer S C, !Performance C}
    (study_folder : Path) (fs : FS)
    (sorter_list : list string) (sorter_params : sorter_params_t)
    (mode engine : string) (engine_kargs : engine_kargs_t)
    (exhaustive_gt : bool) (karg_thresh : KT) (karg_thresh' : karg_thresh_t) :
  fs !! (study_folder // "names.txt") = None ->
  get_rec_names study_folder fs = (Raise FileNotFoundError, fs)
  /\ get_recordings (R := R) study_folder fs = (Raise FileNotFoundError, fs)
  /\ get_ground_truths (S := S) study_folder fs = (Raise FileNotFoundError, fs)
  /\ run_study_sorters study_folder sorter_list sorter_params mode engine
       engine_kargs fs
     = (Raise FileNotFoundError, fs)
  /\ aggregate_sorting_comparison study_folder exhaustive_gt karg_thresh fs
     = (Raise FileNotFoundError, fs)
  /\ aggregate_performances_table study_folder exhaustive_gt karg_thresh' fs
     = (Raise FileNotFoundError, fs).
Proof.
  intros Hnone.
  pose proof (get_rec_names_missing study_folder fs Hnone) as Hnames.
  pose proof (get_recordings_raise (R := R) _ _ _ Hnames) as Hrec.
  pose proof (get_ground_truths_raise (S := S) _ _ _ Hnames) as Hgt.
  do 3 (split; [done |]). by apply study_readers_raise.
Qed.

Lemma study_functions_need_the_index_witness :
  get_rec_names Toy.study Toy.cwd = (Raise FileNotFoundError, Toy.cwd)
  /\ run_study_sorters Toy.study ["s"] () "keep" "loop" () Toy.cwd
     = (Raise FileNotFoundError, Toy.cwd)
  /\ aggregate_performances_table Toy.study false () Toy.cwd
     = (Raise FileNotFoundError, Toy.cwd).
Proof.
  destruct (study_functions_need_the_index (C := list (Z * option Z))
              (Sorters0 := Toy.sorters) (Comparer0 := Toy.comparer)
              (Performance0 := Toy.performance)
              Toy.study Toy.cwd ["s"] () "keep" "loop" () false () ())
    as (H1 & _ & _ & H4 & _ & H6); [reflexivity |].
  exact (conj H1 (conj H4 H6)).
Defined.

(** ** What creating a study leaves behind *)

Section creation_facts.
Context {R S : Type}.
Context `{!RecordingExtractor R, !SortingExtractor S, !Library R S}.

Lemma for_each_app {A} (l1 l2 : list A) (body : A -> M unit) (fs : FS) :
  for_each (l1 ++ l2)%list body fs
  = (for_each l1 body ≫= fun _ => for_each l2 body) fs.
Proof.
  revert fs. induction l1 as [|x l1 IH]; intros fs; [done |].
  change ((x :: l1) ++ l2)%list with (x :: (l1 ++ l2)%list).
  rewrite for_each_cons, !bind_run, for_each_cons, bind_run.
  destruct (body x fs) as [[[]|e] fs1]; [| done].
  by rewrite IH, bind_run.
Qed.

Lemma under_eq (p q : Path) : under p q -> length p = length q -> p = q.
Proof. intros Hu Hlen. apply prefix_length_eq; [done | lia]. Qed.

Lemma under_pjoin_inv (p sf : Path) (x : string) :
  under p (sf // x) -> under sf p -> p = sf \/ p = sf // x.
Proof.
  intros Hu Hp.
  destruct (decide (length p = length sf)) as [E|E].
  - left. symmetry. by apply under_eq.
  - right. apply under_eq; [done |].
    apply under_length in Hu, Hp. rewrite length_pjoin in *. lia.
Qed.

Lemma under_entry_path (sf : Path) (n : string) (p : Path) :
  p ∈ entry_paths sf n -> under sf p.
Proof.
  intros Hin%elem_of_entry_paths.
  unfold raw_path, prb_path, json_path, npz_path in Hin.
  destruct Hin as [->|[->|[->| ->]]];
    (eapply under_trans; [apply under_pjoin | apply under_pjoin]).
Qed.

Lemma length_entry_path (sf : Path) (n : string) (p : Path) :
  p ∈ entry_paths sf n -> length p = Datatypes.S (Datatypes.S (length sf)).
Proof.
  intros Hin%elem_of_entry_paths.
  unfold raw_path, prb_path, json_path, npz_path in Hin.
  destruct Hin as [->|[->|[->| ->]]]; by rewrite !length_pjoin.
Qed.

(** Up to its loop, [setup_comparison_study] makes the three folders. *)
Lemma setup_comparison_study_dirs (sf : Path)
    (gt_dict : list (string * (R * S))) (fs : FS) :
  absent fs sf ->
  setup_comparison_study sf gt_dict fs
  = (for_each gt_dict (write_study_entry sf) ≫= fun _ =>
       os.write_file (sf // "names.txt") (names_text gt_dict.*1))
      (made_dirs sf fs).
Proof.
  intros Habs. unfold setup_comparison_study.
  assert (fs !! sf = None) as Hsf by (by apply Habs).
  rewrite (bind_ok _ _ fs fs false).
  2:{ unfold os.path_exists.
      rewrite bool_decide_eq_false_2; [done |]. rewrite Hsf. by intros [? ?]. }
  rewrite (bind_ok _ _ fs fs ()) by reflexivity.
  erewrite bind_ok by (by apply makedirs_run).
  erewrite bind_ok.
  2:{ apply makedirs_run.
      rewrite makedirs_lookup, Habs by apply under_pjoin.
      rewrite bool_decide_eq_false_2; [done |].
      apply not_under_longer. rewrite length_pjoin. lia. }
  erewrite bind_ok.
  2:{ apply makedirs_run.
      rewrite !makedirs_lookup, Habs by apply under_pjoin.
      rewrite bool_decide_eq_false_2.
      2:{ apply not_under_longer. rewrite length_pjoin. lia. }
      rewrite bool_decide_eq_false_2; [done |].
      intros [_ E]%under_eq%pjoin_inj; [discriminate E |].
      by rewrite !length_pjoin. }
  reflexivity.
Qed.

(** In the file system of the loop, a path of the study that no recording
    in [gt_dict] owns is as the three [os.makedirs] left it. *)
Lemma loop_state_lookup (sf : Path) (gt_dict : list (string * (R * S)))
    (fs : FS) (p : Path) :
  absent fs sf -> Forall plain_name gt_dict.*1 -> under sf p ->
  (forall n, n ∈ gt_dict.*1 -> p ∉ entry_paths sf n) ->
  (for_each gt_dict (write_study_entry sf) (made_dirs sf fs)).2 !! p
  = if bool_decide (p = sf ∨ p = sf // "raw_files" ∨ p = sf // "ground_truth")
    then Some Dir else None.
Proof.
  intros Habs Hplain Hp Hfree.
  rewrite (preserves_for_each (fun q => q = p)); [| | done].
  - rewrite made_dirs_lookup, Habs by done.
    apply (f_equal (fun b : bool => if b then Some Dir else None)).
    apply bool_decide_ext.
    split.
    + intros [Hu|[Hu|Hu]].
      * left. symmetry. apply under_eq; [done |].
        apply under_length in Hu, Hp. lia.
      * destruct (under_pjoin_inv _ _ _ Hu Hp) as [->| ->]; tauto.
      * destruct (under_pjoin_inv _ _ _ Hu Hp) as [->| ->]; tauto.
    + intros [->|[->| ->]]; [left | right; left | right; right]; done.
  - intros item Hitem.
    assert (item.1 ∈ gt_dict.*1) as Hin
      by (apply list_elem_of_fmap; by exists item).
    eapply preserves_weaken; [| apply preserves_write_study_entry].
    + intros q ->. by apply Hfree.
    + by eapply Forall_forall.
Qed.

End creation_facts.

Section empty_study_facts.
Context {R S : Type}.
Context `{!RecordingExtractor R, !SortingExtractor S, !Library R S}.

(** The files of a recording that the loop has not written are not there. *)
Lemma loop_state_unwritten (sf : Path) (gt_dict : list (string * (R * S)))
    (fs : FS) (n : string) (p : Path) :
  absent fs sf -> Forall plain_name gt_dict.*1 ->
  n ∉ gt_dict.*1 -> p ∈ entry_paths sf n ->
  (for_each gt_dict (write_study_entry sf) (made_dirs sf fs)).2 !! p = None.
Proof.
  intros Habs Hplain Hn Hp. rewrite loop_state_lookup; [| done | done | | ].
  - rewrite bool_decide_eq_false_2; [done |].
    apply length_entry_path in Hp.
    intros [->|[->| ->]]; rewrite ?length_pjoin in Hp; lia.
  - by eapply under_entry_path.
  - intros n' Hn' Hp'. eapply entry_paths_disjoint; [| exact Hp | exact Hp'].
    by intros ->.
Qed.

Lemma loop_state_names (sf : Path) (gt_dict : list (string * (R * S)))
    (fs : FS) :
  absent fs sf -> Forall plain_name gt_dict.*1 ->
  (for_each gt_dict (write_study_entry sf) (made_dirs sf fs)).2
    !! (sf // "names.txt") = None.
Proof.
  intros Habs Hplain.
  rewrite loop_state_lookup; [| done | done | apply under_pjoin | ].
  - rewrite bool_decide_eq_false_2; [done |].
    intros [E|[E|E]].
    + apply (f_equal length) in E. rewrite length_pjoin in E. lia.
    + apply pjoin_inj in E as [_ E]. discriminate E.
    + apply pjoin_inj in E as [_ E]. discriminate E.
  - intros n _. apply names_path_not_entry.
Qed.

Lemma loop_state_study_folder (sf : Path) (gt_dict : list (string * (R * S)))
    (fs : FS) :
  absent fs sf -> Forall plain_name gt_dict.*1 ->
  (for_each gt_dict (write_study_entry sf) (made_dirs sf fs)).2 !! sf
  = Some Dir.
Proof.
  intros Habs Hplain. rewrite loop_state_lookup; [| done | done | done | ].
  - rewrite bool_decide_eq_true_2; [done | by left].
  - intros n _ Hin. eapply entry_path_not_prefix; [exact Hin | | done]. lia.
Qed.

(** A study that is there cannot be created again. *)
Lemma setup_comparison_study_exists (sf : Path)
    (gt_dict : list (string * (R * S))) (fs : FS) :
  is_Some (fs !! sf) ->
  setup_comparison_study sf gt_dict fs
  = (Raise (AssertionError "study_folder already exists"), fs).
Proof.
  intros Hsf. unfold setup_comparison_study.
  rewrite (bind_ok _ _ fs fs true).
  2:{ unfold os.path_exists. by rewrite bool_decide_eq_true_2. }
  reflexivity.
Qed.

Lemma get_recordings_missing_json (sf : Path) (fs : FS) (text : string)
    (rec_name : string) (rest : list string) :
  fs !! (sf // "names.txt") = Some (File text) ->
  PyStr.split PyStr.LF (PyStr.drop_last (PyStr.universal_newlines text))
  = rec_name :: rest ->
  plain_name rec_name ->
  fs !! (sf // "raw_files") = Some Dir ->
  fs !! json_path sf rec_name = None ->
  get_recordings (R := R) sf fs = (Raise FileNotFoundError, fs).
Proof.
  intros Hnames Hsplit Hplain Hdir Hjson. unfold get_recordings.
  rewrite (bind_ok _ _ fs fs (rec_name :: rest))
    by (rewrite <- Hsplit; by apply get_rec_names_run).
  rewrite for_fold_cons. apply bind_raise, bind_raise.
  unfold os.read_named_text. apply bind_raise.
  rewrite read_named_bytes_file by (done || (cbn; lia)).
  by apply read_bytes_missing.
Qed.

Lemma get_ground_truths_missing_npz (sf : Path) (fs : FS) (text : string)
    (rec_name : string) (rest : list string) :
  fs !! (sf // "names.txt") = Some (File text) ->
  PyStr.split PyStr.LF (PyStr.drop_last (PyStr.universal_newlines text))
  = rec_name :: rest ->
  plain_name rec_name ->
  fs !! (sf // "ground_truth") = Some Dir ->
  fs !! npz_path sf rec_name = None ->
  get_ground_truths (S := S) sf fs = (Raise FileNotFoundError, fs).
Proof.
  intros Hnames Hsplit Hplain Hdir Hnpz. unfold get_ground_truths.
  rewrite (bind_ok _ _ fs fs (rec_name :: rest))
    by (rewrite <- Hsplit; by apply get_rec_names_run).
  rewrite for_fold_cons. apply bind_raise, bind_raise.
  rewrite read_named_bytes_file by (done || (cbn; lia)).
  by apply read_bytes_missing.
Qed.

End empty_study_facts.

(** X4.  A study of no recording can be created, but not used: its index
    reads as the one name [''], whose files are not there, so that
    [get_recordings], [get_ground_truths], [run_study_sorters],
    [aggregate_sorting_comparison] and [aggregate_performances_table] all
    raise [FileNotFoundError] on it. *)
Theorem empty_study_cannot_be_read {R S C KT : Type}
    `{!RecordingExtractor R, !SortingExtractor S, !Library R S}
    `{!Sorters R S, !Comparer S C, !Performance C}
    (study_folder : Path) (fs : FS)
    (sorter_list : list string) (sorter_params : sorter_params_t)
    (mode engine : string) (engine_kargs : engine_kargs_t)
    (exhaustive_gt : bool) (karg_thresh : KT) (karg_thresh' : karg_thresh_t) :
  absent fs study_folder ->
  exists fs',
    setup_comparison_study study_folder ([] : list (string * (R * S))) fs
    = (Ok (), fs')
    /\ get_recordings (R := R) study_folder fs' = (Raise FileNotFoundError, fs')
    /\ get_ground_truths (S := S) study_folder fs'
       = (Raise FileNotFoundError, fs')
    /\ run_study_sorters study_folder sorter_list sorter_params mode engine
         engine_kargs fs'
       = (Raise FileNotFoundError, fs')
    /\ aggregate_sorting_comparison study_folder exhaustive_gt karg_thresh fs'
       = (Raise FileNotFoundError, fs')
    /\ aggregate_performances_table study_folder exhaustive_gt karg_thresh' fs'
       = (Raise FileNotFoundError, fs').
Proof.
  intros Habs. eexists. split.
  { apply setup_comparison_study_run; [done | constructor | constructor]. }
  destruct (setup_state_dirs study_folder ([] : list (string * (R * S))) fs
              Habs (Forall_nil_2 _)) as (_ & Hraw & Hgtd & _).
  set (fs' := <[_ := _]> _) in *.
  assert (fs' !! (study_folder // "names.txt") = Some (File "")) as Hnames
    by apply lookup_insert_eq.
  assert (forall p, p ∈ entry_paths study_folder "" -> fs' !! p = None) as Hno.
  { intros p Hp. unfold fs'. rewrite lookup_insert_ne.
    - eapply loop_state_unwritten; [done | constructor | | exact Hp].
      apply not_elem_of_nil.
    - intros <-. by apply names_path_not_entry in Hp. }
  assert (get_recordings (R := R) study_folder fs'
          = (Raise FileNotFoundError, fs')) as Hrec.
  { eapply get_recordings_missing_json;
      [exact Hnames | reflexivity | done | exact Hraw |].
    apply Hno, elem_of_entry_paths. tauto. }
  assert (get_ground_truths (S := S) study_folder fs'
          = (Raise FileNotFoundError, fs')) as Hgt.
  { eapply get_ground_truths_missing_npz;
      [exact Hnames | reflexivity | done | exact Hgtd |].
    apply Hno, elem_of_entry_paths. tauto. }
  do 2 (split; [done |]). by apply study_readers_raise.
Qed.

Lemma empty_study_cannot_be_read_witness :
  exists fs',
    setup_comparison_study Toy.study Toy.gt_none Toy.cwd = (Ok (), fs')
    /\ get_ground_truths (S := string) Toy.study fs'
       = (Raise FileNotFoundError, fs')
    /\ run_study_sorters Toy.study ["s"] () "keep" "loop" () fs'
       = (Raise FileNotFoundError, fs').
Proof.
  destruct (empty_study_cannot_be_read (C := list (Z * option Z))
              (Sorters0 := Toy.sorters) (Comparer0 := Toy.comparer)
              (Performance0 := Toy.performance)
              Toy.study Toy.cwd ["s"] () "keep" "loop" () false () ()
              absent_cwd_study)
    as (fs' & H1 & _ & H3 & H4 & _).
  exists fs'. exact (conj H1 (conj H3 H4)).
Defined.

(** X5.  Creating a study is not all or nothing.  When the recordings of
    [written] have plain names and channels and the next one has no
    channel, the call raises [ZeroDivisionError] and leaves the folder
    behind: the files of [written] are there, the files of every other
    recording and [names.txt] are not.  What is left can neither be read as
    a study nor be created again. *)
Theorem setup_comparison_study_stops_half_way {R S : Type}
    `{!RecordingExtractor R, !SortingExtractor S, !Library R S}
    (study_folder : Path) (written rest : list (string * (R * S)))
    (rec_name : string) (recording : R) (sorting_gt : S) (fs : FS) :
  absent fs study_folder ->
  NoDup written.*1 ->
  Forall plain_name written.*1 ->
  with_channels written ->
  get_num_channels recording = 0 ->
  exists fs',
    setup_comparison_study study_folder
      (written ++ (rec_name, (recording, sorting_gt)) :: rest)%list fs
    = (Raise ZeroDivisionError, fs')
    /\ fs' !! study_folder = Some Dir
    /\ (forall n r g, (n, (r, g)) ∈ written ->
          fs' !! raw_path study_folder n
            = Some (File (binary_dat_format r (2 ^ 24 / get_num_channels r)))
          /\ fs' !! npz_path study_folder n = Some (File (npz_of_sorting g)))
    /\ (forall n p, n ∉ written.*1 -> p ∈ entry_paths study_folder n ->
          fs' !! p = None)
    /\ fs' !! (study_folder // "names.txt") = None
    /\ get_rec_names study_folder fs' = (Raise FileNotFoundError, fs')
    /\ forall gt_dict : list (string * (R * S)),
         setup_comparison_study study_folder gt_dict fs'
         = (Raise (AssertionError "study_folder already exists"), fs').
Proof.
  intros Habs Hnd Hplain Hch Hzero.
  exists (for_each written (write_study_entry study_folder)
            (made_dirs study_folder fs)).2.
  pose proof (loop_state_names study_folder written fs Habs Hplain) as Hnames.
  pose proof (loop_state_study_folder study_folder written fs Habs Hplain)
    as Hsf.
  pose proof (made_dirs_ready study_folder fs Habs) as Hready.
  split.
  { rewrite setup_comparison_study_dirs by done.
    apply bind_raise. rewrite for_each_app, bind_run.
    pose proof (for_each_entries_ok study_folder written
                  (made_dirs study_folder fs) Hplain Hready Hch) as Hok.
    destruct (for_each written _ _) as [r fs1]. simpl in Hok. subst r.
    rewrite for_each_cons. cbn [snd].
    by apply bind_raise, write_study_entry_zero. }
  split; [done |]. split.
  { intros n r g Hin.
    by destruct (for_each_entries_lookup study_folder written
                   (made_dirs study_folder fs) n r g Hplain Hready Hnd Hch Hin)
      as (? & _ & _ & ?). }
  split; [intros n p Hn Hp; by eapply loop_state_unwritten |].
  split; [done |].
  split; [by apply get_rec_names_missing |].
  intros gt_dict. apply setup_comparison_study_exists. by rewrite Hsf.
Qed.

Lemma setup_comparison_study_stops_half_way_witness :
  exists fs',
    setup_comparison_study Toy.study
      [("a", (Toy.rec4, "aab b")); ("z", (Toy.rec0, "aab b"));
       ("b", (Toy.rec4, "cc c"))] Toy.cwd
    = (Raise ZeroDivisionError, fs')
    /\ fs' !! npz_path Toy.study "a" = Some (File "aab b")
    /\ fs' !! npz_path Toy.study "b" = None
    /\ get_rec_names Toy.study fs' = (Raise FileNotFoundError, fs').
Proof.
  destruct (setup_comparison_study_stops_half_way Toy.study
              [("a", (Toy.rec4, "aab b"))] [("b", (Toy.rec4, "cc c"))]
              "z" Toy.rec0 "aab b" Toy.cwd absent_cwd_study)
    as (fs' & H1 & _ & H3 & H4 & _ & H6 & _).
  - repeat constructor. apply not_elem_of_nil.
  - repeat constructor.
  - repeat constructor. discriminate.
  - reflexivity.
  - exists fs'. split; [exact H1 |]. split.
    + apply (H3 "a" Toy.rec4 "aab b"). apply list_elem_of_singleton. reflexivity.
    + split; [| exact H6].
      apply (H4 "b"); [| apply elem_of_entry_paths; tauto].
      intros Hin%list_elem_of_singleton. discriminate Hin.
Defined.

Section setup_frame_facts.
Context {R S : Type}.
Context `{!RecordingExtractor R, !SortingExtractor S, !Library R S}.

(** Outside a folder, the folders above one of its entries are the folders
    above it. *)
Lemma under_child_outside (sf p : Path) (x : string) :
  ~ under sf p -> (under p (sf // x) <-> under p sf).
Proof.
  intros Hout. split.
  - intros Hu. destruct (decide (length p = length (sf // x))) as [E|E].
    + apply under_eq in Hu as ->; [| done]. destruct Hout. apply under_pjoin.
    + destruct Hu as [k E']. unfold pjoin in E'.
      destruct (decide (k = [])) as [->|Hk].
      { rewrite app_nil_r in E'. by subst p. }
      destruct (exists_last Hk) as (k' & y & ->).
      rewrite app_assoc in E'. apply app_inj_tail in E' as [-> _].
      by exists k'.
  - intros Hu. eapply under_trans; [exact Hu | apply under_pjoin].
Qed.

(** With plain names, the loop and the index are written below the study
    folder. *)
Lemma preserves_study_writes (sf : Path) (gt_dict : list (string * (R * S))) :
  Forall plain_name gt_dict.*1 ->
  preserves (fun p => ~ under sf p)
    (for_each gt_dict (write_study_entry sf) ≫= fun _ =>
       os.write_file (sf // "names.txt") (names_text gt_dict.*1)).
Proof.
  intros Hplain. apply preserves_bind.
  - eapply preserves_weaken; [| by apply preserves_for_each_entries].
    intros p Hp n Hin. by apply Hp, (under_entry_path sf n).
  - intros _. apply preserves_write_file. intros H. apply H, under_pjoin.
Qed.

End setup_frame_facts.

(** X6.  For recording names that are plain (no ["/"], no null
    character), and whether it returns or raises, [setup_comparison_study]
    changes nothing outside [study_folder] but for the folders above it
    that were missing, which it makes when [study_folder] itself was not
    there. *)
Theorem setup_comparison_study_frame {R S : Type}
    `{!RecordingExtractor R, !SortingExtractor S, !Library R S}
    (study_folder : Path) (gt_dict : list (string * (R * S))) (fs : FS)
    (p : Path) :
  Forall plain_name gt_dict.*1 ->
  ~ under study_folder p ->
  (setup_comparison_study study_folder gt_dict fs).2 !! p
  = match fs !! p with
    | Some e => Some e
    | None =>
        if bool_decide (under p study_folder ∧ fs !! study_folder = None)
        then Some Dir else None
    end.
Proof.
  intros Hplain Hout.
  assert (forall x, bool_decide (under p (study_folder // x))
                    = bool_decide (under p study_folder)) as Hx.
  { intros x. by apply bool_decide_ext, under_child_outside. }
  destruct (fs !! study_folder) as [e|] eqn:Hsf.
  { rewrite setup_comparison_study_exists by (by rewrite Hsf).
    cbn [snd]. destruct (fs !! p); [done |].
    rewrite bool_decide_eq_false_2; [done |]. by intros [_ ?]. }
  set (fill := fun o : option entry =>
                match o with
                | Some e => Some e
                | None => if bool_decide (under p study_folder)
                          then Some Dir else None
                end).
  assert (forall o, fill (fill o) = fill o) as Hidem.
  { intros [e|]; [done |]. unfold fill. by destruct (bool_decide _). }
  transitivity (fill (fs !! p)).
  2:{ unfold fill. destruct (fs !! p); [done |].
      apply (f_equal (fun b : bool => if b then Some Dir else None)).
      apply bool_decide_ext. tauto. }
  unfold setup_comparison_study.
  rewrite (bind_ok _ _ fs fs false).
  2:{ unfold os.path_exists.
      rewrite bool_decide_eq_false_2; [done |]. rewrite Hsf. by intros [? ?]. }
  rewrite (bind_ok _ _ fs fs ()) by reflexivity.
  erewrite bind_ok by (by apply makedirs_run).
  set (fs1 := foldl os.mkdir_missing fs (os.chain study_folder)).
  assert (fs1 !! p = fill (fs !! p)) as H1
    by (unfold fs1; by rewrite makedirs_lookup).
  rewrite bind_run. unfold os.makedirs at 1.
  destruct (fs1 !! (study_folder // "raw_files")) eqn:E2; [done |].
  set (fs2 := foldl os.mkdir_missing fs1 (os.chain (study_folder // "raw_files"))).
  assert (fs2 !! p = fill (fs !! p)) as H2.
  { unfold fs2. rewrite makedirs_lookup, Hx, H1. apply Hidem. }
  rewrite bind_run. unfold os.makedirs at 1.
  destruct (fs2 !! (study_folder // "ground_truth")) eqn:E3; [done |].
  set (fs3 := foldl os.mkdir_missing fs2
                (os.chain (study_folder // "ground_truth"))).
  assert (fs3 !! p = fill (fs !! p)) as H3.
  { unfold fs3. rewrite makedirs_lookup, Hx, H2. apply Hidem. }
  rewrite <- H3. by apply preserves_study_writes.
Qed.

Lemma setup_comparison_study_frame_witness :
  (setup_comparison_study ["top"; "study"] Toy.gt_two Toy.cwd).2 !! ["top"]
  = Some Dir
  /\ (setup_comparison_study ["top"; "study"] Toy.gt_two Toy.cwd).2
       !! ["other"] = None.
Proof.
  split.
  - rewrite setup_comparison_study_frame.
    + reflexivity.
    + repeat constructor.
    + intros [k E]. discriminate E.
  - rewrite setup_comparison_study_frame.
    + reflexivity.
    + repeat constructor.
    + intros [k E]. discriminate E.
Defined.

(** The names have to be plain: the files of a recording named ["/evil"]
    are written at the root, outside the study. *)
Lemma setup_comparison_study_absolute_name :
  let fs' :=
    (setup_comparison_study Toy.study [("/evil", (Toy.rec4, "aab b"))]
       Toy.cwd).2 in
  is_Some (fs' !! ["evil.raw"])
  /\ is_Some (fs' !! ["evil.npz"])
  /\ fs' !! (Toy.study // "raw_files" // "/evil.raw") = None.
Proof. vm_compute. eauto. Qed.

(** ** Where the collecting loops stop *)

Section loop_facts.
Context {R S C : Type}.
Context `{!RecordingExtractor R, !SortingExtractor S, !Library R S}.
Context `{!Sorters R S, !Comparer S C}.

Lemma for_fold_app {A B} (l1 l2 : list A) (acc : B) (body : B -> A -> M B)
    (fs : FS) :
  for_fold (l1 ++ l2)%list acc body fs
  = (for_fold l1 acc body ≫= fun acc' => for_fold l2 acc' body) fs.
Proof.
  revert acc fs. induction l1 as [|x l1 IH]; intros acc fs; [done |].
  change ((x :: l1) ++ l2)%list with (x :: (l1 ++ l2)%list).
  rewrite for_fold_cons, !bind_run, for_fold_cons, bind_run.
  destruct (body acc x fs) as [[acc'|e] fs1]; [| done].
  by rewrite IH, bind_run.
Qed.

(** A loop of comparisons in which a lookup fails, and nothing else does. *)
Lemma compare_loop_KeyError (gts : gmap string S)
    (items : list ((string * string) * S)) (acc : gmap (string * string) C)
    (fs : FS) :
  (forall k sorting gt, (k, sorting) ∈ items -> gts !! k.1 = Some gt ->
     exists sc, compare_sorter_to_ground_truth gt sorting = Ok sc) ->
  (exists k sorting, (k, sorting) ∈ items /\ gts !! k.1 = None) ->
  for_fold items acc (compare_item gts) fs = (Raise KeyError, fs).
Proof.
  revert acc. induction items as [|[k sorting] items IH]; intros acc Hcmp Hbad.
  { destruct Hbad as (k & sorting & Hin & _). by apply elem_of_nil in Hin. }
  rewrite for_fold_cons, bind_run, compare_item_run. unfold compared.
  destruct (gts !! k.1) as [gt|] eqn:Hgt; [| done].
  destruct (Hcmp k sorting gt) as [sc Hsc]; [left | done |].
  cbn [of_option mbind result_bind]. rewrite Hsc.
  apply IH.
  - intros k' s' gt' Hin. apply Hcmp. by right.
  - destruct Hbad as (k' & s' & Hin & Hnone).
    apply elem_of_cons in Hin as [Heq|Hin]; [| eauto].
    injection Heq as -> ->. congruence.
Qed.

(** The loop of [collect_run_times] at the first log that cannot be read. *)
Lemma collect_loop_raise (before after : list (string * string * Path))
    (item : string * string * Path) (e : exn)
    (acc : list (string * string * pyfloat)) (fs : FS) :
  (forall i, i ∈ before -> has_run_log fs i ->
     exists run_time, run_time_of fs i = Ok run_time) ->
  has_run_log fs item ->
  run_time_of fs item = Raise e ->
  for_fold (before ++ item :: after)%list acc collect_run_time fs
  = (Raise e, fs).
Proof.
  intros Hbefore Hlog Hbad. rewrite for_fold_app.
  destruct (collect_loop before acc fs Hbefore) as (new & Hrun & _).
  rewrite (bind_ok _ _ _ _ _ Hrun), for_fold_cons.
  apply bind_raise. rewrite collect_run_time_run.
  destruct (decide (has_run_log fs item)); [| done]. by rewrite Hbad.
Qed.

End loop_facts.

(** X7.  One log that cannot be read loses all run times.  When the folders
    that [loop_over_folders] yields before [item] have logs that parse, or
    none, and the log of [item] is there but raises [e] when it is read,
    [collect_run_times] raises [e], whatever the folders after [item]
    hold. *)
Theorem collect_run_times_first_bad_log {R S : Type} `{!Sorters R S}
    (study_folder : Path) (fs fs' : FS)
    (before after : list (string * string * Path))
    (item : string * string * Path) (e : exn) :
  loop_over_folders (study_folder // "sorter_outputs") fs
  = (Ok (before ++ item :: after)%list, fs') ->
  (forall i, i ∈ before -> has_run_log fs' i ->
     exists run_time, run_time_of fs' i = Ok run_time) ->
  has_run_log fs' item ->
  run_time_of fs' item = Raise e ->
  collect_run_times study_folder fs = (Raise e, fs').
Proof.
  intros Hloop Hbefore Hlog Hbad. unfold collect_run_times.
  rewrite (bind_ok _ _ _ _ _ Hloop). by apply collect_loop_raise.
Qed.

Lemma collect_run_times_first_bad_log_witness :
  collect_run_times Toy.study Toy.empty_log_fs
  = (Raise (ValueError "could not convert string to float"), Toy.empty_log_fs).
Proof.
  apply (collect_run_times_first_bad_log Toy.study Toy.empty_log_fs
           Toy.empty_log_fs [("b", "s", Toy.outputs // "b" // "s")] []
           ("a", "s", Toy.out_a)).
  - apply run_eq; [vm_compute; reflexivity |].
    apply toy_loop_over_folders_read_only.
  - apply logs_parse_spec. vm_compute. reflexivity.
  - vm_compute. eauto.
  - vm_compute. reflexivity.
Defined.

(** X8.  One output under a name that is not of the study loses all
    comparisons.  When some collected output has no ground truth, and the
    comparison returns for those that have one, [aggregate_sorting_comparison]
    and [aggregate_performances_table] raise [KeyError], in whatever order the
    outputs are visited. *)
Theorem aggregate_sorting_comparison_foreign_output {R S C KT : Type}
    `{!RecordingExtractor R, !SortingExtractor S, !Library R S}
    `{!Sorters R S, !Comparer S C, !Performance C}
    (study_folder : Path) (exhaustive_gt : bool) (karg_thresh : KT)
    (karg_thresh' : karg_thresh_t) (fs fs' : FS)
    (ground_truths : gmap string S) (results : gmap (string * string) S)
    (rec_name sorter_name : string) (sorting : S) :
  (get_ground_truths study_folder fs).1 = Ok ground_truths ->
  collect_sorting_outputs (study_folder // "sorter_outputs") fs
  = (Ok results, fs') ->
  results !! (rec_name, sorter_name) = Some sorting ->
  ground_truths !! rec_name = None ->
  (forall key output gt_sorting,
     results !! key = Some output -> ground_truths !! key.1 = Some gt_sorting ->
     exists sc, compare_sorter_to_ground_truth gt_sorting output = Ok sc) ->
  aggregate_sorting_comparison study_folder exhaustive_gt karg_thresh fs
  = (Raise KeyError, fs')
  /\ aggregate_performances_table study_folder exhaustive_gt karg_thresh' fs
     = (Raise KeyError, fs').
Proof.
  intros Hgts Hres Hkey Hnone Hcmp.
  assert (forall KT' (kt : KT'),
            aggregate_sorting_comparison study_folder exhaustive_gt kt fs
            = (Raise KeyError, fs')) as Hagg.
  { intros KT' kt. unfold aggregate_sorting_comparison.
    rewrite (bind_ok _ _ fs fs ground_truths)
      by (apply run_eq; [done | apply read_only_get_ground_truths]).
    rewrite (bind_ok _ _ _ _ _ Hres).
    apply compare_loop_KeyError.
    - intros k s gt Hin%elem_of_map_to_list. by apply Hcmp.
    - exists (rec_name, sorter_name), sorting.
      split; [by apply elem_of_map_to_list | done]. }
  split; [apply Hagg |].
  unfold aggregate_performances_table. apply bind_raise, Hagg.
Qed.

Lemma aggregate_sorting_comparison_foreign_output_witness :
  aggregate_sorting_comparison Toy.study false () Toy.foreign_fs
  = (Raise KeyError, Toy.foreign_fs)
  /\ aggregate_performances_table Toy.study false () Toy.foreign_fs
     = (Raise KeyError, Toy.foreign_fs).
Proof.
  apply (aggregate_sorting_comparison_foreign_output
           (Performance0 := Toy.performance) Toy.study false () ()
           Toy.foreign_fs Toy.foreign_fs Toy.gts_two
           (<[("x", "s") := "aab b"]> Toy.results_two) "x" "s" "aab b").
  - vm_compute. reflexivity.
  - apply run_eq; [vm_compute; reflexivity |].
    apply toy_collect_sorting_outputs_read_only.
  - vm_compute. reflexivity.
  - vm_compute. reflexivity.
  - intros key output gt_sorting _ _. eexists. reflexivity.
Defined.

(** X9.  One log that cannot be read loses the performance tables, and not
    the comparisons: when the collected outputs can all be compared, and the
    log of one yielded folder is there but raises [e] when it is read (the
    logs before it being readable), [aggregate_sorting_comparison] returns
    and [aggregate_performances_table] raises [e]. *)
Theorem aggregate_performances_table_bad_log {R S C : Type}
    `{!RecordingExtractor R, !SortingExtractor S, !Library R S}
    `{!Sorters R S, !Comparer S C, !Performance C}
    (study_folder : Path) (exhaustive_gt : bool)
    (karg_thresh : karg_thresh_t) (fs : FS)
    (ground_truths : gmap string S) (results : gmap (string * string) S)
    (before after : list (string * string * Path))
    (item : string * string * Path) (e : exn) :
  (get_ground_truths study_folder fs).1 = Ok ground_truths ->
  collect_sorting_outputs (study_folder // "sorter_outputs") fs
  = (Ok results, fs) ->
  map_Forall (fun key sorting =>
                exists sc, compared ground_truths key sorting = Ok sc)
    results ->
  loop_over_folders (study_folder // "sorter_outputs") fs
  = (Ok (before ++ item :: after)%list, fs) ->
  (forall i, i ∈ before -> has_run_log fs i ->
     exists run_time, run_time_of fs i = Ok run_time) ->
  has_run_log fs item ->
  run_time_of fs item = Raise e ->
  (exists comparisons,
     aggregate_sorting_comparison study_folder exhaustive_gt karg_thresh fs
     = (Ok comparisons, fs))
  /\ aggregate_performances_table study_folder exhaustive_gt karg_thresh fs
     = (Raise e, fs).
Proof.
  intros Hgts Hcollect Hall Hloop Hbefore Hlog Hbad.
  destruct (aggregate_sorting_comparison_run study_folder exhaustive_gt
              karg_thresh fs fs ground_truths results Hgts Hcollect Hall)
    as (comparisons & Hagg & _).
  split; [by exists comparisons |].
  assert (get_ground_truths study_folder fs = (Ok ground_truths, fs)) as Hgts'.
  { apply run_eq; [exact Hgts | apply read_only_get_ground_truths]. }
  unfold aggregate_performances_table.
  rewrite (bind_ok _ _ _ _ _ Hagg), (bind_ok _ _ _ _ _ Hgts'),
    (bind_ok _ _ _ _ _ Hcollect).
  apply bind_raise. unfold collect_run_times.
  rewrite (bind_ok _ _ _ _ _ Hloop). by apply collect_loop_raise.
Qed.

Lemma aggregate_performances_table_bad_log_witness :
  (exists comparisons,
     aggregate_sorting_comparison Toy.study false () Toy.empty_log_fs
     = (Ok comparisons, Toy.empty_log_fs))
  /\ aggregate_performances_table Toy.study false () Toy.empty_log_fs
     = (Raise (ValueError "could not convert string to float"),
        Toy.empty_log_fs).
Proof.
  apply (aggregate_performances_table_bad_log (Sorters0 := Toy.sorters)
           (Comparer0 := Toy.comparer) (Performance0 := Toy.performance)
           Toy.study false () Toy.empty_log_fs Toy.gts_two Toy.results_two
           [("b", "s", Toy.outputs // "b" // "s")] [] ("a", "s", Toy.out_a)).
  - vm_compute. reflexivity.
  - apply run_eq; [vm_compute; reflexivity |].
    apply toy_collect_sorting_outputs_read_only.
  - apply map_Forall_insert_2; [| apply map_Forall_insert_2;
                                   [| apply map_Forall_empty]];
      (eexists; reflexivity).
  - apply run_eq; [vm_compute; reflexivity |].
    apply toy_loop_over_folders_read_only.
  - apply logs_parse_spec. vm_compute. reflexivity.
  - vm_compute. eauto.
  - vm_compute. reflexivity.
Defined.

(** ** Reading a study back *)

Section loading_facts.
Context {R S : Type}.
Context `{!RecordingExtractor R, !SortingExtractor S, !Library R S}.

Lemma read_bytes_run (p : Path) (fs : FS) :
  os.read_bytes p fs = (read_file fs p, fs).
Proof. unfold os.read_bytes, read_file. by destruct (fs !! p) as [[]|]. Qed.

Lemma read_text_run (p : Path) (fs : FS) :
  os.read_text p fs
  = (text ← read_file fs p; Ok (PyStr.universal_newlines text), fs).
Proof.
  unfold os.read_text. rewrite bind_run, read_bytes_run.
  by destruct (read_file fs p).
Qed.

Lemma read_named_bytes_run (folder : Path) (name : string) (fs : FS) :
  os.read_named_bytes folder name fs = (read_named fs folder name, fs).
Proof.
  unfold os.read_named_bytes, read_named.
  destruct (os.locate fs folder name) as [p|e]; [| done].
  apply read_bytes_run.
Qed.

Lemma read_named_text_run (folder : Path) (name : string) (fs : FS) :
  os.read_named_text folder name fs
  = (text ← read_named fs folder name; Ok (PyStr.universal_newlines text), fs).
Proof.
  unfold os.read_named_text. rewrite bind_run, read_named_bytes_run.
  by destruct (read_named fs folder name).
Qed.


(** A loop that loads one value per name, on a file system it does not
    change. *)
Lemma load_loop {V} (load : string -> result V)
    (body : gmap string V -> string -> M (gmap string V))
    (rec_names : list string) (acc : gmap string V) (fs : FS) :
  (forall acc rec_name,
     body acc rec_name fs
     = match load rec_name with
       | Ok v => (Ok (<[rec_name := v]> acc), fs)
       | Raise e => (Raise e, fs)
       end) ->
  (forall rec_name, rec_name ∈ rec_names -> exists v, load rec_name = Ok v) ->
  exists d,
    for_fold rec_names acc body fs = (Ok d, fs)
    /\ forall rec_name,
         d !! rec_name
         = if decide (rec_name ∈ rec_names)
           then match load rec_name with
                | Ok v => Some v
                | Raise _ => None
                end
           else acc !! rec_name.
Proof.
  intros Hbody. revert acc.
  induction rec_names as [|n names IH]; intros acc Hload.
  { exists acc. split; [done |]. intros m.
    destruct (decide (m ∈ [])) as [Hin|]; [by apply elem_of_nil in Hin | done]. }
  destruct (Hload n) as [v Hv]; [left |].
  rewrite for_fold_cons, bind_run, Hbody, Hv.
  destruct (IH (<[n := v]> acc)) as (d & Hrun & Hd).
  { intros m Hm. apply Hload. by right. }
  exists d. split; [done |]. intros m. rewrite Hd.
  destruct (decide (m ∈ names)) as [Hin|Hout].
  - rewrite decide_True by (by right). done.
  - destruct (decide (m = n)) as [->|Hne].
    + rewrite decide_True by left. by rewrite lookup_insert_eq, Hv.
    + rewrite lookup_insert_ne by done.
      rewrite decide_False; [done |].
      intros [?|?]%elem_of_cons; done.
Qed.

(** The same loop, when the value of a name cannot be loaded. *)
Lemma load_loop_raise {V} (load : string -> result V)
    (body : gmap string V -> string -> M (gmap string V))
    (before after : list string) (rec_name : string) (e : exn)
    (acc : gmap string V) (fs : FS) :
  (forall acc rec_name,
     body acc rec_name fs
     = match load rec_name with
       | Ok v => (Ok (<[rec_name := v]> acc), fs)
       | Raise e => (Raise e, fs)
       end) ->
  (forall n, n ∈ before -> exists v, load n = Ok v) ->
  load rec_name = Raise e ->
  for_fold (before ++ rec_name :: after)%list acc body fs = (Raise e, fs).
Proof.
  intros Hbody Hbefore Hbad. rewrite for_fold_app.
  destruct (load_loop load body before acc fs Hbody Hbefore) as (d & Hrun & _).
  rewrite (bind_ok _ _ _ _ _ Hrun), for_fold_cons.
  apply bind_raise. by rewrite Hbody, Hbad.
Qed.

Lemma ground_truth_turn (sf : Path) (fs : FS) (acc : gmap string S)
    (rec_name : string) :
  (npz ← os.read_named_bytes (sf // "ground_truth") (rec_name +:+ ".npz");
   sorting ← lift (npz_sorting npz);
   mret (<[rec_name := sorting]> acc)) fs
  = match stored_ground_truth R sf fs rec_name with
    | Ok v => (Ok (<[rec_name := v]> acc), fs)
    | Raise e => (Raise e, fs)
    end.
Proof.
  unfold stored_ground_truth. rewrite bind_run, read_named_bytes_run.
  destruct (read_named fs _ _) as [npz|e]; [| done].
  rewrite bind_run. unfold lift. cbn [mbind result_bind].
  by destruct (npz_sorting npz).
Qed.

Lemma recording_turn (sf : Path) (fs : FS) (acc : gmap string R)
    (rec_name : string) :
  (text ← os.read_named_text (sf // "raw_files") (rec_name +:+ ".json");
   info ← lift (json_load text);
   raw ← os.read_named_bytes (sf // "raw_files") (rec_name +:+ ".raw");
   rec ← lift (bin_dat_recording raw (sample_rate info) (num_chan info)
                 (dtype info) (frames_first info));
   prb ← os.read_named_bytes (sf // "raw_files") (rec_name +:+ ".prb");
   rec ← lift (probe_loaded rec prb);
   mret (<[rec_name := rec]> acc)) fs
  = match stored_recording S sf fs rec_name with
    | Ok v => (Ok (<[rec_name := v]> acc), fs)
    | Raise e => (Raise e, fs)
    end.
Proof.
  unfold stored_recording.
  rewrite bind_run, read_named_text_run.
  destruct (read_named fs (sf // "raw_files") (rec_name +:+ ".json"))
    as [json|e]; [| done].
  cbn [mbind result_bind]. rewrite bind_run. unfold lift at 1.
  destruct (json_load _) as [info|e]; [| done].
  rewrite bind_run, read_named_bytes_run.
  destruct (read_named fs (sf // "raw_files") (rec_name +:+ ".raw"))
    as [raw|e]; [| done].
  cbn [mbind result_bind]. rewrite bind_run. unfold lift at 1.
  destruct (bin_dat_recording _ _ _ _ _) as [rec|e]; [| done].
  rewrite bind_run, read_named_bytes_run.
  destruct (read_named fs (sf // "raw_files") (rec_name +:+ ".prb"))
    as [prb|e]; [| done].
  cbn [mbind result_bind]. rewrite bind_run. unfold lift.
  by destruct (probe_loaded rec prb).
Qed.

Lemma loaded_of_loop {V} (load : string -> result V) (rec_names : list string)
    (d : gmap string V) :
  (forall rec_name,
     d !! rec_name
     = if decide (rec_name ∈ rec_names)
       then match load rec_name with
            | Ok v => Some v
            | Raise _ => None
            end
       else (∅ : gmap string V) !! rec_name) ->
  loaded load rec_names d.
Proof.
  intros Hd n. rewrite Hd. destruct (decide _); [done | apply lookup_empty].
Qed.

Lemma get_ground_truths_run (sf : Path) (fs : FS) (text : string) :
  fs !! (sf // "names.txt") = Some (File text) ->
  (forall rec_name, rec_name ∈ index_of text ->
     exists sorting, stored_ground_truth R sf fs rec_name = Ok sorting) ->
  exists ground_truths,
    get_ground_truths sf fs = (Ok ground_truths, fs)
    /\ loaded (stored_ground_truth R sf fs) (index_of text) ground_truths.
Proof.
  intros Hnames Hload. unfold get_ground_truths.
  rewrite (bind_ok _ _ _ _ _ (get_rec_names_run sf fs text Hnames)).
  destruct (load_loop (stored_ground_truth R sf fs)
              (fun ground_truths rec_name =>
                 npz ← os.read_named_bytes (sf // "ground_truth")
                         (rec_name +:+ ".npz");
                 sorting ← lift (npz_sorting npz);
                 mret (<[rec_name := sorting]> ground_truths))
              (index_of text) ∅ fs) as (d & Hrun & Hd); [| done |].
  { intros acc n. apply ground_truth_turn. }
  exists d. split; [exact Hrun | by apply loaded_of_loop].
Qed.

Lemma get_recordings_run (sf : Path) (fs : FS) (text : string) :
  fs !! (sf // "names.txt") = Some (File text) ->
  (forall rec_name, rec_name ∈ index_of text ->
     exists recording, stored_recording S sf fs rec_name = Ok recording) ->
  exists recording_dict,
    get_recordings sf fs = (Ok recording_dict, fs)
    /\ loaded (stored_recording S sf fs) (index_of text) recording_dict.
Proof.
  intros Hnames Hload. unfold get_recordings.
  rewrite (bind_ok _ _ _ _ _ (get_rec_names_run sf fs text Hnames)).
  destruct (load_loop (stored_recording S sf fs)
              (fun recording_dict rec_name =>
                 text ← os.read_named_text (sf // "raw_files")
                          (rec_name +:+ ".json");
                 info ← lift (json_load text);
                 raw ← os.read_named_bytes (sf // "raw_files")
                         (rec_name +:+ ".raw");
                 rec ← lift (bin_dat_recording raw (sample_rate info)
                               (num_chan info) (dtype info)
                               (frames_first info));
                 prb ← os.read_named_bytes (sf // "raw_files")
                         (rec_name +:+ ".prb");
                 rec ← lift (probe_loaded rec prb);
                 mret (<[rec_name := rec]> recording_dict))
              (index_of text) ∅ fs) as (d & Hrun & Hd); [| done |].
  { intros acc n. apply recording_turn. }
  exists d. split; [exact Hrun | by apply loaded_of_loop].
Qed.

End loading_facts.

Section round_trip_facts.
Context {R S : Type}.
Context `{!RecordingExtractor R, !SortingExtractor S, !Library R S}.

Lemma loaded_dom {V} (load : string -> result V) (rec_names : list string)
    (d : gmap string V) :
  loaded load rec_names d ->
  (forall rec_name, rec_name ∈ rec_names -> exists v, load rec_name = Ok v) ->
  dom d = list_to_set rec_names.
Proof.
  intros Hd Hload. apply set_eq. intros n.
  rewrite elem_of_dom, elem_of_list_to_set, Hd.
  destruct (decide (n ∈ rec_names)) as [Hin|Hout].
  - destruct (Hload n Hin) as [v ->]. split; [done | eauto].
  - split; [by intros [? ?] | done].
Qed.




End round_trip_facts.

(** X10.  [get_ground_truths] loads one sorting per name of the index, from
    the file that [ground_truth / (name + '.npz')] names, a name that holds
    a separator being read as a path.  When all can be loaded it returns the
    dict of them, its keys the names of the index; otherwise it raises what
    the first name that fails raises. *)
Theorem get_ground_truths_loads_the_index {R S : Type}
    `{!RecordingExtractor R, !SortingExtractor S, !Library R S}
    (study_folder : Path) (fs : FS) (text : string) :
  fs !! (study_folder // "names.txt") = Some (File text) ->
  ((forall rec_name, rec_name ∈ index_of text ->
      exists sorting,
        stored_ground_truth R study_folder fs rec_name = Ok sorting) ->
   exists ground_truths,
     get_ground_truths study_folder fs = (Ok ground_truths, fs)
     /\ dom ground_truths = list_to_set (index_of text)
     /\ loaded (stored_ground_truth R study_folder fs) (index_of text)
          ground_truths)
  /\ (forall before after rec_name e,
        index_of text = (before ++ rec_name :: after)%list ->
        (forall n, n ∈ before ->
           exists sorting, stored_ground_truth R study_folder fs n = Ok sorting) ->
        stored_ground_truth R study_folder fs rec_name = Raise e ->
        get_ground_truths (S := S) study_folder fs = (Raise e, fs)).
Proof.
  intros Hnames. split.
  - intros Hload.
    destruct (get_ground_truths_run study_folder fs text Hnames Hload)
      as (gts & Hrun & Hgts).
    exists gts. split; [exact Hrun |]. split; [| exact Hgts].
    by eapply loaded_dom.
  - intros before after n e Hidx Hbefore Hbad. unfold get_ground_truths.
    rewrite (bind_ok _ _ _ _ _ (get_rec_names_run _ fs text Hnames)).
    fold (index_of text). rewrite Hidx.
    apply (load_loop_raise (stored_ground_truth R study_folder fs));
      [| done | done].
    intros acc m. apply ground_truth_turn.
Qed.

Lemma get_ground_truths_loads_the_index_witness :
  exists ground_truths,
    get_ground_truths Toy.study Toy.study_fs = (Ok ground_truths, Toy.study_fs)
    /\ dom ground_truths = list_to_set (index_of (names_text ["a"; "b"])).
Proof.
  destruct (get_ground_truths_loads_the_index (R := Toy.recording)
              Toy.study Toy.study_fs (names_text ["a"; "b"]))
    as [Hload _]; [vm_compute; reflexivity |].
  destruct Hload as (gts & Hrun & Hdom & _).
  - intros n Hn. vm_compute in Hn.
    apply elem_of_cons in Hn as [->|Hn]; [eexists; vm_compute; reflexivity |].
    apply list_elem_of_singleton in Hn as ->. eexists. vm_compute. reflexivity.
  - exists gts. exact (conj Hrun Hdom).
Defined.

(** X11.  [get_recordings] loads one recording per name of the index, from
    the files that [raw_files / (name + '.json')], [.raw] and [.prb] name, a
    name that holds a separator being read as a path.  When all can be
    loaded it returns the dict of them, its keys the names of the index;
    otherwise it raises what the first name that fails raises. *)
Theorem get_recordings_loads_the_index {R S : Type}
    `{!RecordingExtractor R, !SortingExtractor S, !Library R S}
    (study_folder : Path) (fs : FS) (text : string) :
  fs !! (study_folder // "names.txt") = Some (File text) ->
  ((forall rec_name, rec_name ∈ index_of text ->
      exists recording,
        stored_recording S study_folder fs rec_name = Ok recording) ->
   exists recording_dict,
     get_recordings study_folder fs = (Ok recording_dict, fs)
     /\ dom recording_dict = list_to_set (index_of text)
     /\ loaded (stored_recording S study_folder fs) (index_of text)
          recording_dict)
  /\ (forall before after rec_name e,
        index_of text = (before ++ rec_name :: after)%list ->
        (forall n, n ∈ before ->
           exists recording, stored_recording S study_folder fs n = Ok recording) ->
        stored_recording S study_folder fs rec_name = Raise e ->
        get_recordings (R := R) study_folder fs = (Raise e, fs)).
Proof.
  intros Hnames. split.
  - intros Hload.
    destruct (get_recordings_run study_folder fs text Hnames Hload)
      as (recs & Hrun & Hrecs).
    exists recs. split; [exact Hrun |]. split; [| exact Hrecs].
    by eapply loaded_dom.
  - intros before after n e Hidx Hbefore Hbad. unfold get_recordings.
    rewrite (bind_ok _ _ _ _ _ (get_rec_names_run _ fs text Hnames)).
    fold (index_of text). rewrite Hidx.
    apply (load_loop_raise (stored_recording S study_folder fs));
      [| done | done].
    intros acc m. apply recording_turn.
Qed.

Lemma get_recordings_loads_the_index_witness :
  exists recording_dict,
    get_recordings Toy.study Toy.study_fs = (Ok recording_dict, Toy.study_fs)
    /\ dom recording_dict = list_to_set (index_of (names_text ["a"; "b"])).
Proof.
  destruct (get_recordings_loads_the_index (S := string)
              Toy.study Toy.study_fs (names_text ["a"; "b"]))
    as [Hload _]; [vm_compute; reflexivity |].
  destruct Hload as (recs & Hrun & Hdom & _).
  - intros n Hn. vm_compute in Hn.
    apply elem_of_cons in Hn as [->|Hn]; [eexists; vm_compute; reflexivity |].
    apply list_elem_of_singleton in Hn as ->. eexists. vm_compute. reflexivity.
  - exists recs. exact (conj Hrun Hdom).
Defined.



(** ** The sampling frequency of the threshold functions *)

(** X13.  The four threshold functions use [sampling_frequency] for their
    check only: two calls that pass the check, with whatever frequencies, on
    the same other arguments, give the same result.  No frequency reaches the
    metric, also not the one of [threshold_firing_rates]. *)
Theorem threshold_functions_ignore_sampling_frequency {S : Type}
    `{!SortingExtractor S, !Validation S}
    (sorting : S) (threshold : threshold_t) (threshold_sign : string)
    (epoch : option Z) (isi_threshold min_isi : pyfloat)
    (sf1 sf2 : option pyfloat)
    (metric_scope_params : metric_scope_params_t) (save_as_property : bool) :
  ~ (sf1 = None /\ get_sampling_frequency sorting = None) ->
  ~ (sf2 = None /\ get_sampling_frequency sorting = None) ->
  threshold_num_spikes sorting threshold threshold_sign epoch sf1
    metric_scope_params save_as_property
  = threshold_num_spikes sorting threshold threshold_sign epoch sf2
      metric_scope_params save_as_property
  /\ threshold_firing_rates sorting threshold threshold_sign epoch sf1
       metric_scope_params save_as_property
     = threshold_firing_rates sorting threshold threshold_sign epoch sf2
         metric_scope_params save_as_property
  /\ threshold_presence_ratios sorting threshold threshold_sign epoch sf1
       metric_scope_params save_as_property
     = threshold_presence_ratios sorting threshold threshold_sign epoch sf2
         metric_scope_params save_as_property
  /\ threshold_isi_violations sorting threshold threshold_sign epoch
       isi_threshold min_isi sf1 metric_scope_params save_as_property
     = threshold_isi_violations sorting threshold threshold_sign epoch
         isi_threshold min_isi sf2 metric_scope_params save_as_property.
Proof.
  intros H1 H2.
  unfold threshold_num_spikes, threshold_firing_rates,
    threshold_presence_ratios, threshold_isi_violations.
  destruct (check_sampling_frequency_ok sorting sf1 H1) as [sf1' ->].
  destruct (check_sampling_frequency_ok sorting sf2 H2) as [sf2' ->].
  done.
Qed.

Lemma threshold_functions_ignore_sampling_frequency_witness :
  threshold_firing_rates "aab b" 2 "less" (Some 0) None None true
  = threshold_firing_rates "aab b" 2 "less" (Some 0)
      (Some (FDec false 1 0)) None true.
Proof.
  destruct (threshold_functions_ignore_sampling_frequency
              (Validation0 := Toy.validation) "aab b" 2 "less" (Some 0) FNan FNan None (Some (FDec false 1 0)) None true)
    as (_ & H & _).
  - intros [_ E]. vm_compute in E. discriminate E.
  - intros [E _]. discriminate E.
  - exact H.
Defined.

(** ** The cells of the performance tables *)

Section cell_facts.

Lemma elem_of_index (df : DataFrame) (key : string * string) :
  key ∈ pd.index df <-> exists row, (key, row) ∈ df_rows df.
Proof.
  unfold pd.index. rewrite list_elem_of_fmap. split.
  - intros ([k row] & -> & Hin). by exists row.
  - intros [row Hin]. by exists (key, row).
Qed.

Lemma same_rows_refl (key : string * string) (df : DataFrame) :
  same_rows key df df.
Proof. done. Qed.

Lemma same_rows_trans (key : string * string) (df df' df'' : DataFrame) :
  same_rows key df df' -> same_rows key df' df'' -> same_rows key df df''.
Proof. intros H1 H2 row. unfold same_rows in *. by rewrite H2, H1. Qed.

Lemma same_rows_index (key : string * string) (df df' : DataFrame) :
  same_rows key df df' -> key ∈ pd.index df -> key ∈ pd.index df'.
Proof.
  intros Hsame [row Hin]%elem_of_index. apply elem_of_index.
  exists row. by apply Hsame.
Qed.

Lemma same_rows_cell (key : string * string) (df df' : DataFrame)
    (col : string) (v : cell) :
  same_rows key df df' -> cell_is df key col v -> cell_is df' key col v.
Proof. intros Hsame Hcell row Hin. by apply Hcell, Hsame. Qed.

(** The rows after an assignment through [.loc]. *)
Lemma loc_update_elsewhere (key k : string * string)
    (f : gmap string cell -> gmap string cell) (df : DataFrame)
    (row : gmap string cell) :
  k ≠ key -> (k, row) ∈ pd.loc_update key f df <-> (k, row) ∈ df_rows df.
Proof.
  intros Hne. unfold pd.loc_update. case_bool_decide as Hin.
  - rewrite list_elem_of_fmap. split.
    + intros ([k0 row0] & E & Hin0).
      destruct (bool_decide (k0 = key)) eqn:Hk0.
      * apply bool_decide_eq_true_1 in Hk0. injection E as -> _. done.
      * by injection E as -> ->.
    + intros Hin0. exists (k, row). split; [| done].
      by rewrite bool_decide_eq_false_2.
  - rewrite elem_of_app, list_elem_of_singleton. split; [| by left].
    intros [?|E]; [done |]. injection E as -> _. done.
Qed.

Lemma loc_update_at (key : string * string)
    (f : gmap string cell -> gmap string cell) (df : DataFrame)
    (row : gmap string cell) :
  (key, row) ∈ pd.loc_update key f df ->
  exists row0,
    row = f row0 /\ (key ∈ pd.index df -> (key, row0) ∈ df_rows df).
Proof.
  unfold pd.loc_update. case_bool_decide as Hin.
  - intros ([k0 row0] & E & Hin0)%list_elem_of_fmap.
    destruct (bool_decide (k0 = key)) eqn:Hk0.
    + apply bool_decide_eq_true_1 in Hk0. subst k0.
      injection E as ->. by exists row0.
    + apply bool_decide_eq_false_1 in Hk0. injection E as <- _. done.
  - intros [Hin0|E]%elem_of_app.
    + destruct Hin. apply elem_of_index. by exists row.
    + apply list_elem_of_singleton in E. injection E as ->. by exists ∅.
Qed.

Lemma index_loc_set_self (key : string * string) (col : string) (v : cell)
    (df : DataFrame) :
  key ∈ pd.index (pd.loc_set key col v df).
Proof. apply index_loc_set. by right. Qed.

Lemma index_loc_set_row_self (key : string * string)
    (series : gmap string cell) (df : DataFrame) :
  key ∈ pd.index (pd.loc_set_row key series df).
Proof. apply index_loc_set_row. by right. Qed.

Lemma same_rows_loc_set (key k : string * string) (col : string) (v : cell)
    (df : DataFrame) :
  k ≠ key -> same_rows k df (pd.loc_set key col v df).
Proof. intros Hne row. by apply loc_update_elsewhere. Qed.

Lemma same_rows_loc_set_row (key k : string * string)
    (series : gmap string cell) (df : DataFrame) :
  k ≠ key -> same_rows k df (pd.loc_set_row key series df).
Proof. intros Hne row. by apply loc_update_elsewhere. Qed.

Lemma cell_is_loc_set (key : string * string) (col : string) (v : cell)
    (df : DataFrame) :
  cell_is (pd.loc_set key col v df) key col v.
Proof.
  intros row (row0 & -> & _)%loc_update_at. apply lookup_insert_eq.
Qed.

Lemma cell_is_loc_set_col (key : string * string) (col col' : string)
    (v v' : cell) (df : DataFrame) :
  key ∈ pd.index df -> col' ≠ col ->
  cell_is df key col' v' -> cell_is (pd.loc_set key col v df) key col' v'.
Proof.
  intros Hin Hne Hcell row (row0 & -> & Hrow0)%loc_update_at.
  rewrite lookup_insert_ne by done. by apply Hcell, Hrow0.
Qed.

Lemma lookup_aligned (series : gmap string cell) (cols : list string)
    (col : string) :
  col ∈ cols ->
  (list_to_map ((fun c => (c, default NaN (series !! c))) <$> cols)
     : gmap string cell) !! col
  = Some (default NaN (series !! col)).
Proof.
  induction cols as [|c cols IH]; [by intros ?%elem_of_nil |].
  intros Hin. rewrite fmap_cons, list_to_map_cons.
  destruct (decide (col = c)) as [->|Hne]; [apply lookup_insert_eq |].
  rewrite lookup_insert_ne by done. apply IH.
  by apply elem_of_cons in Hin as [?|?].
Qed.

Lemma cell_is_loc_set_row (key : string * string) (series : gmap string cell)
    (df : DataFrame) (col : string) :
  col ∈ df_columns df ->
  cell_is (pd.loc_set_row key series df) key col
    (default NaN (series !! col)).
Proof.
  intros Hcol row (row0 & -> & _)%loc_update_at. by apply lookup_aligned.
Qed.

Lemma rows_new_frame (idx : list (string * string)) (cols : list string)
    (key : string * string) (row : gmap string cell) :
  (key, row) ∈ df_rows (pd.new_frame idx cols) -> row = ∅.
Proof.
  intros (k & E & _)%list_elem_of_fmap. by injection E as _ ->.
Qed.

Lemma rows_set_column (col : string) (v : cell) (df : DataFrame)
    (key : string * string) (row : gmap string cell) :
  (key, row) ∈ df_rows (pd.set_column col v df) ->
  exists row0, row = <[col := v]> row0 /\ (key, row0) ∈ df_rows df.
Proof.
  intros ([k row0] & E & Hin)%list_elem_of_fmap.
  injection E as -> ->. by exists row0.
Qed.

End cell_facts.

Section filled_facts.
Context {R S C : Type}.
Context `{!RecordingExtractor R, !SortingExtractor S, !Library R S}.
Context `{!Sorters R S, !Comparer S C, !Performance C}.

Lemma filled_same_rows (exhaustive_gt : bool) (karg_thresh : karg_thresh_t)
    (gt sorting : S) (sc : C) (key : string * string)
    (d1 d2 d3 d1' d2' d3' : DataFrame) :
  same_rows key d1 d1' -> same_rows key d2 d2' -> same_rows key d3 d3' ->
  filled exhaustive_gt karg_thresh gt sorting sc key d1 d2 d3 ->
  filled exhaustive_gt karg_thresh gt sorting sc key d1' d2' d3'.
Proof.
  intros H1 H2 H3
    (I1 & I2 & I3 & (p1 & Hp1 & C1) & (p2 & Hp2 & C2) & Cgt & Cso
     & (n1 & Hn1 & Cn1) & (n2 & Hn2 & Cn2) & Hex).
  split; [by eapply same_rows_index |].
  split; [by eapply same_rows_index |].
  split; [by eapply same_rows_index |].
  split.
  { exists p1. split; [done |]. intros col Hcol.
    eapply same_rows_cell; [exact H1 | by apply C1]. }
  split.
  { exists p2. split; [done |]. intros col Hcol.
    eapply same_rows_cell; [exact H2 | by apply C2]. }
  split; [by eapply same_rows_cell |].
  split; [by eapply same_rows_cell |].
  split; [exists n1; split; [done | by eapply same_rows_cell] |].
  split; [exists n2; split; [done | by eapply same_rows_cell] |].
  intros Hex'. destruct (Hex Hex') as [(n3 & Hn3 & Cn3) (n4 & Hn4 & Cn4)].
  split; [exists n3 | exists n4]; (split; [done | by eapply same_rows_cell]).
Qed.

End filled_facts.

(** Cells of [count_units] after the assignments of one turn. *)
Ltac cell_steps :=
  repeat first
    [ apply cell_is_loc_set
    | apply cell_is_loc_set_col;
        [apply index_loc_set_self || (apply index_loc_set; left) | discriminate |] ].

Ltac same_rows_steps :=
  repeat first
    [ apply same_rows_refl
    | eapply same_rows_trans; [| apply same_rows_loc_set; done] ].

Section fill_facts.
Context {R S C : Type}.
Context `{!RecordingExtractor R, !SortingExtractor S, !Library R S}.
Context `{!Sorters R S, !Comparer S C, !Performance C}.

(** One turn of the loop: the rows at its key are filled, the rows at the
    other keys are as they were. *)
Lemma fill_tables_cells (gts : gmap string S)
    (results : gmap (string * string) S)
    (exhaustive_gt : bool) (karg_thresh : karg_thresh_t)
    (F0 d1 d2 d3 : DataFrame) (k : string * string) (sc : C) (gt sorting : S)
    (fs : FS) :
  df_columns d1 = _perf_keys -> df_columns d2 = _perf_keys ->
  gts !! k.1 = Some gt ->
  results !! k = Some sorting ->
  reports exhaustive_gt karg_thresh sc ->
  exists d1' d2' d3',
    fill_tables gts results exhaustive_gt karg_thresh 1 2 3 [F0; d1; d2; d3]
      (k, sc) fs
    = (Ok [F0; d1'; d2'; d3'], fs)
    /\ df_columns d1' = _perf_keys /\ df_columns d2' = _perf_keys
    /\ filled exhaustive_gt karg_thresh gt sorting sc k d1' d2' d3'
    /\ forall k', k' ≠ k ->
         same_rows k' d1 d1' /\ same_rows k' d2 d2' /\ same_rows k' d3 d3'.
Proof.
  intros Hc1 Hc2 Hgt Hres ([p1 Hp1] & [p2 Hp2] & [n1 Hn1] & [n2 Hn2] & Hex).
  destruct k as [rec_name sorter_name]. cbn [fst] in Hgt.
  unfold fill_tables.
  erewrite bind_ok by (apply getitem_run; eassumption).
  erewrite bind_ok by (apply getitem_run; eassumption).
  erewrite bind_ok by (apply lift_run; eassumption). cbv zeta.
  erewrite bind_ok by (apply lift_run; eassumption). cbv zeta.
  erewrite bind_ok by (apply lift_run; eassumption). cbv zeta.
  erewrite bind_ok by (apply lift_run; eassumption). cbv zeta.
  destruct exhaustive_gt.
  - destruct (Hex eq_refl) as [[n3 Hn3] [n4 Hn4]].
    erewrite bind_ok by (apply lift_run; eassumption). cbv zeta.
    erewrite bind_ok by (apply lift_run; eassumption). cbv zeta.
    cbn [mutate alter list_alter].
    eexists _, _, _. split; [reflexivity |].
    split; [exact Hc1 |]. split; [exact Hc2 |]. split.
    + split; [apply index_loc_set_row_self |].
      split; [apply index_loc_set_row_self |].
      split; [apply index_loc_set_self |].
      split.
      { exists p1. split; [done |]. intros col Hcol.
        apply cell_is_loc_set_row. by rewrite Hc1. }
      split.
      { exists p2. split; [done |]. intros col Hcol.
        apply cell_is_loc_set_row. by rewrite Hc2. }
      split; [cell_steps |]. split; [cell_steps |].
      split; [exists n1; split; [done | cell_steps] |].
      split; [exists n2; split; [done | cell_steps] |].
      intros _. split; [exists n3 | exists n4]; (split; [done | cell_steps]).
    + intros k' Hne.
      split; [by apply same_rows_loc_set_row |].
      split; [by apply same_rows_loc_set_row |]. same_rows_steps.
  - cbn [mutate alter list_alter].
    eexists _, _, _. split; [reflexivity |].
    split; [exact Hc1 |]. split; [exact Hc2 |]. split.
    + split; [apply index_loc_set_row_self |].
      split; [apply index_loc_set_row_self |].
      split; [apply index_loc_set_self |].
      split.
      { exists p1. split; [done |]. intros col Hcol.
        apply cell_is_loc_set_row. by rewrite Hc1. }
      split.
      { exists p2. split; [done |]. intros col Hcol.
        apply cell_is_loc_set_row. by rewrite Hc2. }
      split; [cell_steps |]. split; [cell_steps |].
      split; [exists n1; split; [done | cell_steps] |].
      split; [exists n2; split; [done | cell_steps] |].
      intros E. discriminate E.
    + intros k' Hne.
      split; [by apply same_rows_loc_set_row |].
      split; [by apply same_rows_loc_set_row |]. same_rows_steps.
Qed.

Lemma fill_loop_cells (gts : gmap string S)
    (results : gmap (string * string) S)
    (exhaustive_gt : bool) (karg_thresh : karg_thresh_t)
    (items : list ((string * string) * C)) (F0 d1 d2 d3 : DataFrame)
    (fs : FS) :
  df_columns d1 = _perf_keys -> df_columns d2 = _perf_keys ->
  NoDup items.*1 ->
  (forall k sc, (k, sc) ∈ items ->
     (exists gt, gts !! k.1 = Some gt)
     /\ (exists sorting, results !! k = Some sorting)
     /\ reports exhaustive_gt karg_thresh sc) ->
  exists d1' d2' d3',
    for_fold items [F0; d1; d2; d3]
      (fill_tables gts results exhaustive_gt karg_thresh 1 2 3) fs
    = (Ok [F0; d1'; d2'; d3'], fs)
    /\ (forall k sc gt sorting,
          (k, sc) ∈ items -> gts !! k.1 = Some gt ->
          results !! k = Some sorting ->
          filled exhaustive_gt karg_thresh gt sorting sc k d1' d2' d3')
    /\ forall k, k ∉ items.*1 ->
         same_rows k d1 d1' /\ same_rows k d2 d2' /\ same_rows k d3 d3'.
Proof.
  revert d1 d2 d3.
  induction items as [|[k sc] items IH]; intros d1 d2 d3 Hc1 Hc2 Hnd Hitems.
  { exists d1, d2, d3. split; [done |]. split; [| done].
    intros k sc gt sorting Hin. by apply elem_of_nil in Hin. }
  rewrite fmap_cons in Hnd. apply NoDup_cons in Hnd as [Hk Hnd].
  destruct (Hitems k sc) as ([gt Hgt] & [sorting Hres] & Hrep); [left |].
  destruct (fill_tables_cells gts results exhaustive_gt karg_thresh F0
              d1 d2 d3 k sc gt sorting fs Hc1 Hc2 Hgt Hres Hrep)
    as (e1 & e2 & e3 & Hrun1 & Hc1' & Hc2' & Hfilled & Hother).
  destruct (IH e1 e2 e3 Hc1' Hc2' Hnd)
    as (d1' & d2' & d3' & Hrun & Hcells & Hsame).
  { intros k' sc' Hin. apply Hitems. by right. }
  exists d1', d2', d3'. split.
  { by rewrite for_fold_cons, (bind_ok _ _ _ _ _ Hrun1). }
  split.
  - intros k' sc' gt' sorting' Hin Hgt' Hres'.
    apply elem_of_cons in Hin as [Heq|Hin]; [| by eapply Hcells].
    injection Heq as -> ->.
    assert (gt' = gt) as -> by congruence.
    assert (sorting' = sorting) as -> by congruence.
    destruct (Hsame k Hk) as (S1 & S2 & S3).
    by eapply filled_same_rows.
  - intros k' Hk'. rewrite fmap_cons, not_elem_of_cons in Hk'.
    destruct Hk' as [Hne Hk'].
    destruct (Hother k' Hne) as (O1 & O2 & O3).
    destruct (Hsame k' Hk') as (S1 & S2 & S3).
    split; [by eapply same_rows_trans |].
    split; by eapply same_rows_trans.
Qed.

End fill_facts.

Section frames_facts.
Context {R S C : Type}.
Context `{!RecordingExtractor R, !SortingExtractor S, !Library R S}.
Context `{!Sorters R S, !Comparer S C, !Performance C}.

(** The four frames that [aggregate_performances_table] returns, row by
    row. *)
Lemma aggregate_performances_table_frames (study_folder : Path)
    (exhaustive_gt : bool) (karg_thresh : karg_thresh_t) (fs : FS)
    (ground_truths : gmap string S) (results : gmap (string * string) S)
    (folders : list (string * string * Path)) :
  (get_ground_truths study_folder fs).1 = Ok ground_truths ->
  collect_sorting_outputs (study_folder // "sorter_outputs") fs
  = (Ok results, fs) ->
  loop_over_folders (study_folder // "sorter_outputs") fs = (Ok folders, fs) ->
  (forall item, item ∈ folders -> has_run_log fs item ->
     exists run_time, run_time_of fs item = Ok run_time) ->
  map_Forall (fun key sorting =>
                exists sc, compared ground_truths key sorting = Ok sc
                           /\ reports exhaustive_gt karg_thresh sc) results ->
  exists rt ps pa cu,
    aggregate_performances_table study_folder exhaustive_gt karg_thresh fs
    = (Ok (<["count_units" := cu]>
             (<["perf_pooled_with_average" := pa]>
                (<["perf_pooled_with_sum" := ps]>
                   (<["run_times" := pd.run_times_frame rt]> ∅)))), fs)
    /\ collect_run_times study_folder fs = (Ok rt, fs)
    /\ (forall key sorting,
          results !! key = Some sorting ->
          exists gt sc,
            ground_truths !! key.1 = Some gt
            /\ compare_sorter_to_ground_truth gt sorting = Ok sc
            /\ filled exhaustive_gt karg_thresh gt sorting sc key ps pa cu)
    /\ (forall key row,
          results !! key = None ->
          ((key, row) ∈ df_rows ps -> row = ∅)
          /\ ((key, row) ∈ df_rows pa -> row = ∅)
          /\ ((key, row) ∈ df_rows cu -> row = blank_count_row exhaustive_gt)).
Proof.
  intros Hgts Hcollect Hloop Hlogs Hall.
  destruct (aggregate_sorting_comparison_run study_folder exhaustive_gt
              karg_thresh fs fs ground_truths results Hgts Hcollect)
    as (comparisons & Hagg & Hcomp).
  { intros k sorting Hk. destruct (Hall k sorting Hk) as (sc & E & _). eauto. }
  destruct (collect_run_times_run study_folder fs fs folders Hloop Hlogs)
    as (rt & Hrt & _).
  assert (get_ground_truths study_folder fs = (Ok ground_truths, fs)) as Hgts'.
  { apply run_eq; [exact Hgts | apply read_only_get_ground_truths]. }
  set (F0 := pd.run_times_frame rt).
  set (c0 := if exhaustive_gt
             then pd.set_column "num_bad" PyNone
                    (pd.set_column "num_false_positive" PyNone
                       (pd.new_frame (pd.index F0)
                          ["num_gt"; "num_sorter"; "num_well_detected";
                           "num_redundant"]))
             else pd.new_frame (pd.index F0)
                    ["num_gt"; "num_sorter"; "num_well_detected";
                     "num_redundant"]).
  destruct (fill_loop_cells ground_truths results exhaustive_gt karg_thresh
              (map_to_list comparisons) F0
              (pd.new_frame (pd.index F0) _perf_keys)
              (pd.new_frame (pd.index F0) _perf_keys) c0 fs)
    as (ps & pa & cu & Hfill & Hcells & Hsame);
    [reflexivity | reflexivity | apply NoDup_fst_map_to_list | |].
  { intros k sc Hin%elem_of_map_to_list. rewrite Hcomp in Hin.
    destruct (results !! k) as [sorting|] eqn:Hk; [|done].
    destruct (Hall k sorting Hk) as (sc' & E & Hrep).
    rewrite E in Hin. injection Hin as <-.
    split; [| split; [by exists sorting | exact Hrep]].
    unfold compared in E. destruct (ground_truths !! k.1) as [gt|]; [|done].
    by exists gt. }
  exists rt, ps, pa, cu. split.
  { unfold aggregate_performances_table.
    rewrite (bind_ok _ _ _ _ _ Hagg), (bind_ok _ _ _ _ _ Hgts'),
      (bind_ok _ _ _ _ _ Hcollect), (bind_ok _ _ _ _ _ Hrt).
    cbn [alloc length app]. cbv zeta.
    change ([pd.run_times_frame rt] !!! 0%nat) with F0.
    change ([pd.run_times_frame rt; pd.new_frame (pd.index F0) _perf_keys]
              !!! 0%nat) with F0.
    change ([pd.run_times_frame rt; pd.new_frame (pd.index F0) _perf_keys;
             pd.new_frame (pd.index F0) _perf_keys] !!! 0%nat) with F0.
    assert (forall h1 : Heap,
              h1 = [F0; pd.new_frame (pd.index F0) _perf_keys;
                    pd.new_frame (pd.index F0) _perf_keys; c0] ->
              for_fold (map_to_list comparisons) h1
                (fill_tables ground_truths results exhaustive_gt karg_thresh
                   1 2 3) fs = (Ok [F0; ps; pa; cu], fs)) as Hfill'.
    { by intros h1 ->. }
    rewrite (bind_ok _ _ fs fs [F0; ps; pa; cu]).
    - unfold mret, M_ret. by rewrite !fmap_insert, fmap_empty.
    - apply Hfill'. subst c0. by destruct exhaustive_gt. }
  split; [exact Hrt |]. split.
  - intros key sorting Hk.
    destruct (Hall key sorting Hk) as (sc & E & _).
    unfold compared in E.
    destruct (ground_truths !! key.1) as [gt|] eqn:Hgt; [| done].
    cbn [of_option mbind result_bind] in E.
    exists gt, sc. split; [done |]. split; [exact E |].
    eapply Hcells; [| exact Hgt | exact Hk].
    apply elem_of_map_to_list. rewrite Hcomp, Hk. unfold compared.
    rewrite Hgt. cbn [of_option mbind result_bind]. by rewrite E.
  - intros key row Hk.
    destruct (Hsame key) as (S1 & S2 & S3).
    { intros ([k sc] & -> & Hin%elem_of_map_to_list)%list_elem_of_fmap.
      rewrite Hcomp in Hin. cbn [fst] in Hk. by rewrite Hk in Hin. }
    split; [| split].
    + intros Hin%S1. by eapply rows_new_frame.
    + intros Hin%S2. by eapply rows_new_frame.
    + intros Hin%S3. subst c0. unfold blank_count_row.
      destruct exhaustive_gt.
      * apply rows_set_column in Hin as (row1 & -> & Hin).
        apply rows_set_column in Hin as (row0 & -> & Hin).
        by apply rows_new_frame in Hin as ->.
      * by eapply rows_new_frame.
Qed.

End frames_facts.

(** X14.  Under the conditions under which the tables are made, the row of
    every collected output holds what its comparison reports: in the two
    performance tables the value of each key of [_perf_keys] in the
    performance of that pooling, [NaN] for a key the performance lacks; in
    [count_units] the number of units of the ground truth and of the output
    and the counts of the comparison.  No later turn of the loop changes
    them. *)
Theorem aggregate_performances_table_cells {R S C : Type}
    `{!RecordingExtractor R, !SortingExtractor S, !Library R S}
    `{!Sorters R S, !Comparer S C, !Performance C}
    (study_folder : Path) (exhaustive_gt : bool)
    (karg_thresh : karg_thresh_t) (fs : FS)
    (ground_truths : gmap string S) (results : gmap (string * string) S)
    (folders : list (string * string * Path)) :
  (get_ground_truths study_folder fs).1 = Ok ground_truths ->
  collect_sorting_outputs (study_folder // "sorter_outputs") fs
  = (Ok results, fs) ->
  loop_over_folders (study_folder // "sorter_outputs") fs = (Ok folders, fs) ->
  (forall item, item ∈ folders -> has_run_log fs item ->
     exists run_time, run_time_of fs item = Ok run_time) ->
  map_Forall (fun key sorting =>
                exists sc, compared ground_truths key sorting = Ok sc
                           /\ reports exhaustive_gt karg_thresh sc) results ->
  exists out_dataframes perf_pooled_with_sum perf_pooled_with_average
         count_units,
    aggregate_performances_table study_folder exhaustive_gt karg_thresh fs
    = (Ok out_dataframes, fs)
    /\ out_dataframes !! "perf_pooled_with_sum" = Some perf_pooled_with_sum
    /\ out_dataframes !! "perf_pooled_with_average"
       = Some perf_pooled_with_average
    /\ out_dataframes !! "count_units" = Some count_units
    /\ forall key sorting,
         results !! key = Some sorting ->
         exists gt_sorting comp,
           ground_truths !! key.1 = Some gt_sorting
           /\ compare_sorter_to_ground_truth gt_sorting sorting = Ok comp
           /\ filled exhaustive_gt karg_thresh gt_sorting sorting comp key
                perf_pooled_with_sum perf_pooled_with_average count_units.
Proof.
  intros Hgts Hcollect Hloop Hlogs Hall.
  destruct (aggregate_performances_table_frames study_folder exhaustive_gt
              karg_thresh fs ground_truths results folders
              Hgts Hcollect Hloop Hlogs Hall)
    as (rt & ps & pa & cu & Hrun & _ & Hcells & _).
  eexists _, ps, pa, cu. split; [exact Hrun |].
  split; [by do 2 (rewrite lookup_insert_ne by done); rewrite lookup_insert_eq |].
  split; [by rewrite lookup_insert_ne, lookup_insert_eq |].
  split; [apply lookup_insert_eq | exact Hcells].
Qed.

Lemma aggregate_performances_table_cells_witness :
  exists out_dataframes count_units,
    aggregate_performances_table Toy.study true () Toy.sorted_fs
    = (Ok out_dataframes, Toy.sorted_fs)
    /\ out_dataframes !! "count_units" = Some count_units
    /\ ("a", "s") ∈ pd.index count_units
    /\ cell_is count_units ("a", "s") "num_gt" (Int 2)
    /\ cell_is count_units ("a", "s") "num_bad" (Int 0).
Proof.
  destruct (aggregate_performances_table_cells (Sorters0 := Toy.sorters)
              (Comparer0 := Toy.comparer) (Performance0 := Toy.performance)
              Toy.study true () Toy.sorted_fs Toy.gts_two Toy.results_two
              (Toy.output_folders Toy.outputs Toy.sorted_fs))
    as (out & ps & pa & cu & Hrun & _ & _ & Hcu & Hcells).
  - vm_compute. reflexivity.
  - apply run_eq; [vm_compute; reflexivity |].
    apply toy_collect_sorting_outputs_read_only.
  - reflexivity.
  - apply logs_parse_spec. vm_compute. reflexivity.
  - apply map_Forall_insert_2; [| apply map_Forall_insert_2;
                                   [| apply map_Forall_empty]];
      (eexists; split; [reflexivity | apply toy_reports]).
  - exists out, cu. split; [exact Hrun |]. split; [exact Hcu |].
    destruct (Hcells ("a", "s") "aab b") as (gt & sc & Hgt & _ & Hfilled);
      [vm_compute; reflexivity |].
    destruct Hfilled as (_ & _ & Hin & _ & _ & Cgt & _ & _ & _ & Hex).
    split; [exact Hin |]. split.
    + vm_compute in Hgt. injection Hgt as <-. exact Cgt.
    + destruct (Hex eq_refl) as [_ (n & Hn & Cn)].
      vm_compute in Hn. injection Hn as <-. exact Cn.
Defined.

(** X15.  The loop of [aggregate_performances_table] leaves alone what it
    has no output for.  [run_times] is returned as it was made from the run
    times.  A pair that has a run time and no collected output keeps the
    rows the tables were created with: all [NaN] in the two performance
    tables, and in [count_units] all [NaN] but for [None] in
    [num_false_positive] and [num_bad] when [exhaustive_gt] holds. *)
Theorem aggregate_performances_table_blank_rows {R S C : Type}
    `{!RecordingExtractor R, !SortingExtractor S, !Library R S}
    `{!Sorters R S, !Comparer S C, !Performance C}
    (study_folder : Path) (exhaustive_gt : bool)
    (karg_thresh : karg_thresh_t) (fs : FS)
    (ground_truths : gmap string S) (results : gmap (string * string) S)
    (folders : list (string * string * Path)) :
  (get_ground_truths study_folder fs).1 = Ok ground_truths ->
  collect_sorting_outputs (study_folder // "sorter_outputs") fs
  = (Ok results, fs) ->
  loop_over_folders (study_folder // "sorter_outputs") fs = (Ok folders, fs) ->
  (forall item, item ∈ folders -> has_run_log fs item ->
     exists run_time, run_time_of fs item = Ok run_time) ->
  map_Forall (fun key sorting =>
                exists sc, compared ground_truths key sorting = Ok sc
                           /\ reports exhaustive_gt karg_thresh sc) results ->
  exists out_dataframes run_times perf_pooled_with_sum
         perf_pooled_with_average count_units,
    aggregate_performances_table study_folder exhaustive_gt karg_thresh fs
    = (Ok out_dataframes, fs)
    /\ collect_run_times study_folder fs = (Ok run_times, fs)
    /\ out_dataframes !! "run_times" = Some (pd.run_times_frame run_times)
    /\ out_dataframes !! "perf_pooled_with_sum" = Some perf_pooled_with_sum
    /\ out_dataframes !! "perf_pooled_with_average"
       = Some perf_pooled_with_average
    /\ out_dataframes !! "count_units" = Some count_units
    /\ forall key row,
         results !! key = None ->
         ((key, row) ∈ df_rows perf_pooled_with_sum -> row = ∅)
         /\ ((key, row) ∈ df_rows perf_pooled_with_average -> row = ∅)
         /\ ((key, row) ∈ df_rows count_units ->
             row = blank_count_row exhaustive_gt).
Proof.
  intros Hgts Hcollect Hloop Hlogs Hall.
  destruct (aggregate_performances_table_frames study_folder exhaustive_gt
              karg_thresh fs ground_truths results folders
              Hgts Hcollect Hloop Hlogs Hall)
    as (rt & ps & pa & cu & Hrun & Hrt & _ & Hblank).
  eexists _, rt, ps, pa, cu. split; [exact Hrun |]. split; [exact Hrt |].
  split; [by do 3 (rewrite lookup_insert_ne by done); rewrite lookup_insert_eq |].
  split; [by do 2 (rewrite lookup_insert_ne by done); rewrite lookup_insert_eq |].
  split; [by rewrite lookup_insert_ne, lookup_insert_eq |].
  split; [apply lookup_insert_eq | exact Hblank].
Qed.

Lemma aggregate_performances_table_blank_rows_witness :
  exists out_dataframes run_times,
    aggregate_performances_table Toy.study false () Toy.sorted_fs
    = (Ok out_dataframes, Toy.sorted_fs)
    /\ collect_run_times Toy.study Toy.sorted_fs = (Ok run_times, Toy.sorted_fs)
    /\ out_dataframes !! "run_times" = Some (pd.run_times_frame run_times).
Proof.
  destruct (aggregate_performances_table_blank_rows (Sorters0 := Toy.sorters)
              (Comparer0 := Toy.comparer) (Performance0 := Toy.performance)
              Toy.study false () Toy.sorted_fs Toy.gts_two Toy.results_two
              (Toy.output_folders Toy.outputs Toy.sorted_fs))
    as (out & rt & ps & pa & cu & Hrun & Hrt & Hout & _).
  - vm_compute. reflexivity.
  - apply run_eq; [vm_compute; reflexivity |].
    apply toy_collect_sorting_outputs_read_only.
  - reflexivity.
  - apply logs_parse_spec. vm_compute. reflexivity.
  - apply map_Forall_insert_2; [| apply map_Forall_insert_2;
                                   [| apply map_Forall_empty]];
      (eexists; split; [reflexivity | apply toy_reports]).
  - exists out, rt. exact (conj Hrun (conj Hrt Hout)).
Defined.

(** ** The first line of a run log *)

Section first_line_facts.
Import PyStr.

Lemma universal_newlines_first_line (line rest : string) :
  contains CR line = false ->
  universal_newlines (line +:+ String LF rest)
  = line +:+ String LF (universal_newlines rest).
Proof.
  induction line as [|c line IH]; intros Hline.
  - by rewrite !append_nil_l, universal_newlines_cons.
  - cbn [contains] in Hline. apply orb_false_elim in Hline as [Hc Hline].
    rewrite !append_cons, universal_newlines_cons. unfold is_CR.
    by rewrite Hc, IH.
Qed.

Lemma readline_first_line (line rest : string) :
  contains LF line = false ->
  readline (line +:+ String LF rest) = line +:+ String LF "".
Proof.
  induction line as [|c line IH]; intros Hline; [done |].
  cbn [contains] in Hline. apply orb_false_elim in Hline as [Hc Hline].
  rewrite !append_cons. cbn [readline]. unfold is_LF.
  by rewrite Hc, IH.
Qed.

End first_line_facts.

(** X16.  Of a run log, [collect_run_times] reads the first line only: when
    the log starts with [line] and a newline, the run time is the float of
    [line] and its newline less every ['run_time:'], whatever follows; when
    that is no float, the turn raises [ValueError]. *)
Theorem collect_run_time_first_line
    (run_times : list (string * string * pyfloat))
    (rec_name sorter_name : string) (output_folder : Path) (fs : FS)
    (line rest : string) :
  one_line line ->
  fs !! (output_folder // "run_log.txt")
  = Some (File (line +:+ String PyStr.LF rest)) ->
  collect_run_time run_times (rec_name, sorter_name, output_folder) fs
  = match PyFloat.float_of_string
            (PyStr.replace "run_time:" "" (line +:+ String PyStr.LF "")) with
    | Some run_time =>
        (Ok (run_times ++ [(rec_name, sorter_name, run_time)])%list, fs)
    | None => (Raise (ValueError "could not convert string to float"), fs)
    end.
Proof.
  intros [HLF HCR] Hlog. rewrite collect_run_time_run.
  rewrite decide_True by (unfold has_run_log; cbn [snd]; by rewrite Hlog).
  unfold run_time_of. cbn [fst snd]. rewrite Hlog.
  rewrite universal_newlines_first_line, readline_first_line by done.
  by destruct (PyFloat.float_of_string _).
Qed.

Lemma collect_run_time_first_line_witness :
  collect_run_time [] ("a", "s", Toy.out_a)
    (<[Toy.out_a // "run_log.txt"
       := File ("run_time: 1.5" +:+ String PyStr.LF "killed")]> Toy.cwd)
  = (Ok [("a", "s", FDec false 15 (-1))],
     <[Toy.out_a // "run_log.txt"
       := File ("run_time: 1.5" +:+ String PyStr.LF "killed")]> Toy.cwd).
Proof.
  rewrite (collect_run_time_first_line [] "a" "s" Toy.out_a _
             "run_time: 1.5" "killed").
  - reflexivity.
  - split; reflexivity.
  - apply lookup_insert_eq.
Defined.

(** ** What the readers of a study depend on *)

Section locality_facts.
Context {R S : Type}.
Context `{!RecordingExtractor R, !SortingExtractor S, !Library R S}.

Lemma for_fold_load_all {V} (load : string -> result V)
    (body : gmap string V -> string -> M (gmap string V))
    (rec_names : list string) (acc : gmap string V) (fs : FS) :
  (forall acc rec_name,
     body acc rec_name fs
     = match load rec_name with
       | Ok v => (Ok (<[rec_name := v]> acc), fs)
       | Raise e => (Raise e, fs)
       end) ->
  for_fold rec_names acc body fs = (load_all load rec_names acc, fs).
Proof.
  intros Hbody. revert acc.
  induction rec_names as [|n names IH]; intros acc; [done |].
  rewrite for_fold_cons, bind_run, Hbody. cbn [load_all].
  destruct (load n) as [v|e]; [| done]. apply IH.
Qed.

Lemma load_all_ext {V} (load1 load2 : string -> result V)
    (rec_names : list string) (acc : gmap string V) :
  (forall rec_name, rec_name ∈ rec_names ->
     load1 rec_name = load2 rec_name) ->
  load_all load1 rec_names acc = load_all load2 rec_names acc.
Proof.
  revert acc.
  induction rec_names as [|n names IH]; intros acc Hext; [done |].
  cbn [load_all]. rewrite Hext by left.
  destruct (load2 n); [| done]. apply IH. intros m Hm. apply Hext. by right.
Qed.

Lemma get_rec_names_pure (sf : Path) (fs : FS) :
  get_rec_names sf fs
  = (text ← read_file fs (sf // "names.txt"); Ok (index_of text), fs).
Proof.
  unfold get_rec_names. rewrite bind_run, read_text_run.
  by destruct (read_file fs _).
Qed.

Lemma get_ground_truths_pure (sf : Path) (fs : FS) :
  get_ground_truths (S := S) sf fs
  = (text ← read_file fs (sf // "names.txt");
     load_all (stored_ground_truth R sf fs) (index_of text) ∅, fs).
Proof.
  unfold get_ground_truths. rewrite bind_run, get_rec_names_pure.
  destruct (read_file fs _) as [text|e]; [| done].
  cbn [mbind result_bind]. apply for_fold_load_all.
  intros acc n. apply ground_truth_turn.
Qed.

Lemma get_recordings_pure (sf : Path) (fs : FS) :
  get_recordings (R := R) sf fs
  = (text ← read_file fs (sf // "names.txt");
     load_all (stored_recording S sf fs) (index_of text) ∅, fs).
Proof.
  unfold get_recordings. rewrite bind_run, get_rec_names_pure.
  destruct (read_file fs _) as [text|e]; [| done].
  cbn [mbind result_bind]. apply for_fold_load_all.
  intros acc n. apply recording_turn.
Qed.

Lemma read_file_same (fs1 fs2 : FS) (p : Path) :
  fs1 !! p = fs2 !! p -> read_file fs1 p = read_file fs2 p.
Proof. unfold read_file. by intros ->. Qed.

Lemma protected_entry_path (sf : Path) (n : string) (p : Path) :
  p ∈ entry_paths sf n -> protected sf p.
Proof.
  intros Hin%elem_of_entry_paths.
  unfold raw_path, prb_path, json_path, npz_path in Hin. unfold protected.
  destruct Hin as [->|[->|[->| ->]]];
    [left | left | left | right; left]; apply under_pjoin.
Qed.

Lemma read_file_ok (fs : FS) (p : Path) (text : string) :
  read_file fs p = Ok text -> fs !! p = Some (File text).
Proof.
  unfold read_file. destruct (fs !! p) as [[|text']|]; [done | | done].
  by intros [= ->].
Qed.

(** A file with a plain name in [raw_files] or [ground_truth] is read from
    the study. *)
Lemma read_named_same_study (sf : Path) (fs1 fs2 : FS)
    (folder n ext : string) :
  same_study sf fs1 fs2 ->
  folder = "raw_files" \/ folder = "ground_truth" ->
  plain_name n ->
  PyStr.contains os.SEP ext = false -> PyStr.contains os.NUL ext = false ->
  (3 <= String.length ext)%nat ->
  read_named fs1 (sf // folder) (n +:+ ext)
  = read_named fs2 (sf // folder) (n +:+ ext).
Proof.
  intros Hsame Hfolder Hn Esep Enul Hlen. unfold read_named.
  rewrite !locate_file by done.
  assert (forall p, under (sf // folder) p -> protected sf p) as Hprot.
  { intros p Hp. by destruct Hfolder as [-> | ->]; [left | right; left]. }
  rewrite <- (Hsame (sf // folder)) by (by apply Hprot).
  destruct (fs1 !! (sf // folder)) as [[]|]; [| done | done].
  cbn [mbind result_bind]. apply read_file_same, Hsame, Hprot, under_pjoin.
Qed.

Lemma readers_same_study (sf : Path) (fs1 fs2 : FS) :
  same_study sf fs1 fs2 ->
  plain_index sf fs2 ->
  (get_rec_names sf fs1).1 = (get_rec_names sf fs2).1
  /\ (get_recordings (R := R) sf fs1).1 = (get_recordings sf fs2).1
  /\ (get_ground_truths (S := S) sf fs1).1 = (get_ground_truths sf fs2).1.
Proof.
  intros Hsame Hplain.
  assert (read_file fs1 (sf // "names.txt")
          = read_file fs2 (sf // "names.txt")) as Hnames.
  { apply read_file_same, Hsame. right. by right. }
  rewrite !get_rec_names_pure, !get_recordings_pure, !get_ground_truths_pure.
  cbn [fst]. rewrite Hnames.
  split; [done |].
  destruct (read_file fs2 (sf // "names.txt")) as [text|e] eqn:E;
    [| done].
  apply read_file_ok, Hplain in E.
  cbn [mbind result_bind]. split.
  - apply load_all_ext. intros n Hn.
    assert (plain_name n) as Hpn by (by eapply Forall_forall).
    unfold stored_recording.
    by rewrite !(read_named_same_study sf fs1 fs2 "raw_files" n)
      by (done || by left || (cbn; lia)).
  - apply load_all_ext. intros n Hn.
    assert (plain_name n) as Hpn by (by eapply Forall_forall).
    unfold stored_ground_truth.
    by rewrite !(read_named_same_study sf fs1 fs2 "ground_truth" n)
      by (done || by right || (cbn; lia)).
Qed.

Lemma plain_index_same (sf : Path) (fs1 fs2 : FS) :
  same_study sf fs1 fs2 -> plain_index sf fs1 -> plain_index sf fs2.
Proof.
  intros Hsame Hplain text E. apply Hplain. rewrite Hsame; [done |].
  right. by right.
Qed.

End locality_facts.

(** X17.  For a study whose index holds plain names (no ["/"], no null
    character), what [get_rec_names], [get_recordings] and
    [get_ground_truths] return or raise depends on [names.txt], [raw_files/]
    and [ground_truth/] only: on two file systems that agree there, they do
    the same. *)
Theorem readers_depend_on_the_study_only {R S : Type}
    `{!RecordingExtractor R, !SortingExtractor S, !Library R S}
    (study_folder : Path) (fs1 fs2 : FS) :
  same_study study_folder fs1 fs2 ->
  plain_index study_folder fs1 ->
  (get_rec_names study_folder fs1).1 = (get_rec_names study_folder fs2).1
  /\ (get_recordings (R := R) study_folder fs1).1
     = (get_recordings study_folder fs2).1
  /\ (get_ground_truths (S := S) study_folder fs1).1
     = (get_ground_truths study_folder fs2).1.
Proof.
  intros Hsame Hplain. apply readers_same_study; [done |].
  by eapply plain_index_same.
Qed.

Lemma readers_depend_on_the_study_only_witness :
  (get_ground_truths (S := string) Toy.study Toy.study_fs).1
  = (get_ground_truths Toy.study
       (<[Toy.study // "notes.txt" := File "draft"]> Toy.study_fs)).1.
Proof.
  apply (readers_depend_on_the_study_only (R := Toy.recording) Toy.study
           Toy.study_fs
           (<[Toy.study // "notes.txt" := File "draft"]> Toy.study_fs)).
  - intros p Hp. rewrite lookup_insert_ne; [done |].
    intros <-. destruct Hp as [Hu|[Hu|E]].
    + apply under_eq in Hu; [| done]. by apply pjoin_inj in Hu as [_ ?].
    + apply under_eq in Hu; [| done]. by apply pjoin_inj in Hu as [_ ?].
    + by apply pjoin_inj in E as [_ ?].
  - exact toy_plain_index.
Defined.

(** X18.  Running the sorters does not change what the study reads back:
    when the index of the study holds plain names and the functions of
    [spiketoolkit.sorters] change nothing outside the folder they are given,
    [get_rec_names], [get_recordings] and [get_ground_truths] do after
    [run_study_sorters], whether it returned or raised, what they did
    before. *)
Theorem study_reads_the_same_after_sorting {R S : Type}
    `{!RecordingExtractor R, !SortingExtractor S, !Library R S, !Sorters R S}
    (study_folder : Path) (sorter_list : list string)
    (sorter_params : sorter_params_t) (mode engine : string)
    (engine_kargs : engine_kargs_t) (fs : FS) :
  sorters_stay_below ->
  plain_index study_folder fs ->
  let fs' := (run_study_sorters study_folder sorter_list sorter_params mode
                engine engine_kargs fs).2 in
  (get_rec_names study_folder fs').1 = (get_rec_names study_folder fs).1
  /\ (get_recordings (R := R) study_folder fs').1
     = (get_recordings study_folder fs).1
  /\ (get_ground_truths (S := S) study_folder fs').1
     = (get_ground_truths study_folder fs).1.
Proof.
  intros Hstay Hplain fs'. apply readers_same_study; [| done].
  intros p Hp.
  apply (writes_below_run_study_sorters study_folder sorter_list
           sorter_params mode engine engine_kargs Hstay).
  by apply protected_outside.
Qed.

Lemma study_reads_the_same_after_sorting_witness :
  (get_rec_names Toy.study Toy.sorted_fs).1
  = (get_rec_names Toy.study Toy.study_fs).1
  /\ (get_ground_truths (S := string) Toy.study Toy.sorted_fs).1
     = (get_ground_truths Toy.study Toy.study_fs).1.
Proof.
  destruct (study_reads_the_same_after_sorting (Sorters0 := Toy.sorters)
              Toy.study ["s"] () "keep" "loop" () Toy.study_fs
              toy_sorters_stay_below toy_plain_index)
    as (H1 & _ & H3).
  exact (conj H1 H3).
Defined.

(** ** A study beside another *)

Section beside_facts.
Context {R S : Type}.
Context `{!RecordingExtractor R, !SortingExtractor S, !Library R S}.

(** Two folders of which none is in the other have nothing in common. *)
Lemma under_both (a b p : Path) :
  under a p -> under b p -> under a b \/ under b a.
Proof. apply prefix_weak_total. Qed.

Lemma preserves_assert (P : Path -> Prop) (c : bool) (msg : string) :
  preserves P (assert c msg).
Proof. by destruct c. Qed.

(** With plain names, [setup_comparison_study] changes nothing that is
    neither in [study_folder] nor above it. *)
Lemma preserves_setup_comparison_study (sf : Path)
    (gt_dict : list (string * (R * S))) :
  Forall plain_name gt_dict.*1 ->
  preserves (fun p => ~ under sf p /\ ~ under p sf)
    (setup_comparison_study sf gt_dict).
Proof.
  intros Hplain. unfold setup_comparison_study.
  apply preserves_bind;
    [apply read_only_preserves, read_only_path_exists | intros there].
  apply preserves_bind; [apply preserves_assert | intros _].
  apply preserves_bind; [apply preserves_makedirs; tauto | intros _].
  apply preserves_bind.
  { apply preserves_makedirs. intros q [Hout Hnot] Hq.
    by apply Hnot, (under_child_outside sf q "raw_files"). }
  intros _. apply preserves_bind.
  { apply preserves_makedirs. intros q [Hout Hnot] Hq.
    by apply Hnot, (under_child_outside sf q "ground_truth"). }
  intros _. eapply preserves_weaken; [| by apply preserves_study_writes].
  tauto.
Qed.

Lemma protected_under (sf p : Path) : protected sf p -> under sf p.
Proof.
  intros [Hu|[Hu| ->]]; [| | apply under_pjoin];
    (eapply under_trans; [apply under_pjoin | exact Hu]).
Qed.

End beside_facts.

(** X19.  A study is not touched by the making or the sorting of another:
    when neither of [study_a] and [study_b] is in the other and the index
    of [study_a] holds plain names, [get_rec_names], [get_recordings] and
    [get_ground_truths] give for [study_a] after [setup_comparison_study]
    on [study_b] with plain recording names, whether it returned or raised,
    what they gave before; and the same after [run_study_sorters] on
    [study_b], when the functions of [spiketoolkit.sorters] change nothing
    outside the folder they are given. *)
Theorem other_studies_are_left_alone {R S : Type}
    `{!RecordingExtractor R, !SortingExtractor S, !Library R S, !Sorters R S}
    (study_a study_b : Path) (gt_dict : list (string * (R * S)))
    (sorter_list : list string) (sorter_params : sorter_params_t)
    (mode engine : string) (engine_kargs : engine_kargs_t) (fs : FS) :
  ~ under study_a study_b ->
  ~ under study_b study_a ->
  plain_index study_a fs ->
  (Forall plain_name gt_dict.*1 ->
   let fs' := (setup_comparison_study study_b gt_dict fs).2 in
   (get_rec_names study_a fs').1 = (get_rec_names study_a fs).1
   /\ (get_recordings (R := R) study_a fs').1 = (get_recordings study_a fs).1
   /\ (get_ground_truths (S := S) study_a fs').1
      = (get_ground_truths study_a fs).1)
  /\ (sorters_stay_below ->
      let fs' := (run_study_sorters study_b sorter_list sorter_params mode
                    engine engine_kargs fs).2 in
      (get_rec_names study_a fs').1 = (get_rec_names study_a fs).1
      /\ (get_recordings (R := R) study_a fs').1
         = (get_recordings study_a fs).1
      /\ (get_ground_truths (S := S) study_a fs').1
         = (get_ground_truths study_a fs).1).
Proof.
  intros Hab Hba Hindex.
  assert (forall p q, protected study_a p -> under study_b q -> under q p ->
            False) as Hfar.
  { intros p q Hp%protected_under Hq Hqp.
    destruct (under_both study_a study_b p Hp); [| done | done].
    by eapply under_trans. }
  split.
  - intros Hplain fs'. apply readers_same_study; [| done]. intros p Hp.
    apply preserves_setup_comparison_study; [done |]. split.
    + intros Hu. by eapply (Hfar p study_b).
    + intros Hu. apply Hab. eapply under_trans; [| exact Hu].
      by apply protected_under.
  - intros Hstay fs'. apply readers_same_study; [| done]. intros p Hp.
    apply (writes_below_run_study_sorters study_b sorter_list sorter_params
             mode engine engine_kargs Hstay).
    intros Hu. eapply (Hfar p (study_b // "sorter_outputs")); [done | | done].
    apply under_pjoin.
Qed.

Lemma other_studies_are_left_alone_witness :
  (get_ground_truths (S := string) Toy.study
     (setup_comparison_study ["other"] Toy.gt_two Toy.study_fs).2).1
  = (get_ground_truths Toy.study Toy.study_fs).1.
Proof.
  destruct (other_studies_are_left_alone (Sorters0 := Toy.sorters) Toy.study
              ["other"] Toy.gt_two ["s"] () "keep" "loop" () Toy.study_fs)
    as [H _].
  - intros [k E]. discriminate E.
  - intros [k E]. discriminate E.
  - exact toy_plain_index.
  - destruct H as (_ & _ & H); [repeat constructor | exact H].
Defined.

(** ** The locations [_mountainsort4] gives to a recording without *)

Import (hints) ToyMs4.

Section location_facts.
Context {Rec : Type} `{!ChannelRecording Rec}.

Lemma snd_enumerate {A} (l : list A) : (enumerate l).*2 = l.
Proof.
  unfold enumerate. rewrite fmap_imap.
  rewrite (imap_ext _ (fun _ x => x)) by done.
  induction l as [|x l IH]; [done |]. cbn [imap]. f_equal.
  rewrite (imap_ext _ (fun _ x => x)) by done. exact IH.
Qed.

Lemma elem_of_enumerate {A} (l : list A) (i : nat) (x : A) :
  l !! i = Some x -> (Z.of_nat i, x) ∈ enumerate l.
Proof.
  intros Hi. unfold enumerate. apply elem_of_lookup_imap. by exists i, x.
Qed.

Lemma locations_other_channel (l : list (Z * Z)) (recording : Rec)
    (chan : Z) (name : string) :
  properties_are_kept Rec ->
  chan ∉ l.*2 \/ name ≠ "location" ->
  getChannelProperty (foldl set_location recording l) chan name
  = getChannelProperty recording chan name.
Proof.
  intros (_ & Hother & _) Hfree. revert recording.
  induction l as [|[i c] l IH]; intros recording; [done |].
  cbn [foldl]. rewrite IH.
  - apply Hother. intros E. injection E as -> ->.
    destruct Hfree as [Hfree|Hfree]; [| done].
    apply Hfree. rewrite fmap_cons. left.
  - destruct Hfree as [Hfree|Hfree]; [left | by right].
    intros Hin. apply Hfree. rewrite fmap_cons. by right.
Qed.

Lemma locations_channels (l : list (Z * Z)) (recording : Rec) :
  properties_are_kept Rec ->
  getChannelIds (foldl set_location recording l) = getChannelIds recording.
Proof.
  intros (_ & _ & Hids). revert recording.
  induction l as [|[i c] l IH]; intros recording; [done |].
  cbn [foldl]. rewrite IH. apply Hids.
Qed.

Lemma locations_set (l : list (Z * Z)) (recording : Rec) (i chan : Z) :
  properties_are_kept Rec ->
  NoDup l.*2 -> (i, chan) ∈ l ->
  getChannelProperty (foldl set_location recording l) chan "location"
  = Some [0; i].
Proof.
  intros Hkept Hnd Hin. revert recording.
  induction l as [|[j c] l IH]; intros recording.
  { by apply elem_of_nil in Hin. }
  rewrite fmap_cons in Hnd. apply NoDup_cons in Hnd as [Hc Hnd].
  cbn [foldl]. apply elem_of_cons in Hin as [E|Hin].
  - injection E as <- <-.
    rewrite locations_other_channel by (done || by left).
    apply Hkept.
  - by apply IH.
Qed.

End location_facts.

(** X20.  A recording that comes out of the preprocessing without a
    ['location'] property reaches the sorter with one: [_mountainsort4] puts
    its channels in a line, the channel at position [i] of its channel ids at
    [[0, i]], and leaves every other property as it is. *)
Theorem mountainsort4_default_locations {Rec Srt : Type}
    `{!ChannelRecording Rec, !MountainSort Rec Srt}
    (recording prepared : Rec)
    (detect_sign adjacency_radius : number) (freq_min : option number)
    (freq_max : number) (whiten : bool)
    (clip_size detect_threshold detect_interval : number)
    (noise_overlap_threshold : option number) :
  properties_are_kept Rec ->
  have_ml_ms4alg = true ->
  preprocessed recording freq_min freq_max whiten = Ok prepared ->
  "location" ∉ getChannelPropertyNames prepared ->
  NoDup (getChannelIds prepared) ->
  exists located,
    _mountainsort4 recording detect_sign adjacency_radius freq_min freq_max
      whiten clip_size detect_threshold detect_interval
      noise_overlap_threshold
    = ms4_of_result
        (sorting ← ms4alg_mountainsort4 located detect_sign adjacency_radius
                     clip_size detect_threshold detect_interval;
         match noise_overlap_threshold with
         | Some noise_overlap_threshold =>
             ms4alg_mountainsort4_curation located sorting
               noise_overlap_threshold
         | None => Ok sorting
         end)
    /\ getChannelIds located = getChannelIds prepared
    /\ (forall i chan,
          getChannelIds prepared !! i = Some chan ->
          getChannelProperty located chan "location" = Some [0; Z.of_nat i])
    /\ (forall chan name,
          name ≠ "location" ->
          getChannelProperty located chan name
          = getChannelProperty prepared chan name).
Proof.
  intros Hkept Hms4 Hprep Hloc Hnd.
  exists (default_locations prepared). split.
  - unfold _mountainsort4. rewrite Hms4, Hprep. cbn [negb mbind result_bind].
    by rewrite bool_decide_eq_false_2.
  - unfold default_locations. split; [by apply locations_channels |]. split.
    + intros i chan Hi. apply locations_set; [done | |].
      * by rewrite snd_enumerate.
      * by apply elem_of_enumerate.
    + intros chan name Hname. apply locations_other_channel; [done |].
      by right.
Qed.

Lemma mountainsort4_default_locations_witness :
  _mountainsort4 ToyMs4.two_channels 0 0 None 0 false 0 0 0 None
  = Sorted [Some [0; 0]; Some [0; 1]].
Proof.
  destruct (mountainsort4_default_locations
              (MountainSort0 := ToyMs4.mountain_sort)
              ToyMs4.two_channels ToyMs4.two_channels 0 0 None 0 false 0 0 0
              None)
    as (located & -> & Hids & Hloc & _).
  - split; [| split].
    + intros r chan name value. apply lookup_insert_eq.
    + intros r chan name value chan' name' Hne. by apply lookup_insert_ne.
    + done.
  - reflexivity.
  - reflexivity.
  - apply not_elem_of_nil.
  - repeat constructor; [| apply not_elem_of_nil].
    intros Hin%list_elem_of_singleton. discriminate Hin.
  - pose proof (Hloc 0%nat 5 eq_refl) as H0.
    pose proof (Hloc 1%nat 7 eq_refl) as H1.
    cbn [getChannelProperty getChannelIds ToyMs4.channel_recording]
      in H0, H1, Hids.
    cbn [ms4_of_result mbind result_bind ms4alg_mountainsort4
         ToyMs4.mountain_sort].
    rewrite Hids. cbn [ToyMs4.channel_ids ToyMs4.two_channels fmap list_fmap].
    by rewrite H0, H1.
Defined.
